(** * The TCP server of the RTK Everywhere firmware (TcpServer.ino)

    A shallow embedding of [Firmware/RTK_Everywhere/TcpServer.ino]: the
    client slot table, the per-pass distribution of the ring buffer to the
    clients ([tcpServerSendData]), the reaction to discarded ring-buffer
    bytes ([discardTcpServerBytes]) and the server life cycle
    ([tcpServerUpdate], [tcpServerStop], [tcpServerStopClient],
    [tcpServerSetState]).

    Conventions of the embedding:
    - the file-scope variables of TcpServer.ino are the fields of [State],
      under their source names;
    - everything the routines read but do not own (settings, the clock,
      the network layer, the sockets' answers) is a field of [Env];
    - calls that leave the file (socket writes and stops, the listener, the
      network layer, console output) are recorded, newest first, in the
      [trace] field;
    - [reportFatalError] never returns (it loops printing the message); a
      routine that reaches it has outcome [Halted msg];
    - the entries of [tcpServerClient] are pointers, null until a client is
      accepted into the slot; a routine that calls a method through a null
      entry has outcome [Fault];
    - every [millis()] in the file is a read of the clock of its own: [Env]
      has one field per place where the clock is read;
    - the loops [for (index = 0; index < TCP_SERVER_MAX_CLIENTS; index++)]
      range over [fin TCP_SERVER_MAX_CLIENTS], the arrays of that size are
      [vec]s;
    - the [uint8_t], [uint16_t] and [uint32_t] objects are [Z] with the
      wrap-around written where the source stores into them. *)

From Stdlib Require Import ZArith Lia Bool List String.
From stdpp Require Import base decidable fin vector list.
Import ListNotations.

Local Open Scope Z_scope.

(** ** Fixed-width integers and bit masks *)

Definition uint8 (x : Z) : Z := x mod 2 ^ 8.
Definition uint16 (x : Z) : Z := x mod 2 ^ 16.
Definition uint32 (x : Z) : Z := x mod 2 ^ 32.

(** [#define TCP_SERVER_MAX_CLIENTS 4] and
    [#define TCP_SERVER_CLIENT_DATA_TIMEOUT (15 * 1000)]. *)
Abbreviation TCP_SERVER_MAX_CLIENTS := 4%nat (only parsing).
Definition TCP_SERVER_CLIENT_DATA_TIMEOUT : Z := 15 * 1000.

(** [enum tcpServerStates]. *)
Definition TCP_SERVER_STATE_OFF : Z := 0.
Definition TCP_SERVER_STATE_NETWORK_STARTED : Z := 1.
Definition TCP_SERVER_STATE_RUNNING : Z := 2.
Definition TCP_SERVER_STATE_MAX : Z := 3.

(** [tcpServerStateName[]]; a read past its end is rendered as the empty
    string. *)
Definition tcpServerStateName (st : Z) : string :=
  if st =? 0 then "TCP_SERVER_STATE_OFF"%string
  else if st =? 1 then "TCP_SERVER_STATE_NETWORK_STARTED"%string
  else if st =? 2 then "TCP_SERVER_STATE_RUNNING"%string
  else ""%string.

(** A slot index, the [int index] of the loops. *)
Abbreviation slot := (fin TCP_SERVER_MAX_CLIENTS).

Definition all_slots : list slot := [0%fin; 1%fin; 2%fin; 3%fin].

(** [1 << index] *)
Definition bit (index : slot) : Z := Z.shiftl 1 (Z.of_nat (fin_to_nat index)).

(** [mask & (1 << index)] used as a condition. *)
Definition test_bit (mask : Z) (index : slot) : bool :=
  negb (Z.land mask (bit index) =? 0).

(** [mask |= 1 << index] on a [uint8_t]. *)
Definition set_bit (mask : Z) (index : slot) : Z :=
  uint8 (Z.lor mask (bit index)).

(** [mask &= ~(1 << index)] on a [uint8_t]. *)
Definition clear_bit (mask : Z) (index : slot) : Z :=
  uint8 (Z.land mask (Z.lnot (bit index))).

(** ** Data model *)

Definition IPAddress : Type := Z.

(** The object behind a non-null [tcpServerClient[index]]: the address of
    its peer and whether its socket is still open ([stop()] closes it). *)
Record NetworkClient : Type := mkNetworkClient {
  remoteIP : IPAddress;
  isOpen : bool;
}.

(** [PERIODIC_DISPLAY(x)] and [PERIODIC_CLEAR(x)] are macros of a header that
    is not part of this file; they test and clear one request bit per
    display id.  The three ids used here are kept as three booleans. *)
Record PeriodicDisplay : Type := mkPeriodicDisplay {
  PD_TCP_SERVER_STATE : bool;
  PD_TCP_SERVER_DATA : bool;
  PD_TCP_SERVER_CLIENT_DATA : bool;
}.

(** Calls that leave TcpServer.ino. *)
Inductive event : Type :=
  | EvPrint (msg : string)
  | EvClientWrite (index : slot) (offset length : Z)
  | EvClientStop (index : slot)
  | EvClientAccept (index : slot) (ip : IPAddress)
  | EvServerBegin (port : Z)
  | EvServerStop
  | EvNetworkUserOpen
  | EvNetworkUserClose
  | EvDelay (ms : Z).

(** What a call reads from the rest of the firmware. *)
Record Env : Type := mkEnv {
  settings_debugTcpServer : bool;
  settings_enableTcpServer : bool;
  settings_gnssHandlerBufferSize : Z;
  settings_tcpServerPort : Z;
  inMainMenu : bool;
  (** [DMW_st(routine, state)] calls [routine(state)] when the dead-man
      walking debug aid is on, and is empty otherwise. *)
  deadManWalking : bool;
  (** [millis()] as read by [tcpServerStop] (line 288). *)
  millisAtStop : Z;
  (** [millis()] as read by [tcpServerStopClient(index)] for its display
      (line 306). *)
  millisAtStopClient : slot -> Z;
  (** [millis()] as read by the NETWORK_STARTED case of [tcpServerUpdate]
      for the delay (line 389) and for the timer (line 392). *)
  millisAtDelay : Z;
  millisAtStart : Z;
  (** [millis()] as read by the RUNNING case of [tcpServerUpdate]: at the
      check of the slot [index] (line 426), at the test that ends the
      window (line 478), and for the timer (line 481). *)
  millisAtCheck : slot -> Z;
  millisAtRestart : Z;
  millisAtTimer : Z;
  (** [EQ_RTK_MODE(tcpServerMode)]; [NEQ_RTK_MODE] is its negation. *)
  rtkModeMatches : bool;
  wifiIsConnected : bool;
  networkUserOpen : bool;
  networkIsShuttingDown : bool;
  networkUserConnected : bool;
  (** [new WiFiServer(...)] returned an object. *)
  serverAllocated : bool;
  (** [tcpServerClient[index]->connected()] as far as the peer decides. *)
  clientConnected : slot -> bool;
  (** connections waiting in [tcpServer->available()], oldest first. *)
  available : list IPAddress;
  (** [tcpServerClient[index]->write(&ringBuffer[offset], length)]. *)
  clientWrite : slot -> Z -> Z -> Z;
}.

(** The file-scope variables of TcpServer.ino. *)
Record State : Type := mkState {
  periodicDisplay : PeriodicDisplay;
  online_tcpServer : bool;
  (** [tcpServer]: [None] is [nullptr], [Some port] a listener. *)
  tcpServer : option Z;
  tcpServerState : Z;
  tcpServerTimer : Z;
  tcpServerClientConnected : Z;
  tcpServerClientDataSent : Z;
  tcpServerClientWriteError : Z;
  (** [tcpServerClient[index]] is a pointer: [tcpServerClientIsNull] tells
      whether it is [nullptr], and [tcpServerClient] holds the object behind
      it when it is not. *)
  tcpServerClientIsNull : vec bool TCP_SERVER_MAX_CLIENTS;
  tcpServerClient : vec NetworkClient TCP_SERVER_MAX_CLIENTS;
  tcpServerClientIpAddress : vec IPAddress TCP_SERVER_MAX_CLIENTS;
  tcpServerClientTails : vec Z TCP_SERVER_MAX_CLIENTS;
  (** the network layer holds NETWORK_USER_TCP_SERVER open. *)
  networkUser : bool;
  trace : list event;
}.

(** Field updates. *)
Definition set_periodicDisplay (v : PeriodicDisplay) (s : State) : State :=
  mkState v (online_tcpServer s) (tcpServer s) (tcpServerState s)
    (tcpServerTimer s) (tcpServerClientConnected s)
    (tcpServerClientDataSent s) (tcpServerClientWriteError s)
    (tcpServerClientIsNull s) (tcpServerClient s)
    (tcpServerClientIpAddress s)
    (tcpServerClientTails s) (networkUser s) (trace s).

Definition set_online_tcpServer (v : bool) (s : State) : State :=
  mkState (periodicDisplay s) v (tcpServer s) (tcpServerState s)
    (tcpServerTimer s) (tcpServerClientConnected s)
    (tcpServerClientDataSent s) (tcpServerClientWriteError s)
    (tcpServerClientIsNull s) (tcpServerClient s)
    (tcpServerClientIpAddress s)
    (tcpServerClientTails s) (networkUser s) (trace s).

Definition set_tcpServer (v : option Z) (s : State) : State :=
  mkState (periodicDisplay s) (online_tcpServer s) v (tcpServerState s)
    (tcpServerTimer s) (tcpServerClientConnected s)
    (tcpServerClientDataSent s) (tcpServerClientWriteError s)
    (tcpServerClientIsNull s) (tcpServerClient s)
    (tcpServerClientIpAddress s)
    (tcpServerClientTails s) (networkUser s) (trace s).

Definition set_tcpServerState (v : Z) (s : State) : State :=
  mkState (periodicDisplay s) (online_tcpServer s) (tcpServer s) v
    (tcpServerTimer s) (tcpServerClientConnected s)
    (tcpServerClientDataSent s) (tcpServerClientWriteError s)
    (tcpServerClientIsNull s) (tcpServerClient s)
    (tcpServerClientIpAddress s)
    (tcpServerClientTails s) (networkUser s) (trace s).

Definition set_tcpServerTimer (v : Z) (s : State) : State :=
  mkState (periodicDisplay s) (online_tcpServer s) (tcpServer s)
    (tcpServerState s) v (tcpServerClientConnected s)
    (tcpServerClientDataSent s) (tcpServerClientWriteError s)
    (tcpServerClientIsNull s) (tcpServerClient s)
    (tcpServerClientIpAddress s)
    (tcpServerClientTails s) (networkUser s) (trace s).

Definition set_tcpServerClientConnected (v : Z) (s : State) : State :=
  mkState (periodicDisplay s) (online_tcpServer s) (tcpServer s)
    (tcpServerState s) (tcpServerTimer s) v
    (tcpServerClientDataSent s) (tcpServerClientWriteError s)
    (tcpServerClientIsNull s) (tcpServerClient s)
    (tcpServerClientIpAddress s)
    (tcpServerClientTails s) (networkUser s) (trace s).

Definition set_tcpServerClientDataSent (v : Z) (s : State) : State :=
  mkState (periodicDisplay s) (online_tcpServer s) (tcpServer s)
    (tcpServerState s) (tcpServerTimer s) (tcpServerClientConnected s)
    v (tcpServerClientWriteError s)
    (tcpServerClientIsNull s) (tcpServerClient s)
    (tcpServerClientIpAddress s)
    (tcpServerClientTails s) (networkUser s) (trace s).

Definition set_tcpServerClientWriteError (v : Z) (s : State) : State :=
  mkState (periodicDisplay s) (online_tcpServer s) (tcpServer s)
    (tcpServerState s) (tcpServerTimer s) (tcpServerClientConnected s)
    (tcpServerClientDataSent s) v
    (tcpServerClientIsNull s) (tcpServerClient s)
    (tcpServerClientIpAddress s)
    (tcpServerClientTails s) (networkUser s) (trace s).

Definition set_tcpServerClient
    (v : vec NetworkClient TCP_SERVER_MAX_CLIENTS) (s : State) : State :=
  mkState (periodicDisplay s) (online_tcpServer s) (tcpServer s)
    (tcpServerState s) (tcpServerTimer s) (tcpServerClientConnected s)
    (tcpServerClientDataSent s) (tcpServerClientWriteError s)
    (tcpServerClientIsNull s) v (tcpServerClientIpAddress s)
    (tcpServerClientTails s) (networkUser s) (trace s).

Definition set_tcpServerClientIsNull
    (v : vec bool TCP_SERVER_MAX_CLIENTS) (s : State) : State :=
  mkState (periodicDisplay s) (online_tcpServer s) (tcpServer s)
    (tcpServerState s) (tcpServerTimer s) (tcpServerClientConnected s)
    (tcpServerClientDataSent s) (tcpServerClientWriteError s)
    v (tcpServerClient s) (tcpServerClientIpAddress s)
    (tcpServerClientTails s) (networkUser s) (trace s).

Definition set_tcpServerClientIpAddress
    (v : vec IPAddress TCP_SERVER_MAX_CLIENTS) (s : State) : State :=
  mkState (periodicDisplay s) (online_tcpServer s) (tcpServer s)
    (tcpServerState s) (tcpServerTimer s) (tcpServerClientConnected s)
    (tcpServerClientDataSent s) (tcpServerClientWriteError s)
    (tcpServerClientIsNull s) (tcpServerClient s) v
    (tcpServerClientTails s) (networkUser s) (trace s).

Definition set_tcpServerClientTails
    (v : vec Z TCP_SERVER_MAX_CLIENTS) (s : State) : State :=
  mkState (periodicDisplay s) (online_tcpServer s) (tcpServer s)
    (tcpServerState s) (tcpServerTimer s) (tcpServerClientConnected s)
    (tcpServerClientDataSent s) (tcpServerClientWriteError s)
    (tcpServerClientIsNull s) (tcpServerClient s)
    (tcpServerClientIpAddress s)
    v (networkUser s) (trace s).

Definition set_networkUser (v : bool) (s : State) : State :=
  mkState (periodicDisplay s) (online_tcpServer s) (tcpServer s)
    (tcpServerState s) (tcpServerTimer s) (tcpServerClientConnected s)
    (tcpServerClientDataSent s) (tcpServerClientWriteError s)
    (tcpServerClientIsNull s) (tcpServerClient s)
    (tcpServerClientIpAddress s)
    (tcpServerClientTails s) v (trace s).

Definition emit (ev : event) (s : State) : State :=
  mkState (periodicDisplay s) (online_tcpServer s) (tcpServer s)
    (tcpServerState s) (tcpServerTimer s) (tcpServerClientConnected s)
    (tcpServerClientDataSent s) (tcpServerClientWriteError s)
    (tcpServerClientIsNull s) (tcpServerClient s)
    (tcpServerClientIpAddress s)
    (tcpServerClientTails s) (networkUser s) (ev :: trace s).

(** [systemPrint], [systemPrintf], [systemPrintln]: the format string is
    recorded, its arguments are not. *)
Definition systemPrint (msg : string) (s : State) : State :=
  emit (EvPrint msg) s.

(** [PERIODIC_CLEAR(x)] for the three display ids. *)
Definition clear_PD_TCP_SERVER_STATE (s : State) : State :=
  set_periodicDisplay
    (mkPeriodicDisplay false (PD_TCP_SERVER_DATA (periodicDisplay s))
       (PD_TCP_SERVER_CLIENT_DATA (periodicDisplay s))) s.

Definition clear_PD_TCP_SERVER_DATA (s : State) : State :=
  set_periodicDisplay
    (mkPeriodicDisplay (PD_TCP_SERVER_STATE (periodicDisplay s)) false
       (PD_TCP_SERVER_CLIENT_DATA (periodicDisplay s))) s.

Definition clear_PD_TCP_SERVER_CLIENT_DATA (s : State) : State :=
  set_periodicDisplay
    (mkPeriodicDisplay (PD_TCP_SERVER_STATE (periodicDisplay s))
       (PD_TCP_SERVER_DATA (periodicDisplay s)) false) s.

(** [tcpServerClient[index]->stop()]. *)
Definition client_stop (index : slot) (s : State) : State :=
  emit (EvClientStop index)
    (set_tcpServerClient
       (vinsert index
          (mkNetworkClient (remoteIP (tcpServerClient s !!! index)) false)
          (tcpServerClient s)) s).

(** ** Outcomes: a routine returns, halts in [reportFatalError], or calls
    a method through a null pointer *)

Inductive outcome (A : Type) : Type :=
  | Ret (a : A)
  | Halted (msg : string)
  | Fault.
Arguments Ret {A} a.
Arguments Halted {A} msg.
Arguments Fault {A}.

#[global] Instance outcome_ret : MRet outcome := fun A a => Ret a.

#[global] Instance outcome_bind : MBind outcome := fun A B k m =>
  match m with
  | Ret a => k a
  | Halted msg => Halted msg
  | Fault => Fault
  end.

(** [tcpServerClient[index]->method()]: the pointer must not be null. *)
Definition deref (index : slot) (s : State) : outcome NetworkClient :=
  if (tcpServerClientIsNull s !!! index : bool) then Fault
  else Ret (tcpServerClient s !!! index).

(** A loop [for (index = 0; index < TCP_SERVER_MAX_CLIENTS; index++)] whose
    body may not return. *)
Definition for_slots (body : slot -> State -> outcome State)
    (indexes : list slot) (s : State) : outcome State :=
  fold_left (fun acc index => s ← acc; body index s) indexes (Ret s).

(** [reportFatalError]: [while (1)] around the prints of "HALTED: " and the
    message. *)
Definition reportFatalError {A : Type} (errorMsg : string) : outcome A :=
  Halted errorMsg.

(** ** TCP Server handleGnssDataTask support routines *)

(** The condition
    [(settings.debugTcpServer || PERIODIC_DISPLAY(x)) && (!inMainMenu)]. *)
Definition display_active (e : Env) (requested : bool) : bool :=
  (settings_debugTcpServer e || requested) && negb (inMainMenu e).

(** [tcpServerClientSendData(index, data, length)]: [data] is the offset of
    the first byte in [ringBuffer].  [RING_BUFFER_OFFSET] is [uint16_t].
    [tcpServerSendData] calls it for connected slots only, whose pointer is
    set. *)
Definition tcpServerClientSendData (e : Env) (index : slot)
    (data length : Z) (s : State) : Z * State :=
  let length := uint16 length in
  let s := emit (EvClientWrite index data length) s in
  let length := uint16 (clientWrite e index data length) in
  if 0 <? length then
    let s :=
      set_tcpServerClientDataSent
        (set_bit (tcpServerClientDataSent s) index) s in
    let s :=
      if display_active e (PD_TCP_SERVER_CLIENT_DATA (periodicDisplay s))
      then systemPrint "TCP server wrote %d bytes to %d.%d.%d.%d"
             (clear_PD_TCP_SERVER_CLIENT_DATA s)
      else s in
    (length, s)
  else
    let s :=
      if display_active e (PD_TCP_SERVER_CLIENT_DATA (periodicDisplay s))
      then systemPrint
             "TCP server breaking connection %d with client %d.%d.%d.%d"
             (clear_PD_TCP_SERVER_CLIENT_DATA s)
      else s in
    let s := client_stop index s in
    let s :=
      set_tcpServerClientConnected
        (clear_bit (tcpServerClientConnected s) index) s in
    let s :=
      set_tcpServerClientWriteError
        (set_bit (tcpServerClientWriteError s) index) s in
    (0, s).

(** [dataHead - tail], plus the buffer size when negative: the two
    computations of [bytesToSend] in [tcpServerSendData]. *)
Definition bytesInBuffer (e : Env) (dataHead tail : Z) : Z :=
  let bytesToSend := dataHead - tail in
  if bytesToSend <? 0 then bytesToSend + settings_gnssHandlerBufferSize e
  else bytesToSend.

(** The body of the loop of [tcpServerSendData], on [usedSpace] and the
    state. *)
Definition tcpServerSendData_index (e : Env) (dataHead : Z) (index : slot)
    (acc : Z * State) : Z * State :=
  let '(usedSpace, s) := acc in
  let tail := tcpServerClientTails s !!! index in
  if negb (test_bit (tcpServerClientConnected s) index) then
    (usedSpace,
     set_tcpServerClientTails
       (vinsert index dataHead (tcpServerClientTails s)) s)
  else
    let bytesToSend := bytesInBuffer e dataHead tail in
    if 0 <? bytesToSend then
      let bytesToSend :=
        if settings_gnssHandlerBufferSize e <? tail + bytesToSend
        then settings_gnssHandlerBufferSize e - tail
        else bytesToSend in
      let '(bytesToSend, s) :=
        tcpServerClientSendData e index tail bytesToSend s in
      let tail := uint16 (tail + bytesToSend) in
      let tail :=
        if settings_gnssHandlerBufferSize e <=? tail
        then uint16 (tail - settings_gnssHandlerBufferSize e)
        else tail in
      let bytesToSend := bytesInBuffer e dataHead tail in
      let usedSpace :=
        if usedSpace <? bytesToSend then bytesToSend else usedSpace in
      (usedSpace,
       set_tcpServerClientTails
         (vinsert index tail (tcpServerClientTails s)) s)
    else
      (usedSpace,
       set_tcpServerClientTails
         (vinsert index tail (tcpServerClientTails s)) s).

(** [tcpServerSendData(dataHead)]: the returned [usedSpace] and the state. *)
Definition tcpServerSendData (e : Env) (dataHead : Z) (s : State)
    : Z * State :=
  fold_left (fun acc index => tcpServerSendData_index e dataHead index acc)
    all_slots (0, s).

(** The body of the loop of [discardTcpServerBytes]. *)
Definition discardTcpServerBytes_index (previousTail newTail : Z)
    (index : slot) (s : State) : State :=
  let tail := tcpServerClientTails s !!! index in
  if previousTail <? newTail then
    if (previousTail <=? tail) && (tail <? newTail)
    then set_tcpServerClientTails
           (vinsert index newTail (tcpServerClientTails s)) s
    else s
  else
    if (previousTail <=? tail) || (tail <? newTail)
    then set_tcpServerClientTails
           (vinsert index newTail (tcpServerClientTails s)) s
    else s.

(** [discardTcpServerBytes(previousTail, newTail)]. *)
Definition discardTcpServerBytes (previousTail newTail : Z) (s : State)
    : State :=
  fold_left (fun s index =>
               discardTcpServerBytes_index previousTail newTail index s)
    all_slots s.

(** ** TCP Server routines *)

(** [tcpServerSetState(newState)]. *)
Definition tcpServerSetState (e : Env) (newState : Z) (s : State)
    : outcome State :=
  let s :=
    if display_active e (PD_TCP_SERVER_STATE (periodicDisplay s)) then
      if tcpServerState s =? newState then systemPrint "*" s
      else systemPrint (tcpServerStateName (tcpServerState s) ++ " --> ") s
    else s in
  let s := set_tcpServerState newState s in
  if display_active e (PD_TCP_SERVER_STATE (periodicDisplay s)) then
    let s := clear_PD_TCP_SERVER_STATE s in
    if TCP_SERVER_STATE_MAX <=? newState then
      reportFatalError "Unknown TCP Server state"
    else Ret (systemPrint (tcpServerStateName (tcpServerState s)) s)
  else Ret s.

(** [tcpServerStart()]. *)
Definition tcpServerStart (e : Env) (s : State) : bool * State :=
  let s :=
    if settings_debugTcpServer e && negb (inMainMenu e)
    then systemPrint "TCP server starting the server" s
    else s in
  if negb (serverAllocated e) then (false, set_tcpServer None s)
  else
    let s := set_tcpServer (Some (settings_tcpServerPort e)) s in
    let s := emit (EvServerBegin (settings_tcpServerPort e)) s in
    let s := set_online_tcpServer true s in
    (true,
     systemPrint "TCP server online, IP address %d.%d.%d.%d:%d" s).

(** [tcpServerClient[index]->connected()]: false once the socket has been
    stopped, else up to the peer. *)
Definition client_connected (e : Env) (index : slot) (s : State) : bool :=
  isOpen (tcpServerClient s !!! index) && clientConnected e index.

(** [((millis() - tcpServerTimer) < TCP_SERVER_CLIENT_DATA_TIMEOUT) ||
     (tcpServerClientDataSent & (1 << index))], for the value [now] that
    [millis()] returns. *)
Definition client_dataSent (now : Z) (index : slot) (s : State) : bool :=
  (uint32 (now - tcpServerTimer s) <? TCP_SERVER_CLIENT_DATA_TIMEOUT)
  || test_bit (tcpServerClientDataSent s) index.

(** [tcpServerStopClient(index)]. *)
Definition tcpServerStopClient (e : Env) (index : slot) (s : State)
    : outcome State :=
  s ← (if display_active e (PD_TCP_SERVER_DATA (periodicDisplay s)) then
         let s := clear_PD_TCP_SERVER_DATA s in
         client ← deref index s;
         let connected :=
           isOpen client && clientConnected e index
           && negb (test_bit (tcpServerClientWriteError s) index) in
         let dataSent :=
           client_dataSent (millisAtStopClient e index) index s in
         let s :=
           if negb dataSent
           then systemPrint "TCP Server: No data sent over %d seconds" s
           else s in
         let s :=
           if negb connected
           then systemPrint "TCP Server: Link to client broken" s
           else s in
         Ret (systemPrint
                "TCP server client %d disconnected from %d.%d.%d.%d" s)
       else Ret s);
  _ ← deref index s;
  let s := client_stop index s in
  let s :=
    set_tcpServerClientConnected
      (clear_bit (tcpServerClientConnected s) index) s in
  Ret (set_tcpServerClientWriteError
         (clear_bit (tcpServerClientWriteError s) index) s).

(** [tcpServerStop()]. *)
Definition tcpServerStop (e : Env) (s : State) : outcome State :=
  let s :=
    if online_tcpServer s
    then emit (EvDelay 5) (set_online_tcpServer false s)
    else s in
  s ← (if negb (tcpServerClientConnected s =? 0)
       then for_slots (tcpServerStopClient e) all_slots s
       else Ret s);
  let s :=
    match tcpServer s with
    | Some _ =>
        let s :=
          if settings_debugTcpServer e && negb (inMainMenu e)
          then systemPrint "TCP server stopping" s
          else s in
        set_tcpServer None (emit EvServerStop s)
    | None => s
    end in
  if negb (tcpServerState s =? TCP_SERVER_STATE_OFF) then
    let s := set_networkUser false (emit EvNetworkUserClose s) in
    s ← tcpServerSetState e TCP_SERVER_STATE_OFF s;
    Ret (set_tcpServerTimer (millisAtStop e) s)
  else Ret s.

(** First loop of the RUNNING case of [tcpServerUpdate]: one slot. *)
Definition tcpServerUpdate_checkClient (e : Env) (index : slot) (s : State)
    : outcome State :=
  if test_bit (tcpServerClientConnected s) index then
    client ← deref index s;
    let connected := isOpen client && clientConnected e index in
    let dataSent := client_dataSent (millisAtCheck e index) index s in
    if connected && dataSent then
      if PD_TCP_SERVER_DATA (periodicDisplay s) && negb (inMainMenu e)
      then Ret (systemPrint "TCP server client %d connected to %d.%d.%d.%d"
                  (clear_PD_TCP_SERVER_DATA s))
      else Ret s
    else tcpServerStopClient e index s
  else Ret s.

(** Second loop of the RUNNING case: the slots still to visit and the
    connections [tcpServer->available()] still has; the loop ends at the
    first free slot for which no connection is waiting. *)
Fixpoint tcpServerUpdate_acceptClients (e : Env) (indexes : list slot)
    (pending : list IPAddress) (s : State) : State :=
  match indexes with
  | [] => s
  | index :: indexes =>
      if negb (test_bit (tcpServerClientConnected s) index) then
        match pending with
        | [] => s
        | client :: pending =>
            let s := emit (EvClientAccept index client) s in
            let s :=
              set_tcpServerClientIsNull
                (vinsert index false (tcpServerClientIsNull s)) s in
            let s :=
              set_tcpServerClient
                (vinsert index (mkNetworkClient client true)
                   (tcpServerClient s)) s in
            let s :=
              set_tcpServerClientIpAddress
                (vinsert index client (tcpServerClientIpAddress s)) s in
            let s :=
              set_tcpServerClientConnected
                (set_bit (tcpServerClientConnected s) index) s in
            let s :=
              set_tcpServerClientDataSent
                (set_bit (tcpServerClientDataSent s) index) s in
            let s :=
              if display_active e (PD_TCP_SERVER_DATA (periodicDisplay s))
              then systemPrint
                     "TCP server client %d connected to %d.%d.%d.%d"
                     (clear_PD_TCP_SERVER_DATA s)
              else s in
            tcpServerUpdate_acceptClients e indexes pending s
        end
      else tcpServerUpdate_acceptClients e indexes pending s
  end.

(** End of the RUNNING case: restart the data verification. *)
Definition tcpServerUpdate_restartTimer (e : Env) (s : State) : State :=
  if TCP_SERVER_CLIENT_DATA_TIMEOUT
     <=? uint32 (millisAtRestart e - tcpServerTimer s)
  then set_tcpServerClientDataSent 0
         (set_tcpServerTimer (millisAtTimer e) s)
  else s.

(** The [switch (tcpServerState)] of [tcpServerUpdate]. *)
Definition tcpServerUpdate_switch (e : Env) (s : State) : outcome State :=
  if tcpServerState s =? TCP_SERVER_STATE_OFF then
    if rtkModeMatches e && settings_enableTcpServer e
       && negb (wifiIsConnected e) then
      let s := emit EvNetworkUserOpen s in
      if networkUserOpen e then
        let s := set_networkUser true s in
        let s :=
          if settings_debugTcpServer e && negb (inMainMenu e)
          then systemPrint "TCP server starting the network" s
          else s in
        tcpServerSetState e TCP_SERVER_STATE_NETWORK_STARTED s
      else Ret s
    else Ret s
  else if tcpServerState s =? TCP_SERVER_STATE_NETWORK_STARTED then
    if networkIsShuttingDown e then tcpServerStop e s
    else if networkUserConnected e then
      if 1 * 1000 <=? uint32 (millisAtDelay e - tcpServerTimer s) then
        let s := set_tcpServerTimer (millisAtStart e) s in
        let '(started, s) := tcpServerStart e s in
        if started then tcpServerSetState e TCP_SERVER_STATE_RUNNING s
        else Ret s
      else Ret s
    else Ret s
  else if tcpServerState s =? TCP_SERVER_STATE_RUNNING then
    if negb (settings_enableTcpServer e) || networkIsShuttingDown e then
      let s :=
        if display_active e (PD_TCP_SERVER_DATA (periodicDisplay s))
        then systemPrint "TCP server initiating shutdown"
               (clear_PD_TCP_SERVER_DATA s)
        else s in
      tcpServerStop e s
    else
      s ← for_slots (tcpServerUpdate_checkClient e) all_slots s;
      let s := tcpServerUpdate_acceptClients e all_slots (available e) s in
      Ret (tcpServerUpdate_restartTimer e s)
  else Ret s.

(** [tcpServerUpdate()]. *)
Definition tcpServerUpdate (e : Env) (s : State) : outcome State :=
  s ← (if deadManWalking e then tcpServerSetState e (tcpServerState s) s
       else Ret s);
  s ← (if negb (rtkModeMatches e) || negb (settings_enableTcpServer e) then
         if TCP_SERVER_STATE_OFF <? tcpServerState s then tcpServerStop e s
         else Ret s
       else Ret s);
  s ← tcpServerUpdate_switch e s;
  if PD_TCP_SERVER_STATE (periodicDisplay s) && negb (inMainMenu e)
  then tcpServerSetState e (tcpServerState s) s
  else Ret s.

(** [tcpServerZeroTail()]. *)
Definition tcpServerZeroTail (s : State) : State :=
  fold_left (fun s index =>
               set_tcpServerClientTails
                 (vinsert index 0 (tcpServerClientTails s)) s)
    all_slots s.

(** ** Notions used to state the properties *)

(** What one iteration of the loop of [discardTcpServerBytes] does to the
    tail it visits. *)
Definition discard_tail (previousTail newTail tail : Z) : Z :=
  if previousTail <? newTail then
    if (previousTail <=? tail) && (tail <? newTail) then newTail else tail
  else
    if (previousTail <=? tail) || (tail <? newTail) then newTail else tail.

(** Membership of an offset in the circular range [oldTail, newTail) of a
    buffer of [C] bytes: its distance from [oldTail], going forward, is
    less than the length of the range. *)
Definition in_discarded_range (C oldTail newTail tail : Z) : bool :=
  (tail - oldTail) mod C <? (newTail - oldTail) mod C.

(** The number of unread bytes of a consumer at [tail] when the producer is
    at [head], in a circular buffer of [C] bytes. *)
Definition unread (C head tail : Z) : Z := (head - tail) mod C.

(** The offsets in [0, C) are [uint16_t] values. *)
Definition buffer_ok (e : Env) : Prop :=
  0 < settings_gnssHandlerBufferSize e <= 2 ^ 16.

Definition in_buffer (e : Env) (offset : Z) : Prop :=
  0 <= offset < settings_gnssHandlerBufferSize e.

(** A socket write accepts no more than it is offered. *)
Definition write_bounded (e : Env) : Prop :=
  forall (index : slot) (offset length : Z),
    0 <= length -> 0 <= clientWrite e index offset length <= length.

(** A slot is occupied when its bit of [tcpServerClientConnected] is set. *)
Definition occupied (s : State) (index : slot) : bool :=
  test_bit (tcpServerClientConnected s) index.

(** What the firmware knows about one slot: its three flag bits, its client
    object, the address copied at accept time and its tail. *)
Record SlotView : Type := mkSlotView {
  sv_connected : bool;
  sv_dataSent : bool;
  sv_writeError : bool;
  sv_client : NetworkClient;
  sv_ipAddress : IPAddress;
  sv_tail : Z;
}.

Definition slot_view (s : State) (index : slot) : SlotView :=
  mkSlotView
    (test_bit (tcpServerClientConnected s) index)
    (test_bit (tcpServerClientDataSent s) index)
    (test_bit (tcpServerClientWriteError s) index)
    (tcpServerClient s !!! index)
    (tcpServerClientIpAddress s !!! index)
    (tcpServerClientTails s !!! index).

(** The socket calls made for one slot. *)
Definition event_about (index : slot) (ev : event) : bool :=
  match ev with
  | EvClientWrite j _ _ => bool_decide (j = index)
  | EvClientStop j => bool_decide (j = index)
  | EvClientAccept j _ => bool_decide (j = index)
  | _ => false
  end.

Definition slot_events (index : slot) (s : State) : list event :=
  List.filter (event_about index) (trace s).

(** What a loop over the slots can change for one slot: its view and the
    socket calls made for it. *)
Definition slot_obs (s : State) (index : slot) : SlotView * list event :=
  (slot_view s index, slot_events index s).

(** The writes made to the socket of one slot, newest first, as pairs of
    offset and length. *)
Definition slot_writes (index : slot) (s : State) : list (Z * Z) :=
  omap (fun ev => match ev with
                  | EvClientWrite _ offset length => Some (offset, length)
                  | _ => None
                  end)
    (slot_events index s).

(** The maximum of the unread byte counts of the slots of [connected]. *)
Definition max_unread (C head : Z) (connected : slot -> bool)
    (tails : vec Z TCP_SERVER_MAX_CLIENTS) : Z :=
  foldr Z.max 0
    (map (fun index => unread C head (tails !!! index))
       (List.filter connected all_slots)).

(** The view of a slot that [tcpServerStopClient] has just visited. *)
Definition dropped_view (v : SlotView) : SlotView :=
  mkSlotView false (sv_dataSent v) false
    (mkNetworkClient (remoteIP (sv_client v)) false)
    (sv_ipAddress v) (sv_tail v).

(** The view of a slot whose write has just failed in
    [tcpServerClientSendData]. *)
Definition write_failed_view (v : SlotView) : SlotView :=
  mkSlotView false (sv_dataSent v) true
    (mkNetworkClient (remoteIP (sv_client v)) false)
    (sv_ipAddress v) (sv_tail v).

(** The view of a slot after a write that the socket accepted. *)
Definition write_ok_view (v : SlotView) : SlotView :=
  mkSlotView (sv_connected v) true (sv_writeError v)
    (sv_client v) (sv_ipAddress v) (sv_tail v).

(** The slot table: the three masks and the three arrays, the pointers of
    [tcpServerClient] last. *)
Definition slot_table (s : State) :=
  (tcpServerClientConnected s, tcpServerClientDataSent s,
   tcpServerClientWriteError s, tcpServerClient s,
   tcpServerClientIpAddress s, tcpServerClientTails s,
   tcpServerClientIsNull s).

(** The listener, the network handle and the timer. *)
Definition service (s : State) :=
  (online_tcpServer s, tcpServer s, tcpServerTimer s, networkUser s).

(** Two states that differ at most in the console output and in the
    pending periodic displays. *)
Definition same_but_display (s s' : State) : Prop :=
  tcpServerState s' = tcpServerState s
  /\ slot_table s' = slot_table s
  /\ service s' = service s
  /\ (forall i : slot, slot_events i s' = slot_events i s).

(** A state value outside [enum tcpServerStates]. *)
Definition unknown_state (st : Z) : Prop := TCP_SERVER_STATE_MAX <= st.

(** What [tcpServerStopClient(index)] leaves when [tcpServerClient[index]]
    is an object. *)
Definition stopClient (e : Env) (index : slot) (s : State) : State :=
  let s :=
    if display_active e (PD_TCP_SERVER_DATA (periodicDisplay s)) then
      let s := clear_PD_TCP_SERVER_DATA s in
      let connected :=
        client_connected e index s
        && negb (test_bit (tcpServerClientWriteError s) index) in
      let dataSent :=
        client_dataSent (millisAtStopClient e index) index s in
      let s :=
        if negb dataSent
        then systemPrint "TCP Server: No data sent over %d seconds" s
        else s in
      let s :=
        if negb connected
        then systemPrint "TCP Server: Link to client broken" s
        else s in
      systemPrint "TCP server client %d disconnected from %d.%d.%d.%d" s
    else s in
  let s := client_stop index s in
  let s :=
    set_tcpServerClientConnected
      (clear_bit (tcpServerClientConnected s) index) s in
  set_tcpServerClientWriteError
    (clear_bit (tcpServerClientWriteError s) index) s.

(** What the check of one slot leaves when the slot is free or
    [tcpServerClient[index]] is an object. *)
Definition checkClient (e : Env) (index : slot) (s : State) : State :=
  if test_bit (tcpServerClientConnected s) index then
    let connected := client_connected e index s in
    let dataSent := client_dataSent (millisAtCheck e index) index s in
    if connected && dataSent then
      if PD_TCP_SERVER_DATA (periodicDisplay s) && negb (inMainMenu e)
      then systemPrint "TCP server client %d connected to %d.%d.%d.%d"
             (clear_PD_TCP_SERVER_DATA s)
      else s
    else stopClient e index s
  else s.

(** What the three steps of the RUNNING case leave, when the server stays
    up and every occupied slot has its object. *)
Definition running_pass (e : Env) (s : State) : State :=
  tcpServerUpdate_restartTimer e
    (tcpServerUpdate_acceptClients e all_slots (available e)
       (fold_left (fun s index => checkClient e index s) all_slots s)).

(** Every occupied slot has its object. *)
Definition occupied_set (s : State) : Prop :=
  forall i : slot, occupied s i = true -> tcpServerClientIsNull s !!! i = false.

(** [millis() - tcpServerTimer] for the value [now] that [millis()]
    returns: the time since the timer was restarted. *)
Definition elapsed (now : Z) (s : State) : Z :=
  uint32 (now - tcpServerTimer s).

(** A slot is dropped between [s] and [s']: its socket is stopped, and it is
    free afterwards unless a waiting connection was accepted into it right
    after the stop. *)
Definition dropped (index : slot) (s s' : State) : Prop :=
  (slot_events index s' = EvClientStop index :: slot_events index s
   /\ occupied s' index = false)
  \/ (exists ip : IPAddress,
        slot_events index s'
        = EvClientAccept index ip :: EvClientStop index
            :: slot_events index s
        /\ occupied s' index = true).

(** A slot keeps its client between [s] and [s']. *)
Definition kept (index : slot) (s s' : State) : Prop :=
  occupied s' index = true
  /\ slot_events index s' = slot_events index s
  /\ tcpServerClient s' !!! index = tcpServerClient s !!! index.

(** ** Histories *)

(** A history of the service: calls of [tcpServerUpdate] (from the main
    loop), of [tcpServerSendData] and of [discardTcpServerBytes] (from the
    task that fills the ring buffer). *)
Inductive action : Type :=
  | Tick (e : Env)
  | Send (e : Env) (dataHead : Z)
  | Discard (previousTail newTail : Z).

Definition perform (a : action) (s : State) : outcome State :=
  match a with
  | Tick e => tcpServerUpdate e s
  | Send e dataHead => Ret (snd (tcpServerSendData e dataHead s))
  | Discard previousTail newTail =>
      Ret (discardTcpServerBytes previousTail newTail s)
  end.

Fixpoint run (history : list action) (s : State) : outcome State :=
  match history with
  | [] => Ret s
  | a :: history => s ← perform a s; run history s
  end.

(** ** Sample states and environments *)

(** The variables as the C++ start-up code leaves them: all zero. *)
Definition initial_state : State :=
  mkState (mkPeriodicDisplay false false false) false None
    TCP_SERVER_STATE_OFF 0 0 0 0
    (vreplicate _ true) (vreplicate _ (mkNetworkClient 0 false))
    (vreplicate _ 0) (vreplicate _ 0) false [].

(** A quiet environment (no debug output, server enabled, mode matching,
    network up, buffer of [C] bytes) in which every read of the clock gives
    [now], with the given waiting connections, peers and socket writes. *)
Definition quiet_env (C now : Z) (waiting : list IPAddress)
    (alive : slot -> bool) (write : slot -> Z -> Z -> Z) : Env :=
  mkEnv false true C 2948 false false now (fun _ => now) now now
    (fun _ => now) now now true false true false true true
    alive waiting write.

Definition all_alive : slot -> bool := fun _ => true.
Definition write_all : slot -> Z -> Z -> Z := fun _ _ length => length.

(** Sockets that accept at most 4 bytes per write. *)
Definition write_4 : slot -> Z -> Z -> Z :=
  fun _ _ length => Z.min length 4.

(** The socket of slot 1 fails, the others accept everything. *)
Definition write_fail_1 : slot -> Z -> Z -> Z :=
  fun index _ length => if bool_decide (index = 1%fin) then 0 else length.

Definition nobody_alive : slot -> bool := fun _ => false.

(** The same environment with [settings.debugTcpServer] set. *)
Definition debug_on (e : Env) : Env :=
  mkEnv true (settings_enableTcpServer e) (settings_gnssHandlerBufferSize e)
    (settings_tcpServerPort e) (inMainMenu e) (deadManWalking e)
    (millisAtStop e) (millisAtStopClient e) (millisAtDelay e)
    (millisAtStart e) (millisAtCheck e) (millisAtRestart e)
    (millisAtTimer e) (rtkModeMatches e) (wifiIsConnected e)
    (networkUserOpen e)
    (networkIsShuttingDown e) (networkUserConnected e) (serverAllocated e)
    (clientConnected e) (available e) (clientWrite e).

(** The same environment when the clock has moved on to [now] by the time
    the RUNNING case of [tcpServerUpdate] tests whether to restart the
    window (lines 478 and 481). *)
Definition restart_read_at (now : Z) (e : Env) : Env :=
  mkEnv (settings_debugTcpServer e) (settings_enableTcpServer e)
    (settings_gnssHandlerBufferSize e) (settings_tcpServerPort e)
    (inMainMenu e) (deadManWalking e) (millisAtStop e)
    (millisAtStopClient e) (millisAtDelay e) (millisAtStart e)
    (millisAtCheck e) now now
    (rtkModeMatches e) (wifiIsConnected e) (networkUserOpen e)
    (networkIsShuttingDown e) (networkUserConnected e) (serverAllocated e)
    (clientConnected e) (available e) (clientWrite e).

(** The same environment with the network shutting down. *)
Definition shutting_down (e : Env) : Env :=
  mkEnv (settings_debugTcpServer e) (settings_enableTcpServer e)
    (settings_gnssHandlerBufferSize e) (settings_tcpServerPort e)
    (inMainMenu e) (deadManWalking e) (millisAtStop e)
    (millisAtStopClient e) (millisAtDelay e) (millisAtStart e)
    (millisAtCheck e) (millisAtRestart e) (millisAtTimer e)
    (rtkModeMatches e) (wifiIsConnected e) (networkUserOpen e) true
    (networkUserConnected e)
    (serverAllocated e) (clientConnected e) (available e) (clientWrite e).

(** A state with the given tails and nothing else. *)
Definition with_tails (t0 t1 t2 t3 : Z) : State :=
  set_tcpServerClientTails [# t0; t1; t2; t3] initial_state.

(** The server running with clients 11 and 22 in slots 0 and 1, which have
    read up to offsets 4 and 0; slots 2 and 3 are free and have never held
    a client. *)
Definition two_clients : State :=
  mkState (mkPeriodicDisplay false false false) true (Some 2948)
    TCP_SERVER_STATE_RUNNING 1000 3 3 0
    [# false; false; true; true]
    [# mkNetworkClient 11 true; mkNetworkClient 22 true;
       mkNetworkClient 0 false; mkNetworkClient 0 false]
    [# 11; 22; 0; 0] [# 4; 0; 7; 7] true [].

(** The server running with the four slots occupied, by clients 11, 22, 33
    and 44. *)
Definition four_clients : State :=
  mkState (mkPeriodicDisplay false false false) true (Some 2948)
    TCP_SERVER_STATE_RUNNING 1000 15 15 0
    [# false; false; false; false]
    [# mkNetworkClient 11 true; mkNetworkClient 22 true;
       mkNetworkClient 33 true; mkNetworkClient 44 true]
    [# 11; 22; 33; 44] [# 4; 0; 7; 7] true [].

(** [two_clients] after client 22 has been dropped: slot 1 is free, its
    socket stopped. *)
Definition one_client_left : State :=
  mkState (mkPeriodicDisplay false false false) true (Some 2948)
    TCP_SERVER_STATE_RUNNING 1000 1 3 0
    [# false; false; true; true]
    [# mkNetworkClient 11 true; mkNetworkClient 22 false;
       mkNetworkClient 0 false; mkNetworkClient 0 false]
    [# 11; 22; 0; 0] [# 4; 0; 7; 7] true [].

(** [two_clients] when only client 11 has been sent data in the current
    window. *)
Definition one_silent : State := set_tcpServerClientDataSent 1 two_clients.


(** A history in which a slot changes hands: the server starts, client 11
    is accepted into slot 0, the producer reaches offset 10 and client 11
    takes 4 of the 10 bytes, then its connection is found broken and
    client 33 is accepted into slot 0 by the same [tcpServerUpdate]. *)
Definition slot_changes_hands : list action :=
  [Tick (quiet_env 1000 0 [] all_alive write_all);
   Tick (quiet_env 1000 1000 [] all_alive write_all);
   Tick (quiet_env 1000 1000 [11] all_alive write_all);
   Send (quiet_env 1000 1000 [] all_alive write_4) 10;
   Tick (quiet_env 1000 1001 [33] nobody_alive write_all)].

(** Scenario A of the specification, with a buffer of 1000 bytes: the
    producer has written 1200 bytes (its head is at offset 200) before
    client 11 connects. *)
Definition late_client_history : list action :=
  [Tick (quiet_env 1000 0 [] all_alive write_all);
   Tick (quiet_env 1000 1000 [] all_alive write_all);
   Send (quiet_env 1000 1500 [] all_alive write_all) 200;
   Tick (quiet_env 1000 2000 [11] all_alive write_all);
   Send (quiet_env 1000 2500 [] all_alive write_all) 200;
   Send (quiet_env 1000 3000 [] all_alive write_all) 250].

(** A history with a write failure: the server starts, clients 11 and 22
    are accepted into slots 0 and 1, the producer reaches offset 10 and the
    write to client 22 fails. *)
Definition write_failure_history : list action :=
  [Tick (quiet_env 1000 0 [] all_alive write_all);
   Tick (quiet_env 1000 1000 [] all_alive write_all);
   Tick (quiet_env 1000 1000 [11; 22] all_alive write_all);
   Send (quiet_env 1000 1000 [] all_alive write_fail_1) 10].

(** A history that ends with the network going down while one client is
    connected: the server starts, client 11 is accepted into slot 0, and
    the next [tcpServerUpdate] finds the network shutting down.  Slots 1, 2
    and 3 have never held a client. *)
Definition shutdown_with_one_client : list action :=
  [Tick (quiet_env 1000 0 [] all_alive write_all);
   Tick (quiet_env 1000 1000 [] all_alive write_all);
   Tick (quiet_env 1000 1000 [11] all_alive write_all);
   Tick (shutting_down (quiet_env 1000 2000 [] all_alive write_all))].

(** A history with a silent client: the server starts at time 1000, client
    11 is accepted into slot 0 at time 1000, the producer has nothing for
    it, and [tcpServerUpdate] runs again at time 16001. *)
Definition silent_client_history : list action :=
  [Tick (quiet_env 1000 0 [] all_alive write_all);
   Tick (quiet_env 1000 1000 [] all_alive write_all);
   Tick (quiet_env 1000 1000 [11] all_alive write_all);
   Send (quiet_env 1000 8000 [] all_alive write_all) 0;
   Tick (quiet_env 1000 16001 [] all_alive write_all)].

(** ** Proof support *)

Ltac each_slot i :=
  inv_fin i; [|intros i; inv_fin i; [|intros i; inv_fin i;
    [|intros i; inv_fin i; [|intros i; inv_fin i]]]].

Arguments bit : simpl never.
Arguments test_bit : simpl never.
Arguments set_bit : simpl never.
Arguments clear_bit : simpl never.
Arguments uint8 : simpl never.
Arguments uint16 : simpl never.
Arguments uint32 : simpl never.
Arguments display_active : simpl never.
Arguments all_slots : simpl never.
Arguments tcpServerClientSendData : simpl never.
Arguments tcpServerSendData_index : simpl never.
Arguments tcpServerSendData : simpl never.
Arguments discardTcpServerBytes_index : simpl never.
Arguments discardTcpServerBytes : simpl never.
Arguments tcpServerSetState : simpl never.
Arguments tcpServerStart : simpl never.
Arguments tcpServerStopClient : simpl never.
Arguments stopClient : simpl never.
Arguments checkClient : simpl never.
Arguments tcpServerStop : simpl never.
Arguments tcpServerUpdate_checkClient : simpl never.
Arguments tcpServerUpdate_restartTimer : simpl never.
Arguments tcpServerUpdate_switch : simpl never.
Arguments tcpServerUpdate : simpl never.

(** * Further notions, for the properties beyond the specification *)

(** Every tail of the slot table is an offset of the buffer. *)
Definition tails_in_buffer (e : Env) (s : State) : Prop :=
  forall i : slot, in_buffer e (tcpServerClientTails s !!! i).

(** The socket of a slot accepts every byte it is offered. *)
Definition accepts_all (e : Env) (index : slot) : Prop :=
  forall offset length : Z, clientWrite e index offset length = length.

(** The free slots, lowest index first. *)
Definition free_slots (s : State) (indexes : list slot) : list slot :=
  List.filter (fun i => negb (occupied s i)) indexes.

(** The address paired with a slot, if any. *)
Fixpoint assigned (index : slot) (pairs : list (slot * IPAddress))
    : option IPAddress :=
  match pairs with
  | [] => None
  | (j, ip) :: pairs => if decide (j = index) then Some ip
                        else assigned index pairs
  end.

(** The view of a slot into which the connection from [ip] has just been
    accepted. *)
Definition accepted_view (ip : IPAddress) (v : SlotView) : SlotView :=
  mkSlotView true true (sv_writeError v) (mkNetworkClient ip true) ip
    (sv_tail v).

(** The body of the accept loop for a free slot and a waiting connection. *)
Definition tcpServerUpdate_acceptClient (e : Env) (index : slot)
    (client : IPAddress) (s : State) : State :=
  let s := emit (EvClientAccept index client) s in
  let s :=
    set_tcpServerClientIsNull
      (vinsert index false (tcpServerClientIsNull s)) s in
  let s :=
    set_tcpServerClient
      (vinsert index (mkNetworkClient client true) (tcpServerClient s)) s in
  let s :=
    set_tcpServerClientIpAddress
      (vinsert index client (tcpServerClientIpAddress s)) s in
  let s :=
    set_tcpServerClientConnected
      (set_bit (tcpServerClientConnected s) index) s in
  let s :=
    set_tcpServerClientDataSent
      (set_bit (tcpServerClientDataSent s) index) s in
  if display_active e (PD_TCP_SERVER_DATA (periodicDisplay s))
  then systemPrint "TCP server client %d connected to %d.%d.%d.%d"
         (clear_PD_TCP_SERVER_DATA s)
  else s.

(** The masks use one bit per slot: the bits from [TCP_SERVER_MAX_CLIENTS]
    up are clear. *)
Definition low_bits (mask : Z) : Prop := 0 <= mask < 2 ^ 4.

(** The slot table agrees with the sockets: the three masks use the bits of
    the slots only, every occupied slot has its object, and the socket of a
    slot is open exactly when the slot is occupied. *)
Definition slots_ok (s : State) : Prop :=
  low_bits (tcpServerClientConnected s)
  /\ low_bits (tcpServerClientDataSent s)
  /\ low_bits (tcpServerClientWriteError s)
  /\ occupied_set s
  /\ forall i : slot, isOpen (tcpServerClient s !!! i) = occupied s i.

(** [tcpServerStop] meets no null pointer: no slot is occupied, so that its
    loop over the slots is skipped, or every slot has held a client. *)
Definition stop_safe (s : State) : Prop :=
  tcpServerClientConnected s = 0
  \/ forall i : slot, tcpServerClientIsNull s !!! i = false.

(** The calls [tcpServerStop] makes, newest first: the delay when the
    server was online, a stop of every socket when a slot is occupied, the
    stop of the listener, the release of the network handle. *)
Definition stop_calls (s : State) : list event :=
  (if negb (tcpServerState s =? TCP_SERVER_STATE_OFF)
   then [EvNetworkUserClose] else [])
  ++ (match tcpServer s with Some _ => [EvServerStop] | None => [] end)
  ++ (if negb (tcpServerClientConnected s =? 0)
      then [EvClientStop 3%fin; EvClientStop 2%fin; EvClientStop 1%fin;
            EvClientStop 0%fin]
      else [])
  ++ (if online_tcpServer s then [EvDelay 5] else []).

(** The variables of the life cycle agree with [tcpServerState]: the state
    is one of [enum tcpServerStates], the listener exists and is online
    exactly in RUNNING, the network handle is held exactly outside OFF, and
    slots are occupied in RUNNING only. *)
Definition service_ok (s : State) : Prop :=
  0 <= tcpServerState s < TCP_SERVER_STATE_MAX
  /\ online_tcpServer s = (tcpServerState s =? TCP_SERVER_STATE_RUNNING)
  /\ (is_Some (tcpServer s)
      <-> tcpServerState s = TCP_SERVER_STATE_RUNNING)
  /\ networkUser s = negb (tcpServerState s =? TCP_SERVER_STATE_OFF)
  /\ (tcpServerState s <> TCP_SERVER_STATE_RUNNING ->
      forall i : slot, occupied s i = false).

Definition consistent (s : State) : Prop := service_ok s /\ slots_ok s.

(** The calls that leave the file, without the console output. *)
Definition is_call (ev : event) : bool :=
  match ev with
  | EvPrint _ => false
  | _ => true
  end.

Definition calls (s : State) : list event := List.filter is_call (trace s).

(** The condition of the OFF case of [tcpServerUpdate]:
    [EQ_RTK_MODE(tcpServerMode) && settings.enableTcpServer &&
     (!wifiIsConnected())]. *)
Definition wanted (e : Env) : bool :=
  rtkModeMatches e && settings_enableTcpServer e
  && negb (wifiIsConnected e).

(** The condition of the first [if] of [tcpServerUpdate]:
    [NEQ_RTK_MODE(tcpServerMode) || (!settings.enableTcpServer)]. *)
Definition unwanted (e : Env) : bool :=
  negb (rtkModeMatches e) || negb (settings_enableTcpServer e).

(** * Routines of the other firmware files

    The routines below come from the excerpt of the remaining firmware
    sources; they share nothing with the TCP server but [uint32]. *)

From Stdlib Require Import Ascii DecimalString.

(** ** The data-port multiplexer: [setMuxport] *)

(** [pinMode(pin, OUTPUT)] and [digitalWrite(pin, level)], [true] for
    [HIGH]. *)
Inductive gpio_event : Type :=
  | EvPinMode (pin : Z)
  | EvDigitalWrite (pin : Z) (level : bool).

(** [setMuxport(channelNumber)] with the globals [pin_muxA] and [pin_muxB];
    the calls are recorded newest first. *)
Definition setMuxport (pin_muxA pin_muxB channelNumber : Z)
    (gpio : list gpio_event) : list gpio_event :=
  if (0 <=? pin_muxA) && (0 <=? pin_muxB) then
    let gpio := EvPinMode pin_muxB :: EvPinMode pin_muxA :: gpio in
    if 3 <? channelNumber then gpio
    else if channelNumber =? 0 then
      EvDigitalWrite pin_muxB false :: EvDigitalWrite pin_muxA false :: gpio
    else if channelNumber =? 1 then
      EvDigitalWrite pin_muxB false :: EvDigitalWrite pin_muxA true :: gpio
    else if channelNumber =? 2 then
      EvDigitalWrite pin_muxB true :: EvDigitalWrite pin_muxA false :: gpio
    else if channelNumber =? 3 then
      EvDigitalWrite pin_muxB true :: EvDigitalWrite pin_muxA true :: gpio
    else gpio
  else gpio.

(** ** GNSS time to Unix epoch: [convertGnssTimeToEpoch] *)

(** What [gnssGetYear()] ... [gnssGetNanosecond()] return. *)
Record GnssTime : Type := mkGnssTime {
  gnssGetYear : Z;
  gnssGetMonth : Z;
  gnssGetDay : Z;
  gnssGetHour : Z;
  gnssGetMinute : Z;
  gnssGetSecond : Z;
  gnssGetNanosecond : Z;
}.

Section Epoch.

(** The constant and the two tables of the u-blox library, which are not
    part of the sources at hand. *)
Variable SFE_UBLOX_DAYS_FROM_1970_TO_2020 : Z.
Variable SFE_UBLOX_DAYS_SINCE_2020 : Z -> Z.
Variable SFE_UBLOX_DAYS_SINCE_MONTH : Z -> Z -> Z.

(** The first half of [convertGnssTimeToEpoch]: [t] before the adjustment
    for the nanoseconds. *)
Definition gnssSeconds (g : GnssTime) : Z :=
  let t := uint32 SFE_UBLOX_DAYS_FROM_1970_TO_2020 in
  let t :=
    uint32 (t + uint32 (SFE_UBLOX_DAYS_SINCE_2020 (gnssGetYear g - 2020))) in
  let t :=
    uint32 (t + uint32 (SFE_UBLOX_DAYS_SINCE_MONTH
                          (if Z.rem (gnssGetYear g) 4 =? 0 then 0 else 1)
                          (gnssGetMonth g - 1))) in
  let t := uint32 (t + uint32 (uint32 (gnssGetDay g) - 1)) in
  let t := uint32 (t * 24) in
  let t := uint32 (t + uint32 (gnssGetHour g)) in
  let t := uint32 (t * 60) in
  let t := uint32 (t + uint32 (gnssGetMinute g)) in
  let t := uint32 (t * 60) in
  uint32 (t + uint32 (gnssGetSecond g)).

(** [convertGnssTimeToEpoch(&epochSecs, &epochMicros)]: the pair of the two
    results.  The division of the [int32_t] nanoseconds truncates toward
    zero. *)
Definition convertGnssTimeToEpoch (g : GnssTime) : Z * Z :=
  let t := gnssSeconds g in
  let us := Z.quot (gnssGetNanosecond g) 1000 in
  if us <? 0 then (uint32 (t - 1), uint32 (us + 1000000))
  else (t, uint32 us).

End Epoch.

(** ** The $GNTXT sentence: [createNMEASentence] *)

(** A C string is the list of its characters, the terminating NUL left
    out. *)
Definition c_string : Type := list ascii.

Definition char_code (c : ascii) : Z := Z.of_N (N_of_ascii c).

(** [snprintf(buffer, size, ...)] keeps the first [size - 1] characters of
    the formatted text. *)
Definition snprintf (size : Z) (text : c_string) : c_string :=
  take (Z.to_nat (size - 1)) text.

(** The conversion [%02d] of an [int]. *)
Definition format_02d (n : Z) : c_string :=
  let digits := list_ascii_of_string (NilZero.string_of_int (Z.to_int n)) in
  if (0 <=? n) && (n <? 10) then "0"%char :: digits else digits.

(** The conversion [%02X] of a [byte]. *)
Definition hex_digit (d : Z) : ascii :=
  if d <? 10 then ascii_of_N (Z.to_N (48 + d))
  else ascii_of_N (Z.to_N (55 + d)).

Definition format_02X (b : Z) : c_string :=
  [hex_digit (b / 16); hex_digit (b mod 16)].

(** [nmeaTxt] after the first [snprintf]. *)
Definition nmeaTxt (textID : Z) (textMessage : c_string) : c_string :=
  snprintf 200
    (list_ascii_of_string "$GNTXT," ++ format_02d 1 ++ ","%char
       :: format_02d 1 ++ ","%char :: format_02d textID ++ ","%char
       :: textMessage ++ ["*"%char]).

(** [CRC] after the loop [for (byte x = 1; x < strlen(nmeaTxt) - 1; x++)]
    over a text: the characters but the first and the last, XORed into a
    [byte].  ([nmeaTxt] is never empty and is shorter than 256
    characters.) *)
Definition xor_chars (chars : c_string) : Z :=
  fold_left (fun CRC c => uint8 (Z.lxor CRC (char_code c))) chars 0.

Definition CRC_of (text : c_string) : Z :=
  xor_chars (removelast (tail text)).

(** [createNMEASentence(textID, nmeaMessage, sizeOfNmeaMessage,
    textMessage)]: what [nmeaMessage] holds afterwards; with a size of 0
    nothing is written. *)
Definition createNMEASentence (textID : Z) (sizeOfNmeaMessage : Z)
    (textMessage : c_string) : option c_string :=
  let text := nmeaTxt textID textMessage in
  let CRC := CRC_of text in
  if sizeOfNmeaMessage =? 0 then None
  else Some (snprintf sizeOfNmeaMessage (text ++ format_02X CRC)).

(** The text between [$] and [*] of the sentence. *)
Definition sentence_body (textID : Z) (textMessage : c_string) : c_string :=
  list_ascii_of_string "GNTXT,01,01," ++ format_02d textID ++ ","%char
    :: textMessage.

(** * Properties *)

(** ** Bit masks *)

Lemma slot_lt_8 (index : slot) : Z.of_nat (fin_to_nat index) < 8.
Proof.
  pose proof (fin_to_nat_lt index) as H. lia.
Qed.

Lemma slot_index_inj (i j : slot) :
  Z.of_nat (fin_to_nat i) = Z.of_nat (fin_to_nat j) -> i = j.
Proof. intros H. apply (inj fin_to_nat). lia. Qed.

Lemma bit_pow2 (index : slot) : bit index = 2 ^ Z.of_nat (fin_to_nat index).
Proof. unfold bit. apply Z.shiftl_1_l. Qed.

Lemma testbit_bit (index : slot) (n : Z) :
  Z.testbit (bit index) n = (Z.of_nat (fin_to_nat index) =? n).
Proof. rewrite bit_pow2. apply Z.pow2_bits_eqb. lia. Qed.

Lemma land_bit (mask : Z) (index : slot) :
  Z.land mask (bit index) =
  if Z.testbit mask (Z.of_nat (fin_to_nat index)) then bit index else 0.
Proof.
  apply Z.bits_inj'. intros n Hn.
  rewrite Z.land_spec, testbit_bit.
  destruct (Z.eqb_spec (Z.of_nat (fin_to_nat index)) n) as [Heq|Hne].
  - rewrite <- Heq. destruct (Z.testbit mask _); simpl.
    + rewrite testbit_bit. symmetry. apply Z.eqb_refl.
    + now rewrite Z.bits_0.
  - rewrite andb_false_r.
    destruct (Z.testbit mask _).
    + rewrite testbit_bit. symmetry. now apply Z.eqb_neq.
    + now rewrite Z.bits_0.
Qed.

Lemma test_bit_testbit (mask : Z) (index : slot) :
  test_bit mask index = Z.testbit mask (Z.of_nat (fin_to_nat index)).
Proof.
  unfold test_bit. rewrite land_bit.
  destruct (Z.testbit mask _); simpl.
  - rewrite bit_pow2.
    assert (0 < 2 ^ Z.of_nat (fin_to_nat index)) by (apply Z.pow_pos_nonneg; lia).
    destruct (Z.eqb_spec (2 ^ Z.of_nat (fin_to_nat index)) 0); [lia|reflexivity].
  - reflexivity.
Qed.

Lemma testbit_uint8 (x n : Z) :
  0 <= n -> Z.testbit (uint8 x) n = (n <? 8) && Z.testbit x n.
Proof.
  intros Hn. unfold uint8.
  destruct (Z.ltb_spec n 8).
  - now rewrite Z.mod_pow2_bits_low by lia.
  - now rewrite Z.mod_pow2_bits_high by lia.
Qed.

Lemma test_bit_set_bit (mask : Z) (i j : slot) :
  test_bit (set_bit mask i) j = if decide (i = j) then true else test_bit mask j.
Proof.
  rewrite !test_bit_testbit. unfold set_bit.
  rewrite testbit_uint8 by lia.
  pose proof (slot_lt_8 j).
  destruct (Z.ltb_spec (Z.of_nat (fin_to_nat j)) 8); [|lia]. simpl.
  rewrite Z.lor_spec, testbit_bit.
  destruct (decide (i = j)) as [->|Hne].
  - rewrite Z.eqb_refl. apply orb_true_r.
  - destruct (Z.eqb_spec (Z.of_nat (fin_to_nat i)) (Z.of_nat (fin_to_nat j)))
      as [Heq|_]; [now apply slot_index_inj in Heq|apply orb_false_r].
Qed.

Lemma test_bit_clear_bit (mask : Z) (i j : slot) :
  test_bit (clear_bit mask i) j =
  if decide (i = j) then false else test_bit mask j.
Proof.
  rewrite !test_bit_testbit. unfold clear_bit.
  rewrite testbit_uint8 by lia.
  pose proof (slot_lt_8 j).
  destruct (Z.ltb_spec (Z.of_nat (fin_to_nat j)) 8); [|lia]. simpl.
  rewrite Z.land_spec, Z.lnot_spec, testbit_bit by lia.
  destruct (decide (i = j)) as [->|Hne].
  - rewrite Z.eqb_refl. apply andb_false_r.
  - destruct (Z.eqb_spec (Z.of_nat (fin_to_nat i)) (Z.of_nat (fin_to_nat j)))
      as [Heq|_]; [now apply slot_index_inj in Heq|apply andb_true_r].
Qed.

Lemma clear_bit_clear_bit (mask : Z) (i : slot) :
  clear_bit (clear_bit mask i) i = clear_bit mask i.
Proof.
  apply Z.bits_inj'. intros n Hn. unfold clear_bit.
  rewrite !testbit_uint8, !Z.land_spec, !testbit_uint8, !Z.land_spec by lia.
  destruct (n <? 8), (Z.testbit mask n),
    (Z.testbit (Z.lnot (bit i)) n); reflexivity.
Qed.

Lemma test_bit_0 (index : slot) : test_bit 0 index = false.
Proof. rewrite test_bit_testbit. apply Z.bits_0. Qed.

Lemma all_slots_complete (index : slot) : In index all_slots.
Proof.
  unfold all_slots.
  inv_fin index; [simpl; tauto|]. intros index.
  inv_fin index; [simpl; tauto|]. intros index.
  inv_fin index; [simpl; tauto|]. intros index.
  inv_fin index; [simpl; tauto|]. intros index.
  inv_fin index.
Qed.

Lemma all_slots_NoDup : List.NoDup all_slots.
Proof.
  unfold all_slots.
  repeat constructor; simpl; intros H;
    repeat (destruct H as [H|H]; [discriminate H|]); exact H.
Qed.

(** ** discardTcpServerBytes *)

Lemma discardTcpServerBytes_index_tails previousTail newTail j s :
  tcpServerClientTails (discardTcpServerBytes_index previousTail newTail j s)
  = vinsert j (discard_tail previousTail newTail (tcpServerClientTails s !!! j))
      (tcpServerClientTails s).
Proof.
  unfold discardTcpServerBytes_index, discard_tail.
  destruct (previousTail <? newTail).
  - destruct (_ && _); simpl; [reflexivity|].
    symmetry. apply vlookup_insert_self.
  - destruct (_ || _); simpl; [reflexivity|].
    symmetry. apply vlookup_insert_self.
Qed.

Lemma discard_fold_tails previousTail newTail (l : list slot) s i :
  NoDup l ->
  tcpServerClientTails
    (fold_left (fun s index =>
                  discardTcpServerBytes_index previousTail newTail index s)
       l s) !!! i
  = if decide (i ∈ l)
    then discard_tail previousTail newTail (tcpServerClientTails s !!! i)
    else tcpServerClientTails s !!! i.
Proof.
  intros Hnd. revert s.
  induction Hnd as [|j l Hj Hnd IH]; intros s; simpl.
  - destruct (decide (i ∈ [])) as [Hin|_]; [inversion Hin|reflexivity].
  - rewrite IH, discardTcpServerBytes_index_tails.
    destruct (decide (i ∈ l)) as [Hin|Hnin].
    + assert (j <> i) by (intros ->; contradiction).
      rewrite vlookup_insert_ne by assumption.
      rewrite decide_True by (apply elem_of_cons; now right). reflexivity.
    + destruct (decide (i = j)) as [->|Hne].
      * rewrite vlookup_insert.
        rewrite decide_True by (apply elem_of_cons; now left). reflexivity.
      * rewrite vlookup_insert_ne by congruence.
        rewrite decide_False; [reflexivity|].
        intros [->|Hin]%elem_of_cons; contradiction.
Qed.

Lemma all_slots_elem_of (index : slot) : index ∈ all_slots.
Proof. apply list_elem_of_In, all_slots_complete. Qed.

Lemma all_slots_nodup : NoDup all_slots.
Proof. apply NoDup_ListNoDup, all_slots_NoDup. Qed.

Lemma discardTcpServerBytes_tails previousTail newTail s i :
  tcpServerClientTails (discardTcpServerBytes previousTail newTail s) !!! i
  = discard_tail previousTail newTail (tcpServerClientTails s !!! i).
Proof.
  unfold discardTcpServerBytes.
  rewrite discard_fold_tails by apply all_slots_nodup.
  now rewrite decide_True by apply all_slots_elem_of.
Qed.

Lemma mod_diff (C a b : Z) :
  0 <= a < C -> 0 <= b < C ->
  (a - b) mod C = if a <? b then a - b + C else a - b.
Proof.
  intros Ha Hb. destruct (Z.ltb_spec a b).
  - symmetry. apply Z.mod_unique with (q := -1); lia.
  - apply Z.mod_small. lia.
Qed.

Lemma discard_tail_range (C oldTail newTail tail : Z) :
  0 <= oldTail < C -> 0 <= newTail < C -> 0 <= tail < C ->
  oldTail <> newTail ->
  discard_tail oldTail newTail tail =
  if in_discarded_range C oldTail newTail tail then newTail else tail.
Proof.
  intros Ho Hn Ht Hne. unfold discard_tail, in_discarded_range.
  rewrite !mod_diff by assumption.
  destruct (Z.ltb_spec oldTail newTail), (Z.leb_spec oldTail tail),
    (Z.ltb_spec tail newTail), (Z.ltb_spec tail oldTail),
    (Z.ltb_spec newTail oldTail); simpl; try lia;
    match goal with
    | |- context [?a <? ?b] => destruct (Z.ltb_spec a b)
    end; lia || reflexivity.
Qed.

(** C1: a discard notification [(oldTail, newTail)] with distinct bounds in
    [0, C), on a slot table whose tails are all in [0, C), sets to [newTail]
    exactly the tails that lay in the circular range [oldTail, newTail) and
    leaves every other tail as it was. *)
Theorem discardTcpServerBytes_range (C oldTail newTail : Z) (s : State)
    (index : slot) :
  0 <= oldTail < C -> 0 <= newTail < C -> oldTail <> newTail ->
  (forall i : slot, 0 <= tcpServerClientTails s !!! i < C) ->
  tcpServerClientTails (discardTcpServerBytes oldTail newTail s) !!! index
  = if in_discarded_range C oldTail newTail (tcpServerClientTails s !!! index)
    then newTail
    else tcpServerClientTails s !!! index.
Proof.
  intros Ho Hn Hne Htails.
  rewrite discardTcpServerBytes_tails.
  now apply discard_tail_range.
Qed.

(** C10: with an empty range ([previousTail] equal to [newTail]) the loop
    takes its wrap-around branch, whose test holds for every tail: every
    slot's tail, connected or not, becomes [newTail]. *)
Theorem discardTcpServerBytes_empty_range (newTail : Z) (s : State)
    (index : slot) :
  tcpServerClientTails (discardTcpServerBytes newTail newTail s) !!! index
  = newTail.
Proof.
  rewrite discardTcpServerBytes_tails. unfold discard_tail.
  rewrite Z.ltb_irrefl.
  destruct (Z.leb_spec newTail (tcpServerClientTails s !!! index)) as [|Hlt];
    [reflexivity|].
  simpl. now apply Z.ltb_lt in Hlt as ->.
Qed.

(** Scenario D of the specification: a discard of [100, 150) moves the tail
    120 to 150 and leaves 90 and 150 alone. *)
Example discard_scenario_D :
  vec_to_list
    (tcpServerClientTails (discardTcpServerBytes 100 150 (with_tails 120 90 150 0)))
  = [150; 90; 150; 0].
Proof. reflexivity. Qed.

Lemma discardTcpServerBytes_range_witness :
  tcpServerClientTails
    (discardTcpServerBytes 100 150 (with_tails 120 90 150 0)) !!! 0%fin = 150.
Proof.
  rewrite (discardTcpServerBytes_range 1000 100 150 (with_tails 120 90 150 0)
             0%fin); [reflexivity|lia|lia|lia|].
  intros i. each_slot i; simpl; lia.
Defined.

(** ** Slot views *)

Lemma vinsert_vinsert {A : Type} {n : nat} (i : fin n) (x y : A)
    (v : vec A n) :
  vinsert i x (vinsert i y v) = vinsert i x v.
Proof.
  apply vec_eq. intros j. destruct (decide (i = j)) as [->|Hne].
  - now rewrite !vlookup_insert.
  - now rewrite !vlookup_insert_ne.
Qed.

Lemma vinsert_commute {A : Type} {n : nat} (i j : fin n) (x y : A)
    (v : vec A n) :
  i <> j -> vinsert i x (vinsert j y v) = vinsert j y (vinsert i x v).
Proof.
  intros Hne. apply vec_eq. intros k.
  destruct (decide (i = k)) as [<-|Hik].
  - rewrite vlookup_insert, vlookup_insert_ne by congruence.
    now rewrite vlookup_insert.
  - rewrite (vlookup_insert_ne i k) by assumption.
    destruct (decide (j = k)) as [<-|Hjk].
    + now rewrite !vlookup_insert.
    + now rewrite !vlookup_insert_ne by assumption.
Qed.

Lemma slot_view_fields s i v :
  slot_view s i = v ->
  occupied s i = sv_connected v
  /\ test_bit (tcpServerClientDataSent s) i = sv_dataSent v
  /\ test_bit (tcpServerClientWriteError s) i = sv_writeError v
  /\ tcpServerClient s !!! i = sv_client v
  /\ tcpServerClientTails s !!! i = sv_tail v
  /\ tcpServerClientIpAddress s !!! i = sv_ipAddress v.
Proof. intros <-. repeat split. Qed.

(** ** stopClient *)

Lemma stopClient_view e i s j :
  slot_view (stopClient e i s) j
  = if decide (i = j) then dropped_view (slot_view s j) else slot_view s j.
Proof.
  unfold stopClient, slot_view, dropped_view.
  destruct (display_active e _);
    [destruct (negb (client_dataSent _ i _)),
       (negb (client_connected e i _ && _))|];
    simpl; rewrite !test_bit_clear_bit;
    (destruct (decide (i = j)) as [->|Hne];
      [rewrite vlookup_insert|rewrite vlookup_insert_ne by assumption];
      reflexivity).
Qed.

Lemma stopClient_events e i s j :
  slot_events j (stopClient e i s)
  = if decide (i = j) then EvClientStop i :: slot_events j s
    else slot_events j s.
Proof.
  unfold stopClient, slot_events.
  destruct (display_active e _);
    [destruct (negb (client_dataSent _ i _)),
       (negb (client_connected e i _ && _))|];
    simpl; (destruct (decide (i = j)) as [->|Hne];
      [rewrite bool_decide_eq_true_2 by reflexivity
      |rewrite bool_decide_eq_false_2 by assumption]; reflexivity).
Qed.

Lemma dropped_view_free v :
  sv_connected v = false -> sv_writeError v = false ->
  isOpen (sv_client v) = false -> dropped_view v = v.
Proof.
  destruct v as [c d w [ip o] a t]; simpl. intros -> -> ->. reflexivity.
Qed.

(** ** tcpServerClientSendData *)

Lemma tcpServerClientSendData_other e i data length s j :
  i <> j ->
  slot_view (snd (tcpServerClientSendData e i data length s)) j = slot_view s j
  /\ slot_events j (snd (tcpServerClientSendData e i data length s))
     = slot_events j s.
Proof.
  intros Hne. unfold tcpServerClientSendData, slot_view, slot_events.
  destruct (0 <? _); destruct (display_active e _); simpl;
    rewrite ?test_bit_set_bit, ?test_bit_clear_bit,
      ?decide_False, ?vlookup_insert_ne, ?bool_decide_eq_false_2
      by assumption; auto.
Qed.

Lemma tcpServerClientSendData_failed e i data length s :
  uint16 (clientWrite e i data (uint16 length)) <= 0 ->
  fst (tcpServerClientSendData e i data length s) = 0
  /\ slot_view (snd (tcpServerClientSendData e i data length s)) i
     = write_failed_view (slot_view s i)
  /\ slot_events i (snd (tcpServerClientSendData e i data length s))
     = EvClientStop i :: EvClientWrite i data (uint16 length)
         :: slot_events i s.
Proof.
  intros Hw. unfold tcpServerClientSendData, slot_view, slot_events,
    write_failed_view.
  destruct (Z.ltb_spec 0 (uint16 (clientWrite e i data (uint16 length))));
    [lia|].
  destruct (display_active e _); simpl;
    rewrite ?test_bit_set_bit, ?test_bit_clear_bit, ?decide_True,
      ?vlookup_insert, ?bool_decide_eq_true_2 by reflexivity; auto.
Qed.

Lemma tcpServerClientSendData_written e i data length s :
  0 < uint16 (clientWrite e i data (uint16 length)) ->
  fst (tcpServerClientSendData e i data length s)
  = uint16 (clientWrite e i data (uint16 length))
  /\ slot_view (snd (tcpServerClientSendData e i data length s)) i
     = write_ok_view (slot_view s i)
  /\ slot_events i (snd (tcpServerClientSendData e i data length s))
     = EvClientWrite i data (uint16 length) :: slot_events i s.
Proof.
  intros Hw. unfold tcpServerClientSendData, slot_view, slot_events,
    write_ok_view.
  destruct (Z.ltb_spec 0 (uint16 (clientWrite e i data (uint16 length))));
    [|lia].
  destruct (display_active e _); simpl;
    rewrite ?test_bit_set_bit, ?decide_True,
      ?bool_decide_eq_true_2 by reflexivity; auto.
Qed.

(** ** Loops over the slots

    A loop body that leaves alone every slot but the one it visits: what
    the whole loop does to slot [i] is what the body does when it visits
    [i], in a state that shows slot [i] as the loop found it. *)

Section SlotLoop.
Context {A O : Type} (obs : A -> slot -> O) (body : slot -> A -> A).
Hypothesis body_other :
  forall (i j : slot) (a : A), i <> j -> obs (body j a) i = obs a i.

Lemma slot_loop_frame (l : list slot) (a : A) (i : slot) :
  i ∉ l -> obs (fold_left (fun a j => body j a) l a) i = obs a i.
Proof.
  revert a. induction l as [|j l IH]; intros a Hi; simpl; [reflexivity|].
  apply not_elem_of_cons in Hi as [Hij Hil].
  rewrite IH by assumption. now apply body_other.
Qed.

Lemma slot_loop_local (l : list slot) (a : A) (i : slot) :
  NoDup l -> i ∈ l ->
  exists a1 : A,
    obs a1 i = obs a i
    /\ obs (fold_left (fun a j => body j a) l a) i = obs (body i a1) i.
Proof.
  intros Hnd. revert a.
  induction Hnd as [|j l Hj Hnd IH]; intros a Hi; [inversion Hi|].
  simpl. apply elem_of_cons in Hi as [->|Hi].
  - exists a. split; [reflexivity|]. now apply slot_loop_frame.
  - destruct (IH (body j a) Hi) as (a1 & H1 & H2).
    exists a1. split; [|assumption].
    rewrite H1. apply body_other. intros ->. contradiction.
Qed.

Lemma all_slots_loop_local (a : A) (i : slot) :
  exists a1 : A,
    obs a1 i = obs a i
    /\ obs (fold_left (fun a j => body j a) all_slots a) i
       = obs (body i a1) i.
Proof.
  apply slot_loop_local; [apply all_slots_nodup|apply all_slots_elem_of].
Qed.
End SlotLoop.

(** ** tcpServerSendData *)

Lemma set_tail_obs j t s i :
  i <> j ->
  slot_obs (set_tcpServerClientTails
              (vinsert j t (tcpServerClientTails s)) s) i
  = slot_obs s i.
Proof.
  intros Hne. unfold slot_obs, slot_view, slot_events. simpl.
  now rewrite vlookup_insert_ne by congruence.
Qed.

Lemma tcpServerSendData_index_other e dataHead (i j : slot) acc :
  i <> j ->
  slot_obs (snd (tcpServerSendData_index e dataHead j acc)) i
  = slot_obs (snd acc) i.
Proof.
  intros Hne. destruct acc as [usedSpace s].
  unfold tcpServerSendData_index.
  destruct (negb (test_bit _ j)); [now apply set_tail_obs|].
  destruct (0 <? _); [|now apply set_tail_obs].
  match goal with
  | |- context [tcpServerClientSendData e j ?d ?n s] =>
      pose proof (tcpServerClientSendData_other e j d n s i) as Hother;
      destruct (tcpServerClientSendData e j d n s) as [sent s1]
  end.
  simpl in *. rewrite set_tail_obs by assumption.
  unfold slot_obs. destruct Hother as [-> ->]; congruence.
Qed.

Lemma bytesInBuffer_unread e dataHead tail :
  in_buffer e dataHead -> in_buffer e tail ->
  bytesInBuffer e dataHead tail
  = unread (settings_gnssHandlerBufferSize e) dataHead tail.
Proof.
  unfold in_buffer, bytesInBuffer, unread. intros Hh Ht.
  rewrite mod_diff by assumption.
  destruct (Z.ltb_spec (dataHead - tail) 0), (Z.ltb_spec dataHead tail);
    lia.
Qed.

Lemma unread_range C head tail : 0 < C -> 0 <= unread C head tail < C.
Proof. intros HC. apply Z.mod_pos_bound, HC. Qed.

Lemma uint16_small x : 0 <= x < 2 ^ 16 -> uint16 x = x.
Proof. apply Z.mod_small. Qed.

(** The tail stored after a write of [sent] bytes (at most up to the end of
    the buffer) is the old one advanced modulo the buffer size. *)
Lemma advance_tail e tail sent :
  buffer_ok e -> in_buffer e tail ->
  0 <= sent -> tail + sent <= settings_gnssHandlerBufferSize e ->
  (let tail1 := uint16 (tail + sent) in
   if settings_gnssHandlerBufferSize e <=? tail1
   then uint16 (tail1 - settings_gnssHandlerBufferSize e)
   else tail1)
  = (tail + sent) mod settings_gnssHandlerBufferSize e.
Proof.
  unfold buffer_ok, in_buffer.
  set (C := settings_gnssHandlerBufferSize e). intros HC Ht Hs Hle. simpl.
  destruct (Z.eq_dec (tail + sent) C) as [Heq|Hne].
  - rewrite Heq, Z_mod_same_full.
    destruct (Z.eq_dec C (2 ^ 16)) as [H16|H16].
    + rewrite H16. unfold uint16 at 1 2. rewrite Z_mod_same_full.
      reflexivity.
    + rewrite uint16_small by lia. rewrite Z.leb_refl, Z.sub_diag.
      reflexivity.
  - rewrite uint16_small by lia.
    destruct (Z.leb_spec C (tail + sent)); [lia|].
    symmetry. apply Z.mod_small. lia.
Qed.

Lemma unread_after_write C head tail w :
  0 < C -> 0 < w <= Z.min (unread C head tail) (C - tail) ->
  unread C head ((tail + w) mod C) = unread C head tail - w.
Proof.
  intros HC Hw. unfold unread in *.
  pose proof (Z.mod_pos_bound (head - tail) C HC) as Hn.
  rewrite Zminus_mod_idemp_r.
  replace (head - (tail + w)) with (head - tail - w) by lia.
  rewrite <- Zminus_mod_idemp_l. apply Z.mod_small. lia.
Qed.

(** One visit of an occupied slot with nothing to send. *)
Lemma tcpServerSendData_index_idle e dataHead i usedSpace s :
  in_buffer e dataHead -> in_buffer e (tcpServerClientTails s !!! i) ->
  occupied s i = true ->
  unread (settings_gnssHandlerBufferSize e) dataHead
    (tcpServerClientTails s !!! i) = 0 ->
  tcpServerSendData_index e dataHead i (usedSpace, s) = (usedSpace, s).
Proof.
  intros Hh Ht Hocc Hun. unfold tcpServerSendData_index.
  unfold occupied in Hocc. rewrite Hocc. simpl.
  rewrite bytesInBuffer_unread, Hun by assumption. simpl.
  rewrite vlookup_insert_self. now destruct s.
Qed.

(** One visit of an occupied slot with bytes to send: the single call of
    [tcpServerClientSendData] and what is stored afterwards. *)
Lemma tcpServerSendData_index_send e dataHead i usedSpace s :
  buffer_ok e ->
  in_buffer e dataHead -> in_buffer e (tcpServerClientTails s !!! i) ->
  occupied s i = true ->
  let C := settings_gnssHandlerBufferSize e in
  let tail := tcpServerClientTails s !!! i in
  let length := Z.min (unread C dataHead tail) (C - tail) in
  let r := tcpServerClientSendData e i tail length s in
  unread C dataHead tail <> 0 ->
  0 < length < 2 ^ 16 /\ tail + length <= C
  /\ (tail + fst r <= C ->
      0 <= fst r ->
      let tail' := (tail + fst r) mod C in
      tcpServerSendData_index e dataHead i (usedSpace, s)
      = (Z.max usedSpace (unread C dataHead tail'),
         set_tcpServerClientTails
           (vinsert i tail' (tcpServerClientTails (snd r))) (snd r))).
Proof.
  intros HC Hh Ht Hocc C tail length r Hun.
  pose proof (unread_range C dataHead tail ltac:(apply HC)) as Hur.
  unfold buffer_ok, in_buffer in *. fold C tail in HC, Hh, Ht, Hur.
  assert (Hlen : 0 < length < 2 ^ 16 /\ tail + length <= C)
    by (unfold length; lia).
  split; [apply Hlen|]. split; [apply Hlen|].
  intros Hfit Hnonneg. set (tail' := (tail + fst r) mod C).
  unfold tcpServerSendData_index. unfold occupied in Hocc.
  rewrite Hocc. simpl. fold C tail.
  rewrite bytesInBuffer_unread by assumption. fold C.
  destruct (Z.ltb_spec 0 (unread C dataHead tail)); [|lia].
  replace (if C <? tail + unread C dataHead tail then C - tail
           else unread C dataHead tail) with length
    by (unfold length; destruct (Z.ltb_spec C (tail + unread C dataHead tail));
        lia).
  fold r. destruct r as [sent s1] eqn:Hr. simpl in *.
  pose proof (advance_tail e tail sent HC Ht Hnonneg Hfit) as Hadv.
  simpl in Hadv. fold C in Hadv. rewrite Hadv. fold tail'.
  assert (Ht' : 0 <= tail' < C) by (apply Z.mod_pos_bound; lia).
  rewrite bytesInBuffer_unread by assumption. fold C.
  f_equal. destruct (Z.ltb_spec usedSpace (unread C dataHead tail')); lia.
Qed.

Lemma tcpServerClientSendData_sent_bounds e i data length s :
  write_bounded e -> 0 <= length < 2 ^ 16 ->
  0 <= fst (tcpServerClientSendData e i data length s) <= length.
Proof.
  intros Hwb Hlen.
  pose proof (Hwb i data length ltac:(lia)) as Hw.
  unfold tcpServerClientSendData.
  rewrite (uint16_small length) by assumption.
  rewrite (uint16_small (clientWrite e i data length)) by lia.
  destruct (Z.ltb_spec 0 (clientWrite e i data length)); simpl; lia.
Qed.

Lemma slot_obs_occupied s1 s2 i :
  slot_obs s1 i = slot_obs s2 i -> occupied s1 i = occupied s2 i.
Proof. intros H. now apply (f_equal (fun o => sv_connected (fst o))) in H. Qed.

Lemma slot_obs_tail s1 s2 i :
  slot_obs s1 i = slot_obs s2 i ->
  tcpServerClientTails s1 !!! i = tcpServerClientTails s2 !!! i.
Proof. intros H. now apply (f_equal (fun o => sv_tail (fst o))) in H. Qed.

(** What one visit adds to [usedSpace]. *)
Lemma tcpServerSendData_index_used e dataHead i usedSpace s :
  buffer_ok e -> write_bounded e -> in_buffer e dataHead ->
  (occupied s i = true -> in_buffer e (tcpServerClientTails s !!! i)) ->
  0 <= usedSpace ->
  let r := tcpServerSendData_index e dataHead i (usedSpace, s) in
  fst r
  = if occupied s i
    then Z.max usedSpace
           (unread (settings_gnssHandlerBufferSize e) dataHead
              (tcpServerClientTails (snd r) !!! i))
    else usedSpace.
Proof.
  intros HC Hwb Hh Ht Hu r. subst r.
  destruct (occupied s i) eqn:Hocc.
  - specialize (Ht eq_refl).
    destruct (Z.eq_dec (unread (settings_gnssHandlerBufferSize e) dataHead
                          (tcpServerClientTails s !!! i)) 0) as [Hz|Hnz].
    + rewrite tcpServerSendData_index_idle by assumption. simpl.
      rewrite Hz. lia.
    + destruct (tcpServerSendData_index_send e dataHead i usedSpace s
                  HC Hh Ht Hocc Hnz) as (Hlen & Hfit & Hstep).
      pose proof (tcpServerClientSendData_sent_bounds e i
                    (tcpServerClientTails s !!! i) _ s Hwb
                    ltac:(split; [apply Z.lt_le_incl|]; apply Hlen)) as Hsent.
      rewrite Hstep by lia. simpl. now rewrite vlookup_insert.
  - unfold tcpServerSendData_index. unfold occupied in Hocc.
    now rewrite Hocc.
Qed.

Lemma foldr_max_shift (u x : Z) (xs : list Z) :
  foldr Z.max (Z.max u x) xs = Z.max x (foldr Z.max u xs).
Proof. induction xs as [|y ys IH]; simpl; lia. Qed.

Lemma tcpServerSendData_fold_used e dataHead (l : list slot) usedSpace s :
  buffer_ok e -> write_bounded e -> in_buffer e dataHead ->
  NoDup l ->
  (forall i, i ∈ l -> occupied s i = true ->
             in_buffer e (tcpServerClientTails s !!! i)) ->
  0 <= usedSpace ->
  forall r,
  r = fold_left (fun acc index =>
                   tcpServerSendData_index e dataHead index acc)
        l (usedSpace, s) ->
  fst r
  = foldr Z.max usedSpace
      (map (fun index =>
              unread (settings_gnssHandlerBufferSize e) dataHead
                (tcpServerClientTails (snd r) !!! index))
         (List.filter (occupied s) l)).
Proof.
  intros HC Hwb Hh Hnd. revert usedSpace s.
  induction Hnd as [|j l Hj Hnd IH]; intros usedSpace s Ht Hu r Hr;
    cbn [fold_left] in Hr; [now subst r|].
  pose proof (tcpServerSendData_index_used e dataHead j usedSpace s
                HC Hwb Hh (Ht j ltac:(now left)) Hu) as Hstep.
  destruct (tcpServerSendData_index e dataHead j (usedSpace, s))
    as [u1 s1] eqn:Hj1 in Hr, Hstep |- *. simpl in Hstep.
  assert (Hobs : forall i, i ∈ l -> slot_obs s1 i = slot_obs s i).
  { intros i Hi.
    replace s1 with (snd (tcpServerSendData_index e dataHead j (usedSpace, s)))
      by now rewrite Hj1.
    apply (tcpServerSendData_index_other e dataHead i j (usedSpace, s)).
    intros ->. contradiction. }
  assert (Hu1 : 0 <= u1) by (destruct (occupied s j); lia).
  rewrite (IH u1 s1); [|intros i Hi Hocc|assumption..].
  2:{ rewrite (slot_obs_tail _ _ _ (Hobs i Hi)).
      apply Ht; [now right|].
      now rewrite <- (slot_obs_occupied _ _ _ (Hobs i Hi)). }
  erewrite (filter_ext_in (occupied s1) (occupied s)).
  2:{ intros i Hi. apply slot_obs_occupied, Hobs. now apply list_elem_of_In. }
  simpl. destruct (occupied s j) eqn:Hocc; simpl; [|now rewrite Hstep].
  rewrite Hstep, foldr_max_shift. f_equal. f_equal.
  pose proof (slot_loop_frame (fun acc i => slot_obs (snd acc) i)
                (tcpServerSendData_index e dataHead)
                (fun i j a H => tcpServerSendData_index_other e dataHead i j a H)
                l (u1, s1) j Hj) as Hframe.
  rewrite <- Hr in Hframe. symmetry. apply (slot_obs_tail _ _ _ Hframe).
Qed.

Lemma tcpServerSendData_unoccupied e dataHead s i :
  occupied s i = false ->
  slot_obs (snd (tcpServerSendData e dataHead s)) i
  = (mkSlotView false (sv_dataSent (slot_view s i))
       (sv_writeError (slot_view s i)) (sv_client (slot_view s i))
       (sv_ipAddress (slot_view s i)) dataHead,
     slot_events i s).
Proof.
  intros Hocc. unfold tcpServerSendData.
  destruct (all_slots_loop_local (fun acc i => slot_obs (snd acc) i)
              (tcpServerSendData_index e dataHead)
              (fun i j a H => tcpServerSendData_index_other e dataHead i j a H)
              (0, s) i) as ([u1 s1] & H1 & ->).
  simpl in H1. rewrite <- (slot_obs_occupied _ _ _ H1) in Hocc.
  apply pair_equal_spec in H1 as [Hview Hev]. rewrite <- Hview, <- Hev.
  unfold tcpServerSendData_index. unfold occupied in Hocc. rewrite Hocc.
  simpl. unfold slot_obs, slot_view, slot_events. simpl.
  now rewrite Hocc, vlookup_insert.
Qed.

(** The tail of a free slot is overwritten before it is read: the pass
    does the same whatever that tail is. *)
Lemma tcpServerClientSendData_set_tails e j data length tails s :
  tcpServerClientSendData e j data length (set_tcpServerClientTails tails s)
  = (fst (tcpServerClientSendData e j data length s),
     set_tcpServerClientTails tails
       (snd (tcpServerClientSendData e j data length s))).
Proof.
  unfold tcpServerClientSendData.
  destruct (0 <? _);
    cbn [periodicDisplay set_tcpServerClientTails emit
           set_tcpServerClientDataSent];
    destruct (display_active e _); reflexivity.
Qed.

Lemma tcpServerClientSendData_tails e j data length s :
  tcpServerClientTails (snd (tcpServerClientSendData e j data length s))
  = tcpServerClientTails s.
Proof.
  unfold tcpServerClientSendData.
  destruct (0 <? _); destruct (display_active e _); reflexivity.
Qed.

Lemma set_tails_set_tails tails1 tails2 s :
  set_tcpServerClientTails tails1 (set_tcpServerClientTails tails2 s)
  = set_tcpServerClientTails tails1 s.
Proof. reflexivity. Qed.

Lemma tcpServerSendData_index_set_tail e dataHead (i j : slot) v u s :
  i <> j ->
  tcpServerSendData_index e dataHead j
    (u, set_tcpServerClientTails (vinsert i v (tcpServerClientTails s)) s)
  = (fst (tcpServerSendData_index e dataHead j (u, s)),
     set_tcpServerClientTails
       (vinsert i v
          (tcpServerClientTails
             (snd (tcpServerSendData_index e dataHead j (u, s)))))
       (snd (tcpServerSendData_index e dataHead j (u, s)))).
Proof.
  intros Hne. unfold tcpServerSendData_index.
  cbn [tcpServerClientTails tcpServerClientConnected
         set_tcpServerClientTails].
  rewrite vlookup_insert_ne by assumption.
  destruct (negb (test_bit (tcpServerClientConnected s) j)).
  { cbn [fst snd]. rewrite !set_tails_set_tails.
    cbn [tcpServerClientTails set_tcpServerClientTails].
    now rewrite (vinsert_commute i j) by assumption. }
  destruct (0 <? _).
  2:{ cbn [fst snd]. rewrite !set_tails_set_tails.
      cbn [tcpServerClientTails set_tcpServerClientTails].
      now rewrite (vinsert_commute i j) by assumption. }
  rewrite tcpServerClientSendData_set_tails.
  match goal with
  | |- context [tcpServerClientSendData e j ?d ?n s] =>
      pose proof (tcpServerClientSendData_tails e j d n s) as Htails;
      destruct (tcpServerClientSendData e j d n s) as [sent s1]
  end.
  cbn [fst snd] in *. rewrite !set_tails_set_tails.
  cbn [tcpServerClientTails set_tcpServerClientTails].
  now rewrite Htails, (vinsert_commute i j) by assumption.
Qed.

Lemma tcpServerSendData_fold_free_tail e dataHead (l : list slot) i v u s :
  NoDup l -> i ∈ l -> occupied s i = false ->
  fold_left (fun acc index => tcpServerSendData_index e dataHead index acc) l
    (u, set_tcpServerClientTails (vinsert i v (tcpServerClientTails s)) s)
  = fold_left (fun acc index => tcpServerSendData_index e dataHead index acc)
      l (u, s).
Proof.
  intros Hnd. revert u s.
  induction Hnd as [|j l Hj Hnd IH]; intros u s Hi Hfree; [inversion Hi|].
  cbn [fold_left]. destruct (decide (i = j)) as [<-|Hne].
  - f_equal. unfold tcpServerSendData_index.
    cbn [tcpServerClientTails tcpServerClientConnected
           set_tcpServerClientTails].
    unfold occupied in Hfree. rewrite Hfree. cbn [negb].
    now rewrite vinsert_vinsert.
  - apply elem_of_cons in Hi as [->|Hi]; [congruence|].
    rewrite tcpServerSendData_index_set_tail by assumption.
    pose proof (tcpServerSendData_index_other e dataHead i j (u, s)
                  ltac:(congruence)) as Hobs.
    destruct (tcpServerSendData_index e dataHead j (u, s)) as [u1 s1].
    cbn [fst snd] in *. apply IH; [assumption|].
    now rewrite (slot_obs_occupied _ _ _ Hobs).
Qed.

(** C2: the value returned by [tcpServerSendData] is the maximum, over the
    slots that are occupied when the pass starts, of the unread byte count
    [(dataHead - tail) mod C] each of them is left with by the pass; it is 0
    when no slot is occupied; a slot that is not occupied has its tail set
    to [dataHead] and is not part of the maximum: the returned value is the
    same whatever tail such a slot had.  (Offsets are in [0, C) and a write
    accepts at most what it is offered.) *)
Theorem tcpServerSendData_max_unread (e : Env) (dataHead : Z) (s : State) :
  buffer_ok e -> write_bounded e -> in_buffer e dataHead ->
  (forall i : slot,
     occupied s i = true -> in_buffer e (tcpServerClientTails s !!! i)) ->
  let r := tcpServerSendData e dataHead s in
  fst r = max_unread (settings_gnssHandlerBufferSize e) dataHead
            (occupied s) (tcpServerClientTails (snd r))
  /\ ((forall i : slot, occupied s i = false) -> fst r = 0)
  /\ (forall i : slot,
        occupied s i = false ->
        tcpServerClientTails (snd r) !!! i = dataHead)
  /\ (forall (i : slot) (tail : Z),
        occupied s i = false ->
        fst (tcpServerSendData e dataHead
               (set_tcpServerClientTails
                  (vinsert i tail (tcpServerClientTails s)) s))
        = fst r).
Proof.
  intros HC Hwb Hh Ht r.
  assert (Hmax : fst r = max_unread (settings_gnssHandlerBufferSize e)
                           dataHead (occupied s)
                           (tcpServerClientTails (snd r))).
  { apply (tcpServerSendData_fold_used e dataHead all_slots 0 s HC Hwb Hh
             all_slots_nodup); [intros i _; apply Ht|lia|reflexivity]. }
  split; [exact Hmax|]. split; [|split].
  - intros Hfree. rewrite Hmax. unfold max_unread, all_slots. simpl.
    now rewrite !Hfree.
  - intros i Hocc.
    pose proof (tcpServerSendData_unoccupied e dataHead s i Hocc) as Hobs.
    now apply (f_equal (fun o => sv_tail (fst o))) in Hobs.
  - intros i tail Hocc. subst r. unfold tcpServerSendData.
    now rewrite (tcpServerSendData_fold_free_tail e dataHead all_slots i tail
                   0 s all_slots_nodup (all_slots_elem_of i) Hocc).
Qed.

Lemma tcpServerSendData_max_unread_witness :
  fst (tcpServerSendData (quiet_env 1000 2000 [] all_alive write_4) 10
         two_clients) = 6.
Proof.
  pose proof (tcpServerSendData_max_unread
                (quiet_env 1000 2000 [] all_alive write_4) 10 two_clients)
    as H.
  destruct H as (H & _).
  - unfold buffer_ok. simpl. lia.
  - intros i off len Hlen. simpl. unfold write_4. lia.
  - unfold in_buffer. simpl. lia.
  - intros i _. unfold in_buffer.
    each_slot i; simpl; lia.
  - rewrite H. reflexivity.
Defined.

Lemma tcpServerSendData_index_send_events e dataHead i usedSpace s :
  buffer_ok e ->
  in_buffer e dataHead -> in_buffer e (tcpServerClientTails s !!! i) ->
  occupied s i = true ->
  let C := settings_gnssHandlerBufferSize e in
  let tail := tcpServerClientTails s !!! i in
  let length := Z.min (unread C dataHead tail) (C - tail) in
  unread C dataHead tail <> 0 ->
  slot_events i (snd (tcpServerSendData_index e dataHead i (usedSpace, s)))
  = slot_events i (snd (tcpServerClientSendData e i tail length s)).
Proof.
  intros HC Hh Ht Hocc C tail length Hun.
  pose proof (unread_range C dataHead tail ltac:(apply HC)) as Hur.
  unfold tcpServerSendData_index. unfold occupied in Hocc.
  rewrite Hocc. simpl. fold C tail.
  rewrite bytesInBuffer_unread by assumption. fold C.
  destruct (Z.ltb_spec 0 (unread C dataHead tail)); [|lia].
  replace (if C <? tail + unread C dataHead tail then C - tail
           else unread C dataHead tail) with length
    by (unfold length; destruct (Z.ltb_spec C (tail + unread C dataHead tail));
        lia).
  now destruct (tcpServerClientSendData e i tail length s).
Qed.

Lemma slot_writes_cons_write i offset length s s' rest :
  slot_events i s' = rest ++ EvClientWrite i offset length :: slot_events i s ->
  (forall ev, In ev rest -> exists j, ev = EvClientStop j) ->
  slot_writes i s' = (offset, length) :: slot_writes i s.
Proof.
  unfold slot_writes. intros -> Hrest.
  induction rest as [|ev rest IH]; simpl; [reflexivity|].
  destruct (Hrest ev ltac:(now left)) as [j ->]. simpl.
  apply IH. intros ev' Hin. apply Hrest. now right.
Qed.

(** C4: in a pass of [tcpServerSendData], for an occupied slot with its tail
    and the head in [0, C) and [n = (dataHead - tail) mod C] unread bytes:
    when [n] is 0 nothing is written to the slot and nothing about it
    changes; otherwise exactly one write is made to its socket, of
    [min n (C - tail)] bytes from offset [tail], and when the socket
    accepts [w] bytes of it, [0 < w], all or only a part, the tail becomes
    [(tail + w) mod C], which leaves [n - w] bytes unread for the next
    pass, the data-sent bit is set and the slot stays occupied. *)
Theorem tcpServerSendData_drain (e : Env) (dataHead : Z) (s : State)
    (index : slot) :
  buffer_ok e -> in_buffer e dataHead -> occupied s index = true ->
  in_buffer e (tcpServerClientTails s !!! index) ->
  let C := settings_gnssHandlerBufferSize e in
  let tail := tcpServerClientTails s !!! index in
  let n := unread C dataHead tail in
  let length := Z.min n (C - tail) in
  let s' := snd (tcpServerSendData e dataHead s) in
  (n = 0 -> slot_obs s' index = slot_obs s index)
  /\ (n <> 0 -> slot_writes index s' = (tail, length) :: slot_writes index s)
  /\ (n <> 0 ->
      forall w : Z,
        clientWrite e index tail length = w -> 0 < w <= length ->
        tcpServerClientTails s' !!! index = (tail + w) mod C
        /\ unread C dataHead (tcpServerClientTails s' !!! index) = n - w
        /\ test_bit (tcpServerClientDataSent s') index = true
        /\ occupied s' index = true).
Proof.
  intros HC Hh Hocc Ht C tail n length s'.
  destruct (all_slots_loop_local (fun acc i => slot_obs (snd acc) i)
              (tcpServerSendData_index e dataHead)
              (fun i j a H => tcpServerSendData_index_other e dataHead i j a H)
              (0, s) index) as ([u1 s1] & H1 & Hs').
  fold (tcpServerSendData e dataHead s) in Hs'. fold s' in Hs'.
  simpl in H1.
  pose proof (slot_obs_tail _ _ _ H1) as Htail1.
  pose proof (slot_obs_occupied _ _ _ H1) as Hocc1.
  rewrite Hocc in Hocc1. fold tail in Htail1.
  assert (Ht1 : in_buffer e (tcpServerClientTails s1 !!! index))
    by now rewrite Htail1.
  apply pair_equal_spec in H1 as [Hview1 Hev1].
  split; [|split].
  - intros Hn. rewrite Hs'.
    rewrite tcpServerSendData_index_idle; try assumption.
    + simpl. unfold slot_obs. now rewrite Hview1, Hev1.
    + rewrite Htail1. exact Hn.
  - intros Hn.
    apply pair_equal_spec in Hs' as [_ Hev'].
    rewrite tcpServerSendData_index_send_events in Hev';
      try assumption; [|rewrite Htail1; exact Hn].
    rewrite Htail1 in Hev'. fold C n length in Hev'.
    assert (Hlen : uint16 length = length).
    { pose proof (unread_range C dataHead tail ltac:(apply HC)) as Hur.
      unfold buffer_ok, in_buffer in *. fold C tail n in HC, Ht, Hur.
      apply uint16_small. unfold length. lia. }
    destruct (Z.ltb_spec 0 (uint16 (clientWrite e index tail (uint16 length))))
      as [Hpos|Hneg].
    + destruct (tcpServerClientSendData_written e index tail length s1 Hpos)
        as (_ & _ & Hev).
      rewrite Hev, Hev1, Hlen in Hev'.
      apply (slot_writes_cons_write index tail length s s' []);
        [exact Hev'|intros ev []].
    + destruct (tcpServerClientSendData_failed e index tail length s1 Hneg)
        as (_ & _ & Hev).
      rewrite Hev, Hev1, Hlen in Hev'.
      apply (slot_writes_cons_write index tail length s s'
               [EvClientStop index]); [exact Hev'|].
      intros ev [<-|[]]. now exists index.
  - intros Hn w Hw Hwr.
    destruct (tcpServerSendData_index_send e dataHead index u1 s1
                HC Hh Ht1 Hocc1) as (Hlen & Hfit & Hstep);
      [rewrite Htail1; exact Hn|].
    rewrite Htail1 in Hlen, Hfit, Hstep. fold C n length in Hlen, Hfit, Hstep.
    assert (Hw16 : uint16 (clientWrite e index tail (uint16 length)) = w).
    { rewrite (uint16_small length) by lia. rewrite Hw.
      apply uint16_small. lia. }
    destruct (tcpServerClientSendData_written e index tail length s1)
      as (Hret & Hview & _); [rewrite Hw16; lia|].
    rewrite Hw16 in Hret. rewrite Hret in Hstep.
    rewrite Hstep in Hs' by lia. simpl in Hs'.
    apply pair_equal_spec in Hs' as [Hview' _].
    unfold slot_view in Hview'. simpl in Hview'.
    rewrite vlookup_insert in Hview'.
    apply (f_equal sv_dataSent) in Hview as Hsent.
    apply (f_equal sv_connected) in Hview as Hconn.
    simpl in Hsent, Hconn. fold (occupied s1 index) in Hconn.
    rewrite Hocc1 in Hconn.
    apply (f_equal sv_tail) in Hview' as Htail'.
    apply (f_equal sv_dataSent) in Hview' as Hsent'.
    apply (f_equal sv_connected) in Hview' as Hconn'.
    simpl in Htail', Hsent', Hconn'.
    unfold occupied. rewrite Htail', Hsent', Hconn'.
    repeat split; try assumption.
    apply unread_after_write.
    + unfold buffer_ok in HC. fold C in HC. lia.
    + fold n length. lia.
Qed.

Lemma tcpServerSendData_drain_witness :
  let s' := snd (tcpServerSendData (quiet_env 1000 2000 [] all_alive write_4)
                   10 two_clients) in
  slot_writes 0%fin s' = [(4, 6)]
  /\ tcpServerClientTails s' !!! 0%fin = 8.
Proof.
  pose proof (tcpServerSendData_drain
                (quiet_env 1000 2000 [] all_alive write_4) 10 two_clients
                0%fin) as H.
  destruct H as (_ & Hwrites & Hadvance).
  - unfold buffer_ok. simpl. lia.
  - unfold in_buffer. simpl. lia.
  - reflexivity.
  - unfold in_buffer. simpl. lia.
  - split.
    + apply Hwrites. discriminate.
    + apply (Hadvance ltac:(discriminate) 4); [reflexivity|].
      vm_compute. split; [reflexivity|discriminate].
Defined.

(** A pass of [tcpServerSendData] in which the write to slot [i] fails. *)
Lemma tcpServerSendData_write_fails e dataHead s i :
  buffer_ok e -> in_buffer e dataHead -> occupied s i = true ->
  in_buffer e (tcpServerClientTails s !!! i) ->
  let C := settings_gnssHandlerBufferSize e in
  let tail := tcpServerClientTails s !!! i in
  let length := Z.min (unread C dataHead tail) (C - tail) in
  unread C dataHead tail <> 0 ->
  uint16 (clientWrite e i tail (uint16 length)) <= 0 ->
  slot_view (snd (tcpServerSendData e dataHead s)) i
  = write_failed_view (slot_view s i).
Proof.
  intros HC Hh Hocc Ht C tail length Hn Hfail.
  destruct (all_slots_loop_local (fun acc i => slot_obs (snd acc) i)
              (tcpServerSendData_index e dataHead)
              (fun i j a H => tcpServerSendData_index_other e dataHead i j a H)
              (0, s) i) as ([u1 s1] & H1 & Hs').
  fold (tcpServerSendData e dataHead s) in Hs'. cbn [snd] in H1.
  pose proof (slot_obs_tail _ _ _ H1) as Htail1.
  pose proof (slot_obs_occupied _ _ _ H1) as Hocc1.
  rewrite Hocc in Hocc1. fold tail in Htail1.
  assert (Ht1 : in_buffer e (tcpServerClientTails s1 !!! i))
    by now rewrite Htail1.
  apply pair_equal_spec in H1 as [Hview1 _].
  apply pair_equal_spec in Hs' as [-> _].
  destruct (tcpServerSendData_index_send e dataHead i u1 s1 HC Hh Ht1 Hocc1)
    as (Hlen & Hfit & Hstep); [rewrite Htail1; exact Hn|].
  rewrite Htail1 in Hlen, Hfit, Hstep. fold C length in Hlen, Hfit, Hstep.
  destruct (tcpServerClientSendData_failed e i tail length s1 Hfail)
    as (Hret & Hview & _).
  rewrite Hret in Hstep. rewrite Hstep by (unfold in_buffer in Ht; lia).
  cbn [snd]. unfold slot_view at 1. cbn [set_tcpServerClientTails
    tcpServerClientConnected tcpServerClientDataSent
    tcpServerClientWriteError tcpServerClient tcpServerClientIpAddress
    tcpServerClientTails].
  rewrite vlookup_insert.
  destruct (slot_view_fields _ _ _ Hview) as (Hc & Hd & Hw & Hcl & _ & Hip).
  unfold occupied in Hc. rewrite Hc, Hd, Hw, Hcl, Hip, Hview1.
  unfold write_failed_view. cbn [sv_connected sv_dataSent sv_writeError
    sv_client sv_ipAddress sv_tail].
  f_equal.
  rewrite Z.add_0_r. unfold slot_view. cbn [sv_tail]. fold tail.
  apply Z.mod_small. exact Ht.
Qed.

(** C5: when the write of [tcpServerClientSendData] fails (the [uint16_t]
    it stores the result in is not positive), the routine reports no byte
    sent, sets the slot's write-error bit, stops its socket and clears its
    connected bit at once, so the slot is free before any later accept
    pass; the flags, client object, address and tail of every other slot
    are as before, and so is every tail.  When this happens in a pass of
    [tcpServerSendData], the slot is in that condition when the pass
    returns. *)
Theorem tcpServerClientSendData_write_failure (e : Env) (index : slot)
    (data length : Z) (s : State) :
  uint16 (clientWrite e index data (uint16 length)) <= 0 ->
  let s' := snd (tcpServerClientSendData e index data length s) in
  (fst (tcpServerClientSendData e index data length s) = 0
   /\ test_bit (tcpServerClientWriteError s') index = true
   /\ isOpen (tcpServerClient s' !!! index) = false
   /\ In (EvClientStop index) (trace s')
   /\ occupied s' index = false
   /\ (forall j : slot, j <> index -> slot_view s' j = slot_view s j)
   /\ tcpServerClientTails s' = tcpServerClientTails s)
  /\ (forall dataHead : Z,
        buffer_ok e -> in_buffer e dataHead -> occupied s index = true ->
        data = tcpServerClientTails s !!! index -> in_buffer e data ->
        unread (settings_gnssHandlerBufferSize e) dataHead data <> 0 ->
        length = Z.min (unread (settings_gnssHandlerBufferSize e)
                          dataHead data)
                   (settings_gnssHandlerBufferSize e - data) ->
        slot_view (snd (tcpServerSendData e dataHead s)) index
        = write_failed_view (slot_view s index)).
Proof.
  intros Hw s'. split.
  - destruct (tcpServerClientSendData_failed e index data length s Hw)
      as (Hret & Hview & Hev).
    fold s' in Hview, Hev.
    destruct (slot_view_fields _ _ _ Hview) as (Hco & _ & Hwe & Hcl & _).
    cbn [write_failed_view sv_connected sv_writeError sv_client] in *.
    repeat split; try assumption.
    + now rewrite Hcl.
    + assert (Hin : In (EvClientStop index) (slot_events index s'))
        by (rewrite Hev; now left).
      unfold slot_events in Hin. now apply filter_In in Hin.
    + intros j Hj. apply tcpServerClientSendData_other. congruence.
    + subst s'. unfold tcpServerClientSendData.
      destruct (0 <? _); destruct (display_active e _); reflexivity.
  - intros dataHead HC Hh Hocc -> Hin Hn ->.
    now apply tcpServerSendData_write_fails.
Qed.

Lemma tcpServerClientSendData_write_failure_witness :
  let e := quiet_env 1000 2000 [] all_alive write_fail_1 in
  occupied (snd (tcpServerClientSendData e 1%fin 0 10 two_clients)) 1%fin
  = false
  /\ slot_view (snd (tcpServerSendData e 10 two_clients)) 1%fin
     = write_failed_view (slot_view two_clients 1%fin).
Proof.
  intros e.
  destruct (tcpServerClientSendData_write_failure e 1%fin 0 10 two_clients)
    as ((_ & _ & _ & _ & Hfree & _) & Hpass).
  - vm_compute. discriminate.
  - split; [exact Hfree|].
    apply (Hpass 10).
    + unfold buffer_ok. vm_compute. split; [reflexivity|discriminate].
    + vm_compute. split; [discriminate|reflexivity].
    + reflexivity.
    + reflexivity.
    + vm_compute. split; [discriminate|reflexivity].
    + vm_compute. discriminate.
    + reflexivity.
Defined.

(** Scenario B of the specification: the write to slot 0 succeeds and the
    write to slot 1 fails; slot 1 is dropped, slot 0 has advanced. *)
Example send_scenario_B :
  let e := quiet_env 1000 2000 [] all_alive write_fail_1 in
  let s' := snd (tcpServerSendData e 10 two_clients) in
  (occupied s' 0%fin, occupied s' 1%fin,
   vec_to_list (tcpServerClientTails s'),
   tcpServerClientWriteError s')
  = (true, false, [10; 0; 10; 10], 2).
Proof. vm_compute. reflexivity. Qed.

(** ** tcpServerSetState *)

Lemma Ret_inj {A : Type} (a b : A) : Ret a = Ret b -> a = b.
Proof. intros H. now injection H. Qed.

Lemma set_tcpServerState_same s : set_tcpServerState (tcpServerState s) s = s.
Proof. now destruct s. Qed.

Lemma tcpServerSetState_known e newState s :
  newState < TCP_SERVER_STATE_MAX ->
  exists s', tcpServerSetState e newState s = Ret s'
             /\ tcpServerState s' = newState
             /\ slot_table s' = slot_table s
             /\ service s' = service s
             /\ (forall i, slot_events i s' = slot_events i s).
Proof.
  intros Hst. unfold tcpServerSetState.
  destruct (Z.leb_spec TCP_SERVER_STATE_MAX newState); [lia|].
  destruct (display_active e (PD_TCP_SERVER_STATE (periodicDisplay s)))
    eqn:Hd.
  - destruct (tcpServerState s =? newState); simpl; rewrite Hd;
      eexists; repeat split; reflexivity.
  - simpl. rewrite Hd. eexists; repeat split; reflexivity.
Qed.

(** C6 as the code has it: for a state value outside the enumeration,
    [tcpServerSetState] halts in [reportFatalError] exactly when the state
    display is active (debug output enabled or a periodic display of the
    state pending, and not in the main menu); otherwise it stores the value
    and returns without a message.  [tcpServerUpdate], finding such a value
    (server enabled, mode matching), halts exactly when one of its two
    conditional calls of [tcpServerSetState] is made with the display
    active; otherwise its switch takes the empty default branch and the
    state is left as it is. *)
Theorem tcpServerSetState_unknown_state (e : Env) (newState : Z)
    (s : State) :
  unknown_state newState ->
  tcpServerSetState e newState s
  = (if display_active e (PD_TCP_SERVER_STATE (periodicDisplay s))
     then Halted "Unknown TCP Server state"
     else Ret (set_tcpServerState newState s))
  /\ (tcpServerState s = newState ->
      rtkModeMatches e = true -> settings_enableTcpServer e = true ->
      tcpServerUpdate e s
      = if (deadManWalking e
            && display_active e (PD_TCP_SERVER_STATE (periodicDisplay s)))
           || (PD_TCP_SERVER_STATE (periodicDisplay s)
               && negb (inMainMenu e))
        then Halted "Unknown TCP Server state"
        else Ret s).
Proof.
  unfold unknown_state, TCP_SERVER_STATE_MAX. intros Hst.
  assert (Hset : tcpServerSetState e newState s
                 = if display_active e (PD_TCP_SERVER_STATE (periodicDisplay s))
                   then Halted "Unknown TCP Server state"
                   else Ret (set_tcpServerState newState s)).
  { unfold tcpServerSetState, TCP_SERVER_STATE_MAX.
    destruct (Z.leb_spec 3 newState); [|lia].
    destruct (display_active e (PD_TCP_SERVER_STATE (periodicDisplay s)))
    eqn:Hd.
    - destruct (tcpServerState s =? newState); simpl; now rewrite Hd.
    - simpl. now rewrite Hd. }
  split; [exact Hset|].
  intros Hcur Hmode Hen. subst newState.
  unfold tcpServerUpdate. rewrite Hset, Hmode, Hen, set_tcpServerState_same.
  assert (Hsw : tcpServerUpdate_switch e s = Ret s).
  { unfold tcpServerUpdate_switch, TCP_SERVER_STATE_OFF,
      TCP_SERVER_STATE_NETWORK_STARTED, TCP_SERVER_STATE_RUNNING.
    destruct (Z.eqb_spec (tcpServerState s) 0); [lia|].
    destruct (Z.eqb_spec (tcpServerState s) 1); [lia|].
    destruct (Z.eqb_spec (tcpServerState s) 2); [lia|reflexivity]. }
  unfold display_active in *.
  destruct (deadManWalking e), (settings_debugTcpServer e),
    (PD_TCP_SERVER_STATE (periodicDisplay s)) eqn:Hpd, (inMainMenu e) eqn:Hm;
    simpl in *; rewrite ?Hsw; simpl; rewrite ?Hpd, ?Hm; simpl;
    rewrite ?Hset; reflexivity.
Qed.

Lemma tcpServerSetState_unknown_state_witness :
  tcpServerSetState (debug_on (quiet_env 1000 0 [] all_alive write_all)) 3
    initial_state
  = Halted "Unknown TCP Server state".
Proof.
  apply (proj1 (tcpServerSetState_unknown_state
                  (debug_on (quiet_env 1000 0 [] all_alive write_all)) 3
                  initial_state
                  ltac:(unfold unknown_state, TCP_SERVER_STATE_MAX; lia))).
Defined.

(** The claim C6 fails without debug output: the value 3 is stored without
    any diagnostic, and the next [tcpServerUpdate] returns with the state
    still 3. *)
Lemma unknown_state_stored_silently :
  let e := quiet_env 1000 0 [] all_alive write_all in
  unknown_state 3
  /\ tcpServerSetState e 3 initial_state
     = Ret (set_tcpServerState 3 initial_state)
  /\ trace (set_tcpServerState 3 initial_state) = []
  /\ tcpServerUpdate e (set_tcpServerState 3 initial_state)
     = Ret (set_tcpServerState 3 initial_state).
Proof.
  repeat split. unfold unknown_state, TCP_SERVER_STATE_MAX. lia.
Qed.

(** ** tcpServerStop *)

Lemma fold_slots_preserves {A B : Type} (P : A -> B) (body : slot -> A -> A)
    (l : list slot) (a : A) :
  (forall j a, P (body j a) = P a) ->
  P (fold_left (fun a j => body j a) l a) = P a.
Proof.
  intros H. revert a. induction l as [|j l IH]; intros a; simpl;
    [reflexivity|]. now rewrite IH.
Qed.

Lemma slot_table_fields s1 s2 :
  slot_table s1 = slot_table s2 ->
  (forall i, slot_view s1 i = slot_view s2 i)
  /\ tcpServerClientTails s1 = tcpServerClientTails s2
  /\ tcpServerClientConnected s1 = tcpServerClientConnected s2
  /\ tcpServerClientDataSent s1 = tcpServerClientDataSent s2
  /\ tcpServerClientIsNull s1 = tcpServerClientIsNull s2.
Proof.
  unfold slot_table, slot_view. intros H.
  injection H as -> -> -> -> -> -> ->. auto.
Qed.

Lemma service_fields s1 s2 :
  service s1 = service s2 ->
  online_tcpServer s1 = online_tcpServer s2
  /\ tcpServer s1 = tcpServer s2
  /\ tcpServerTimer s1 = tcpServerTimer s2
  /\ networkUser s1 = networkUser s2.
Proof. unfold service. intros H. injection H as -> -> -> ->. auto. Qed.

Lemma tuple4_fields {A B C D : Type} (a a' : A) (b b' : B) (c c' : C)
    (d d' : D) :
  (a, b, c, d) = (a', b', c', d') -> a = a' /\ b = b' /\ c = c' /\ d = d'.
Proof. intros H. injection H. auto. Qed.

Lemma tuple3_fields {A B C : Type} (a a' : A) (b b' : B) (c c' : C) :
  (a, b, c) = (a', b', c') -> a = a' /\ b = b' /\ c = c'.
Proof. intros H. injection H. auto. Qed.

Lemma stopClient_rest e j s :
  (tcpServerClientTails (stopClient e j s),
   tcpServerClientDataSent (stopClient e j s),
   tcpServerState (stopClient e j s),
   service (stopClient e j s))
  = (tcpServerClientTails s, tcpServerClientDataSent s, tcpServerState s,
     service s).
Proof.
  unfold stopClient.
  destruct (display_active e _);
    [destruct (negb (client_dataSent _ j _)),
       (negb (client_connected e j _ && _))|]; reflexivity.
Qed.

Lemma stop_all_clients_view e s i :
  slot_view (fold_left (fun s index => stopClient e index s)
               all_slots s) i
  = dropped_view (slot_view s i).
Proof.
  destruct (all_slots_loop_local slot_view (stopClient e)) with
    (a := s) (i := i) as (s1 & H1 & ->).
  - intros i' j a Hne. rewrite stopClient_view.
    now rewrite decide_False by congruence.
  - rewrite stopClient_view, decide_True by reflexivity.
    now rewrite H1.
Qed.


(** ** Null pointers *)

Lemma tcpServerStopClient_set e index s :
  tcpServerClientIsNull s !!! index = false ->
  tcpServerStopClient e index s = Ret (stopClient e index s).
Proof.
  intros Hset. unfold tcpServerStopClient, stopClient, client_connected, deref.
  destruct (display_active e _).
  - cbn [tcpServerClientIsNull clear_PD_TCP_SERVER_DATA set_periodicDisplay].
    rewrite Hset. change (Ret ?a ≫= ?k) with (k a). cbv beta zeta.
    destruct (negb (client_dataSent _ index _)), (negb (_ && _ && _));
      change (Ret ?a ≫= ?k) with (k a); cbv beta;
      cbn [tcpServerClientIsNull systemPrint emit set_periodicDisplay
           clear_PD_TCP_SERVER_DATA];
      rewrite Hset; reflexivity.
  - change (Ret ?a ≫= ?k) with (k a). cbv beta. rewrite Hset. reflexivity.
Qed.

Lemma tcpServerStopClient_null e index s :
  tcpServerClientIsNull s !!! index = true ->
  tcpServerStopClient e index s = Fault.
Proof.
  intros Hnull. unfold tcpServerStopClient, deref.
  destruct (display_active e _).
  - cbn [tcpServerClientIsNull clear_PD_TCP_SERVER_DATA set_periodicDisplay].
    rewrite Hnull. reflexivity.
  - change (Ret ?a ≫= ?k) with (k a). cbv beta. rewrite Hnull. reflexivity.
Qed.

Lemma stopClient_isNull e index s :
  tcpServerClientIsNull (stopClient e index s) = tcpServerClientIsNull s.
Proof.
  unfold stopClient.
  destruct (display_active e _);
    [destruct (negb (client_dataSent _ index _)),
       (negb (client_connected e index _ && _))|]; reflexivity.
Qed.

Lemma for_slots_cons body j (l : list slot) s :
  for_slots body (j :: l) s
  = match body j s with
    | Ret s1 => for_slots body l s1
    | Halted msg => Halted msg
    | Fault => Fault
    end.
Proof.
  unfold for_slots. cbn [fold_left].
  change (Ret s ≫= ?k) with (k s). cbv beta.
  destruct (body j s) as [s1|msg|]; [reflexivity| |].
  - induction l as [|i l IH]; [reflexivity|exact IH].
  - induction l as [|i l IH]; [reflexivity|exact IH].
Qed.

(** A loop whose body returns what [f] computes, as long as [P] holds. *)
Lemma for_slots_returns (P : State -> Prop) body (f : slot -> State -> State)
    (l : list slot) s :
  (forall j s, P s -> body j s = Ret (f j s) /\ P (f j s)) ->
  P s ->
  for_slots body l s = Ret (fold_left (fun s j => f j s) l s).
Proof.
  intros Hbody. revert s.
  induction l as [|j l IH]; intros s HP; [reflexivity|].
  rewrite for_slots_cons. destruct (Hbody j s HP) as [-> HP'].
  cbn [fold_left]. now apply IH.
Qed.

(** A loop whose body either faults or returns what [f] computes. *)
Lemma for_slots_cases body (f : slot -> State -> State) (l : list slot) s :
  (forall j s, body j s = Fault \/ body j s = Ret (f j s)) ->
  for_slots body l s = Fault
  \/ for_slots body l s = Ret (fold_left (fun s j => f j s) l s).
Proof.
  intros Hbody. revert s.
  induction l as [|j l IH]; intros s; [now right|].
  rewrite for_slots_cons. destruct (Hbody j s) as [-> | ->]; [now left|].
  cbn [fold_left]. apply IH.
Qed.

Lemma tcpServerStopClient_cases e index s :
  tcpServerStopClient e index s = Fault
  \/ tcpServerStopClient e index s = Ret (stopClient e index s).
Proof.
  destruct (tcpServerClientIsNull s !!! index) eqn:H.
  - left. now apply tcpServerStopClient_null.
  - right. now apply tcpServerStopClient_set.
Qed.

Lemma tcpServerUpdate_checkClient_set e index s :
  (occupied s index = true -> tcpServerClientIsNull s !!! index = false) ->
  tcpServerUpdate_checkClient e index s = Ret (checkClient e index s).
Proof.
  intros Hset. unfold tcpServerUpdate_checkClient, checkClient, occupied in *.
  destruct (test_bit _ index); [|reflexivity].
  unfold deref. rewrite Hset by reflexivity.
  change (Ret ?a ≫= ?k) with (k a). cbv beta.
  fold (client_connected e index s).
  destruct (client_connected e index s && _).
  - now destruct (_ && _).
  - apply tcpServerStopClient_set. now apply Hset.
Qed.

Lemma tcpServerUpdate_checkClient_cases e index s :
  tcpServerUpdate_checkClient e index s = Fault
  \/ tcpServerUpdate_checkClient e index s = Ret (checkClient e index s).
Proof.
  destruct (tcpServerClientIsNull s !!! index) eqn:H.
  - destruct (occupied s index) eqn:Hocc.
    + left. unfold tcpServerUpdate_checkClient, deref.
      unfold occupied in Hocc. now rewrite Hocc, H.
    + right. apply tcpServerUpdate_checkClient_set. congruence.
  - right. now apply tcpServerUpdate_checkClient_set.
Qed.

Lemma stop_loop_set e s :
  (forall i : slot, tcpServerClientIsNull s !!! i = false) ->
  for_slots (tcpServerStopClient e) all_slots s
  = Ret (fold_left (fun s index => stopClient e index s) all_slots s).
Proof.
  intros Hall.
  apply (for_slots_returns
           (fun s => forall i : slot, tcpServerClientIsNull s !!! i = false));
    [|exact Hall].
  intros j s0 H0. split; [apply tcpServerStopClient_set, H0|].
  intros i. rewrite stopClient_isNull. apply H0.
Qed.


Lemma tcpServerSetState_known_calls e newState s :
  newState < TCP_SERVER_STATE_MAX ->
  exists s', tcpServerSetState e newState s = Ret s'
             /\ tcpServerState s' = newState
             /\ slot_table s' = slot_table s
             /\ service s' = service s
             /\ calls s' = calls s
             /\ same_but_display (set_tcpServerState newState s) s'.
Proof.
  intros Hst. unfold tcpServerSetState.
  destruct (Z.leb_spec TCP_SERVER_STATE_MAX newState); [lia|].
  destruct (display_active e (PD_TCP_SERVER_STATE (periodicDisplay s)))
    eqn:Hd.
  - destruct (tcpServerState s =? newState); simpl; rewrite Hd;
      eexists; repeat split; reflexivity.
  - simpl. rewrite Hd. eexists; repeat split; reflexivity.
Qed.

Lemma stopClient_calls e i s :
  calls (stopClient e i s) = EvClientStop i :: calls s.
Proof.
  unfold stopClient.
  destruct (display_active e _);
    [destruct (negb (client_dataSent _ i _)),
       (negb (client_connected e i _ && _))|]; reflexivity.
Qed.

(** Leaving any state but OFF through [tcpServerStop], when it meets no null
    pointer. *)
Lemma tcpServerStop_spec e s :
  tcpServerState s <> TCP_SERVER_STATE_OFF ->
  stop_safe s ->
  exists s',
    tcpServerStop e s = Ret s'
    /\ tcpServerState s' = TCP_SERVER_STATE_OFF
    /\ service s' = (false, None, millisAtStop e, false)
    /\ (forall i, occupied s' i = false)
    /\ (forall i, occupied s i = true ->
                  isOpen (tcpServerClient s' !!! i) = false)
    /\ (forall i, isOpen (tcpServerClient s' !!! i) = true ->
                  isOpen (tcpServerClient s !!! i) = true)
    /\ tcpServerClientTails s' = tcpServerClientTails s
    /\ tcpServerClientIsNull s' = tcpServerClientIsNull s
    /\ calls s' = stop_calls s ++ calls s.
Proof.
  intros Hoff Hsafe. unfold tcpServerStop, stop_calls.
  set (s1 := if online_tcpServer s then _ else s).
  assert (H1 : slot_table s1 = slot_table s
               /\ tcpServerState s1 = tcpServerState s
               /\ online_tcpServer s1 = false
               /\ tcpServer s1 = tcpServer s
               /\ calls s1
                  = (if online_tcpServer s then [EvDelay 5] else [])
                    ++ calls s).
  { subst s1. destruct (online_tcpServer s) eqn:E; simpl; auto. }
  destruct H1 as (Htab1 & Hst1 & Hon1 & Hsrv1 & Hcalls1).
  apply slot_table_fields in Htab1
    as (Hview1 & Htails1 & Hconn1 & _ & Hnull1).
  clearbody s1.
  set (s2 := if negb (tcpServerClientConnected s1 =? 0)
             then fold_left (fun s index => stopClient e index s)
                    all_slots s1
             else s1).
  assert (Hloop : (if negb (tcpServerClientConnected s1 =? 0)
                   then for_slots (tcpServerStopClient e) all_slots s1
                   else Ret s1) = Ret s2).
  { subst s2. destruct (Z.eqb_spec (tcpServerClientConnected s1) 0)
      as [Hz|Hnz]; cbn [negb]; [reflexivity|].
    apply stop_loop_set. rewrite Hnull1.
    destruct Hsafe as [Hz|Hall]; [congruence|exact Hall]. }
  rewrite Hloop. change (Ret s2 ≫= ?k) with (k s2). cbv beta.
  assert (H2 : (forall i, occupied s2 i = false)
               /\ (forall i, occupied s i = true ->
                             isOpen (tcpServerClient s2 !!! i) = false)
               /\ (forall i, isOpen (tcpServerClient s2 !!! i) = true ->
                             isOpen (tcpServerClient s !!! i) = true)
               /\ tcpServerClientTails s2 = tcpServerClientTails s
               /\ tcpServerState s2 = tcpServerState s
               /\ online_tcpServer s2 = false
               /\ tcpServer s2 = tcpServer s
               /\ tcpServerClientIsNull s2 = tcpServerClientIsNull s
               /\ calls s2
                  = (if negb (tcpServerClientConnected s =? 0)
                     then [EvClientStop 3%fin; EvClientStop 2%fin;
                           EvClientStop 1%fin; EvClientStop 0%fin]
                     else [])
                    ++ calls s1).
  { subst s2. rewrite <- Hconn1.
    destruct (Z.eqb_spec (tcpServerClientConnected s1) 0) as [Hz|Hnz];
      cbn [negb].
    - repeat split; try assumption.
      + intros i. unfold occupied. rewrite Hz. apply test_bit_0.
      + intros i. unfold occupied. rewrite <- Hconn1, Hz, test_bit_0.
        discriminate.
      + intros i. pose proof (Hview1 i) as Hv.
        apply (f_equal sv_client) in Hv. simpl in Hv. now rewrite Hv.
    - pose proof (fold_slots_preserves
                    (fun s => (tcpServerClientTails s,
                               tcpServerClientDataSent s, tcpServerState s,
                               service s))
                    (stopClient e) all_slots s1
                    (stopClient_rest e)) as Hrest.
      apply pair_equal_spec in Hrest as [Hrest Hsrv'].
      apply pair_equal_spec in Hrest as [Hrest Hst].
      apply pair_equal_spec in Hrest as [Ht _].
      unfold service in Hsrv'.
      apply pair_equal_spec in Hsrv' as [Hsrv' _].
      apply pair_equal_spec in Hsrv' as [Hsrv' _].
      apply pair_equal_spec in Hsrv' as [Ho Hs].
      assert (Hv : forall i,
                 slot_view (fold_left
                              (fun s index => stopClient e index s)
                              all_slots s1) i
                 = dropped_view (slot_view s i)).
      { intros i. now rewrite stop_all_clients_view, Hview1. }
      pose proof (fold_slots_preserves tcpServerClientIsNull
                    (stopClient e) all_slots s1 (stopClient_isNull e))
        as Hnull.
      assert (Hcalls : calls (fold_left
                                (fun s index => stopClient e index s)
                                all_slots s1)
                       = [EvClientStop 3%fin; EvClientStop 2%fin;
                          EvClientStop 1%fin; EvClientStop 0%fin]
                         ++ calls s1).
      { unfold all_slots. cbn [fold_left].
        now rewrite !stopClient_calls. }
      repeat split; try congruence.
      + intros i.
        now destruct (slot_view_fields _ _ _ (Hv i)) as (-> & _).
      + intros i _.
        now destruct (slot_view_fields _ _ _ (Hv i)) as (_ & _ & _ & -> & _).
      + intros i.
        destruct (slot_view_fields _ _ _ (Hv i)) as (_ & _ & _ & -> & _).
        discriminate. }
  destruct H2 as (Hocc2 & Hclosed2 & Hopen2 & Htails2 & Hst2 & Hon2 & Hsrv2
                  & Hnull2 & Hcalls2).
  clearbody s2. clear Hloop.
  set (s3 := match tcpServer s2 with Some _ => _ | None => s2 end).
  assert (H3 : slot_table s3 = slot_table s2
               /\ tcpServerState s3 = tcpServerState s2
               /\ online_tcpServer s3 = false
               /\ tcpServer s3 = None
               /\ calls s3
                  = match tcpServer s with
                    | Some _ => [EvServerStop]
                    | None => []
                    end ++ calls s2).
  { subst s3. rewrite <- Hsrv2. destruct (tcpServer s2) eqn:E; simpl;
      [destruct (settings_debugTcpServer e && negb (inMainMenu e))|];
      simpl; auto. }
  destruct H3 as (Htab3 & Hst3 & Hon3 & Hsrv3 & Hcalls3).
  apply slot_table_fields in Htab3
    as (Hview3 & Htails3 & Hconn3 & _ & Hnull3).
  clearbody s3.
  destruct (Z.eqb_spec (tcpServerState s3) TCP_SERVER_STATE_OFF) as [E|_];
    [congruence|].
  destruct (Z.eqb_spec (tcpServerState s) TCP_SERVER_STATE_OFF) as [E|_];
    [congruence|].
  cbn [negb].
  destruct (tcpServerSetState_known_calls e TCP_SERVER_STATE_OFF
              (set_networkUser false (emit EvNetworkUserClose s3)))
    as (s4 & -> & Hst4 & Htab4 & Hsrv4 & Hcalls4 & _); [reflexivity|].
  apply slot_table_fields in Htab4
    as (Hview4 & Htails4 & Hconn4 & _ & Hnull4).
  apply service_fields in Hsrv4 as (Hon4 & Hl4 & _ & Hn4).
  change (calls (set_networkUser false (emit EvNetworkUserClose s3)))
    with (EvNetworkUserClose :: calls s3) in Hcalls4.
  simpl in Hview4, Htails4, Hconn4, Hon4, Hl4, Hn4, Hnull4.
  eexists. split; [reflexivity|].
  assert (Hcl : forall i, tcpServerClient s4 !!! i = tcpServerClient s2 !!! i).
  { intros i. pose proof (f_equal sv_client (Hview4 i)) as Ha.
    pose proof (f_equal sv_client (Hview3 i)) as Hb.
    cbn [sv_client slot_view] in Ha, Hb. simpl in Ha. congruence. }
  split; [exact Hst4|].
  split; [unfold service; simpl; congruence|].
  split; [intros i; unfold occupied; simpl; rewrite Hconn4, Hconn3;
          apply Hocc2|].
  split; [intros i Hi; simpl; rewrite Hcl; now apply Hclosed2|].
  split; [intros i; simpl; rewrite Hcl; apply Hopen2|].
  split; [simpl; congruence|].
  split; [simpl; congruence|].
  change (calls (set_tcpServerTimer (millisAtStop e) s4)) with (calls s4).
  rewrite Hcalls4, Hcalls3, Hcalls2, Hcalls1.
  cbn [app]. rewrite <- !app_assoc. reflexivity.
Qed.
(** ** What the loops and the displays leave alone *)

Lemma checkClient_rest e j s :
  (tcpServerClientTails (checkClient e j s),
   tcpServerClientDataSent (checkClient e j s),
   tcpServerState (checkClient e j s),
   service (checkClient e j s))
  = (tcpServerClientTails s, tcpServerClientDataSent s, tcpServerState s,
     service s).
Proof.
  unfold checkClient.
  destruct (test_bit _ j); [|reflexivity].
  destruct (_ && _); [|apply stopClient_rest].
  now destruct (_ && _).
Qed.

Lemma tcpServerUpdate_acceptClients_rest e indexes pending s :
  (tcpServerClientTails (tcpServerUpdate_acceptClients e indexes pending s),
   tcpServerState (tcpServerUpdate_acceptClients e indexes pending s),
   service (tcpServerUpdate_acceptClients e indexes pending s))
  = (tcpServerClientTails s, tcpServerState s, service s).
Proof.
  revert pending s.
  induction indexes as [|j indexes IH]; intros pending s; simpl;
    [reflexivity|].
  destruct (negb (test_bit _ j)); [|apply IH].
  destruct pending as [|client pending]; [reflexivity|].
  rewrite IH. now destruct (display_active e _).
Qed.

Lemma checkClient_isNull e j s :
  tcpServerClientIsNull (checkClient e j s) = tcpServerClientIsNull s.
Proof.
  unfold checkClient.
  destruct (test_bit _ j); [|reflexivity].
  destruct (_ && _); [|apply stopClient_isNull].
  now destruct (_ && _).
Qed.

(** ** Accepting a client *)

(** Scenario A of the specification: the late client is sent nothing of
    the 1200 bytes written before it connected, only the 50 bytes written
    afterwards. *)
Example accept_scenario_A :
  exists s : State,
    run late_client_history initial_state = Ret s
    /\ slot_events 0%fin s
       = [EvClientWrite 0%fin 200 50; EvClientAccept 0%fin 11].
Proof.
  eexists. split; vm_compute; reflexivity.
Qed.

(** C3: the claim fails on the code.  [tcpServerSendData] sets the tail of
    every slot it finds free to the head (lines 137-138), so that a client
    accepted later starts at the head; the accept loop itself never sets a
    tail, and this misses the slot that changes hands within one
    [tcpServerUpdate].  Here the producer's head is 10, client 11 has read
    up to offset 4, its connection is found broken and client 33 is
    accepted into slot 0 by the same call: its tail is 4, not 10, and the
    next pass sends it the 6 bytes from offset 4, produced before it
    connected. *)
Theorem accepted_client_gets_backlog :
  exists s : State,
    run slot_changes_hands initial_state = Ret s
    /\ slot_events 0%fin s
       = [EvClientAccept 0%fin 33; EvClientStop 0%fin;
          EvClientWrite 0%fin 0 10; EvClientAccept 0%fin 11]
    /\ occupied s 0%fin = true
    /\ tcpServerClientTails s !!! 0%fin = 4
    /\ tcpServerClientTails s !!! 0%fin <> 10
    /\ slot_writes 0%fin
         (snd (tcpServerSendData (quiet_env 1000 1001 [] all_alive write_all)
                 10 s))
       = [(4, 6); (0, 10)].
Proof.
  eexists. split; [vm_compute; reflexivity|].
  repeat split; try (vm_compute; reflexivity).
  vm_compute. discriminate.
Qed.

(** ** tcpServerUpdate in the RUNNING state *)

(** ** tcpServerUpdate in the RUNNING state *)

Lemma same_but_display_refl s : same_but_display s s.
Proof. repeat split. Qed.

Lemma same_but_display_trans s1 s2 s3 :
  same_but_display s1 s2 -> same_but_display s2 s3 -> same_but_display s1 s3.
Proof.
  intros (A1 & A2 & A3 & A4) (B1 & B2 & B3 & B4).
  repeat split; try congruence.
Qed.

Lemma tcpServerSetState_current e s :
  tcpServerState s < TCP_SERVER_STATE_MAX ->
  exists s', tcpServerSetState e (tcpServerState s) s = Ret s'
             /\ same_but_display s s'.
Proof.
  intros Hst.
  destruct (tcpServerSetState_known e (tcpServerState s) s Hst)
    as (s' & H & H1 & H2 & H3 & H4).
  exists s'. repeat split; assumption.
Qed.

(** The last statement of [tcpServerUpdate]. *)
Lemma periodic_state_display e s :
  tcpServerState s < TCP_SERVER_STATE_MAX ->
  exists s',
    (if PD_TCP_SERVER_STATE (periodicDisplay s) && negb (inMainMenu e)
     then tcpServerSetState e (tcpServerState s) s
     else Ret s) = Ret s'
    /\ same_but_display s s'.
Proof.
  intros Hst. destruct (_ && _).
  - now apply tcpServerSetState_current.
  - exists s. split; [reflexivity|apply same_but_display_refl].
Qed.

Lemma running_pass_state e s :
  tcpServerState (running_pass e s) = tcpServerState s.
Proof.
  unfold running_pass, tcpServerUpdate_restartTimer.
  set (s1 := fold_left _ all_slots s).
  set (s2 := tcpServerUpdate_acceptClients e all_slots (available e) s1).
  assert (H1 : tcpServerState s1 = tcpServerState s).
  { pose proof (fold_slots_preserves _ (checkClient e)
                  all_slots s (checkClient_rest e)) as H.
    now apply tuple4_fields in H as (_ & _ & H & _). }
  assert (H2 : tcpServerState s2 = tcpServerState s1).
  { pose proof (tcpServerUpdate_acceptClients_rest e all_slots (available e)
                  s1) as H. now apply tuple3_fields in H as (_ & H & _). }
  destruct (_ <=? _); simpl; congruence.
Qed.

Lemma tcpServerUpdate_switch_OFF_idle e s :
  tcpServerState s = TCP_SERVER_STATE_OFF ->
  rtkModeMatches e && settings_enableTcpServer e = false ->
  tcpServerUpdate_switch e s = Ret s.
Proof.
  intros H Hidle. unfold tcpServerUpdate_switch. rewrite H.
  change (TCP_SERVER_STATE_OFF =? TCP_SERVER_STATE_OFF) with true.
  cbv iota. now rewrite Hidle.
Qed.

(** ** The check of the slots *)

(** ** The liveness sweep *)

Lemma checkClient_other e (i j : slot) s :
  i <> j ->
  (slot_obs (checkClient e j s) i,
   tcpServerTimer (checkClient e j s))
  = (slot_obs s i, tcpServerTimer s).
Proof.
  intros Hne.
  pose proof (checkClient_rest e j s) as Hrest.
  apply tuple4_fields in Hrest as (_ & _ & _ & Hsrv).
  apply service_fields in Hsrv as (_ & _ & Ht & _). rewrite Ht. f_equal.
  unfold checkClient.
  destruct (test_bit _ j); [|reflexivity].
  destruct (_ && _).
  - now destruct (_ && _).
  - unfold slot_obs.
    rewrite stopClient_view, stopClient_events.
    now rewrite !decide_False by congruence.
Qed.

Lemma checkClient_self e i s :
  slot_obs (checkClient e i s) i
  = if occupied s i
       && negb (client_connected e i s && client_dataSent (millisAtCheck e i) i s)
    then (dropped_view (slot_view s i), EvClientStop i :: slot_events i s)
    else slot_obs s i.
Proof.
  unfold checkClient, occupied.
  destruct (test_bit _ i); [|reflexivity].
  destruct (client_connected e i s && client_dataSent (millisAtCheck e i) i s); simpl.
  - now destruct (_ && _).
  - unfold slot_obs.
    rewrite stopClient_view, stopClient_events.
    now rewrite !decide_True by reflexivity.
Qed.

Lemma check_condition_local e i s1 s :
  slot_view s1 i = slot_view s i -> tcpServerTimer s1 = tcpServerTimer s ->
  occupied s1 i && negb (client_connected e i s1 && client_dataSent (millisAtCheck e i) i s1)
  = occupied s i && negb (client_connected e i s && client_dataSent (millisAtCheck e i) i s).
Proof.
  intros Hv Ht. unfold occupied, client_connected, client_dataSent.
  rewrite Ht.
  pose proof (f_equal sv_connected Hv) as H1.
  pose proof (f_equal sv_dataSent Hv) as H2.
  pose proof (f_equal sv_client Hv) as H3.
  simpl in H1, H2, H3. now rewrite H1, H2, H3.
Qed.

Lemma check_clients_slot e s i :
  slot_obs (fold_left (fun s index => checkClient e index s)
              all_slots s) i
  = if occupied s i
       && negb (client_connected e i s && client_dataSent (millisAtCheck e i) i s)
    then (dropped_view (slot_view s i), EvClientStop i :: slot_events i s)
    else slot_obs s i.
Proof.
  destruct (all_slots_loop_local
              (fun s i => (slot_obs s i, tcpServerTimer s))
              (checkClient e)) with (a := s) (i := i)
    as (s1 & H1 & H2).
  - intros i' j a Hne. now apply checkClient_other.
  - apply pair_equal_spec in H1 as [Hobs Ht].
    apply pair_equal_spec in H2 as [H2 _].
    apply pair_equal_spec in Hobs as [Hv Hev].
    rewrite H2, checkClient_self.
    rewrite (check_condition_local e i s1 s Hv Ht).
    unfold slot_obs. now rewrite Hv, Hev.
Qed.

Lemma checkClient_occupied_set e j s :
  occupied_set s -> occupied_set (checkClient e j s).
Proof.
  intros Hset i Hocc. rewrite checkClient_isNull. apply Hset.
  destruct (decide (i = j)) as [->|Hne].
  - pose proof (checkClient_self e j s) as H.
    destruct (occupied s j) eqn:E; [reflexivity|]. cbn [andb] in H.
    rewrite (slot_obs_occupied _ _ _ H) in Hocc. congruence.
  - pose proof (checkClient_other e i j s Hne) as H.
    apply pair_equal_spec in H as [H _].
    now rewrite <- (slot_obs_occupied _ _ _ H).
Qed.

Lemma check_loop_set e s :
  occupied_set s ->
  for_slots (tcpServerUpdate_checkClient e) all_slots s
  = Ret (fold_left (fun s index => checkClient e index s) all_slots s).
Proof.
  intros Hset. apply (for_slots_returns occupied_set); [|exact Hset].
  intros j s0 H0. split.
  - apply tcpServerUpdate_checkClient_set, H0.
  - now apply checkClient_occupied_set.
Qed.

Lemma tcpServerUpdate_switch_RUNNING e s :
  tcpServerState s = TCP_SERVER_STATE_RUNNING ->
  occupied_set s ->
  tcpServerUpdate_switch e s
  = if negb (settings_enableTcpServer e) || networkIsShuttingDown e
    then tcpServerStop e
           (if display_active e (PD_TCP_SERVER_DATA (periodicDisplay s))
            then systemPrint "TCP server initiating shutdown"
                   (clear_PD_TCP_SERVER_DATA s)
            else s)
    else Ret (running_pass e s).
Proof.
  intros H Hset. unfold tcpServerUpdate_switch. rewrite H.
  change (TCP_SERVER_STATE_RUNNING =? TCP_SERVER_STATE_OFF) with false.
  change (TCP_SERVER_STATE_RUNNING =? TCP_SERVER_STATE_NETWORK_STARTED)
    with false.
  change (TCP_SERVER_STATE_RUNNING =? TCP_SERVER_STATE_RUNNING) with true.
  cbv iota. destruct (_ || _); [reflexivity|].
  now rewrite check_loop_set.
Qed.

Lemma same_but_display_occupied_set s s' :
  same_but_display s s' -> occupied_set s -> occupied_set s'.
Proof.
  intros (_ & Htab & _) Hset i.
  apply slot_table_fields in Htab as (_ & _ & Hconn & _ & Hnull).
  unfold occupied. rewrite Hconn, Hnull. apply Hset.
Qed.

(** [tcpServerUpdate] in the RUNNING state, when the server stays up: the
    three steps of the RUNNING case, between two displays. *)
Lemma tcpServerUpdate_RUNNING_stays e s :
  tcpServerState s = TCP_SERVER_STATE_RUNNING ->
  rtkModeMatches e = true -> settings_enableTcpServer e = true ->
  networkIsShuttingDown e = false ->
  occupied_set s ->
  exists s1 s',
    tcpServerUpdate e s = Ret s'
    /\ same_but_display s s1
    /\ same_but_display (running_pass e s1) s'.
Proof.
  intros Hrun Hmode Hen Hshut Hset. unfold tcpServerUpdate.
  assert (H1 : exists s1,
             (if deadManWalking e
              then tcpServerSetState e (tcpServerState s) s else Ret s)
             = Ret s1 /\ same_but_display s s1).
  { destruct (deadManWalking e).
    - apply tcpServerSetState_current. rewrite Hrun. reflexivity.
    - exists s. split; [reflexivity|apply same_but_display_refl]. }
  destruct H1 as (s1 & -> & Hs1).
  change (Ret s1 ≫= ?k) with (k s1). cbv beta.
  assert (Hst1 : tcpServerState s1 = TCP_SERVER_STATE_RUNNING)
    by (destruct Hs1 as (-> & _); exact Hrun).
  rewrite Hmode, Hen. cbn [negb orb].
  change (Ret s1 ≫= ?k) with (k s1). cbv beta.
  rewrite (tcpServerUpdate_switch_RUNNING e s1 Hst1)
    by now apply (same_but_display_occupied_set s).
  rewrite Hen, Hshut. cbn [negb orb].
  change (Ret ?a ≫= ?k) with (k a). cbv beta.
  destruct (periodic_state_display e (running_pass e s1))
    as (s3 & -> & Hs3).
  { rewrite running_pass_state, Hst1. reflexivity. }
  exists s1, s3. repeat split; try apply Hs1; apply Hs3.
Qed.

(** ** Leaving the RUNNING state *)


(** C7: the claim fails on the code.  [tcpServerStop] calls
    [tcpServerStopClient] for all four slots as soon as one slot is
    occupied, and [tcpServerStopClient] calls [stop()] through
    [tcpServerClient[index]] without a test, which is null for a slot that
    never held a client.  Here the server has started and accepted client
    11 into slot 0, slot 1 never held a client, and the network shuts down:
    the transition out of RUNNING does not complete, [tcpServerUpdate]
    calls a method through the null pointer of slot 1. *)
Theorem shutdown_meets_null_pointer :
  (exists s : State,
     run (take 3 shutdown_with_one_client) initial_state = Ret s
     /\ tcpServerState s = TCP_SERVER_STATE_RUNNING
     /\ occupied s 0%fin = true
     /\ slot_events 0%fin s = [EvClientAccept 0%fin 11]
     /\ tcpServerClientIsNull s !!! 1%fin = true
     /\ tcpServerUpdate
          (shutting_down (quiet_env 1000 2000 [] all_alive write_all)) s
        = Fault)
  /\ run shutdown_with_one_client initial_state = Fault.
Proof.
  split; [eexists; split; [vm_compute; reflexivity|]|];
    repeat split; vm_compute; reflexivity.
Qed.

(** ** The liveness sweep *)

Lemma accept_one_other e (i j : slot) client s :
  i <> j ->
  let s1 :=
    set_tcpServerClientDataSent
      (set_bit (tcpServerClientDataSent s) j)
      (set_tcpServerClientConnected
         (set_bit (tcpServerClientConnected s) j)
         (set_tcpServerClientIpAddress
            (vinsert j client (tcpServerClientIpAddress s))
            (set_tcpServerClient
               (vinsert j (mkNetworkClient client true) (tcpServerClient s))
               (set_tcpServerClientIsNull
                  (vinsert j false (tcpServerClientIsNull s))
                  (emit (EvClientAccept j client) s))))) in
  slot_obs (if display_active e (PD_TCP_SERVER_DATA (periodicDisplay s1))
            then systemPrint "TCP server client %d connected to %d.%d.%d.%d"
                   (clear_PD_TCP_SERVER_DATA s1)
            else s1) i
  = slot_obs s i.
Proof.
  intros Hne s1. subst s1. unfold slot_obs, slot_view, slot_events.
  destruct (display_active e _); simpl;
    rewrite !test_bit_set_bit, !decide_False, !vlookup_insert_ne,
      bool_decide_eq_false_2 by congruence; reflexivity.
Qed.

Lemma tcpServerUpdate_acceptClients_occupied e indexes pending s i :
  occupied s i = true ->
  slot_obs (tcpServerUpdate_acceptClients e indexes pending s) i
  = slot_obs s i.
Proof.
  revert pending s.
  induction indexes as [|j indexes IH]; intros pending s Hocc; simpl;
    [reflexivity|].
  destruct (test_bit (tcpServerClientConnected s) j) eqn:Hj; simpl;
    [now apply IH|].
  destruct pending as [|client pending]; [reflexivity|].
  assert (Hne : i <> j) by (intros ->; unfold occupied in Hocc; congruence).
  pose proof (accept_one_other e i j client s Hne) as Hone. simpl in Hone.
  rewrite IH; [exact Hone|].
  rewrite (slot_obs_occupied _ _ _ Hone). exact Hocc.
Qed.

Lemma tcpServerUpdate_acceptClients_free e indexes pending s i :
  occupied s i = false ->
  slot_obs (tcpServerUpdate_acceptClients e indexes pending s) i
  = slot_obs s i
  \/ exists ip,
       slot_events i (tcpServerUpdate_acceptClients e indexes pending s)
       = EvClientAccept i ip :: slot_events i s
       /\ occupied (tcpServerUpdate_acceptClients e indexes pending s) i
          = true.
Proof.
  revert pending s.
  induction indexes as [|j indexes IH]; intros pending s Hfree; simpl;
    [now left|].
  destruct (test_bit (tcpServerClientConnected s) j) eqn:Hj; simpl;
    [now apply IH|].
  destruct pending as [|client pending]; [now left|].
  destruct (decide (i = j)) as [->|Hne].
  - right. exists client.
    match goal with
    | |- context [tcpServerUpdate_acceptClients e indexes pending ?s1] =>
        assert (Hocc1 : occupied s1 j = true
                        /\ slot_events j s1
                           = EvClientAccept j client :: slot_events j s)
    end.
    { unfold occupied, slot_events.
      destruct (display_active e _); simpl;
        rewrite test_bit_set_bit, decide_True,
          bool_decide_eq_true_2 by reflexivity; auto. }
    destruct Hocc1 as [Hocc1 Hev1].
    pose proof (tcpServerUpdate_acceptClients_occupied e indexes pending _ j
                  Hocc1) as Hobs.
    rewrite (slot_obs_occupied _ _ _ Hobs).
    apply pair_equal_spec in Hobs as [_ ->]. auto.
  - pose proof (accept_one_other e i j client s Hne) as Hone. simpl in Hone.
    match goal with
    | |- context [tcpServerUpdate_acceptClients e indexes pending ?s1] =>
        destruct (IH pending s1) as [Hsame|(ip & Hev & Hocc)]
    end.
    + rewrite (slot_obs_occupied _ _ _ Hone). exact Hfree.
    + left. now rewrite Hsame.
    + right. exists ip. split; [|exact Hocc].
      rewrite Hev. now apply pair_equal_spec in Hone as [_ ->].
Qed.

Lemma tcpServerUpdate_restartTimer_spec e s :
  tcpServerUpdate_restartTimer e s
  = if TCP_SERVER_CLIENT_DATA_TIMEOUT <=? elapsed (millisAtRestart e) s
    then set_tcpServerClientDataSent 0 (set_tcpServerTimer (millisAtTimer e) s)
    else s.
Proof. reflexivity. Qed.

Lemma running_steps_timer e s :
  tcpServerTimer
    (tcpServerUpdate_acceptClients e all_slots (available e)
       (fold_left (fun s index => checkClient e index s)
          all_slots s))
  = tcpServerTimer s.
Proof.
  pose proof (tcpServerUpdate_acceptClients_rest e all_slots (available e)
                (fold_left
                   (fun s index => checkClient e index s)
                   all_slots s)) as H2.
  apply tuple3_fields in H2 as (_ & _ & H2).
  apply service_fields in H2 as (_ & _ & -> & _).
  pose proof (fold_slots_preserves _ (checkClient e)
                all_slots s (checkClient_rest e)) as H1.
  apply tuple4_fields in H1 as (_ & _ & _ & H1).
  now apply service_fields in H1 as (_ & _ & -> & _).
Qed.

Lemma running_pass_timer e s :
  tcpServerTimer (running_pass e s)
  = (if TCP_SERVER_CLIENT_DATA_TIMEOUT <=? elapsed (millisAtRestart e) s
     then millisAtTimer e else tcpServerTimer s)
  /\ (TCP_SERVER_CLIENT_DATA_TIMEOUT <= elapsed (millisAtRestart e) s ->
      forall i, test_bit (tcpServerClientDataSent
                            (running_pass e s)) i = false).
Proof.
  unfold running_pass. rewrite tcpServerUpdate_restartTimer_spec.
  unfold elapsed. rewrite running_steps_timer.
  destruct (Z.leb_spec TCP_SERVER_CLIENT_DATA_TIMEOUT
              (uint32 (millisAtRestart e - tcpServerTimer s))).
  - split; [reflexivity|]. intros _ i. apply test_bit_0.
  - split; [apply running_steps_timer|]. lia.
Qed.

Lemma restart_fields e s (i : slot) :
  let s3 := tcpServerUpdate_restartTimer e s in
  occupied s3 i = occupied s i
  /\ slot_events i s3 = slot_events i s
  /\ tcpServerClient s3 !!! i = tcpServerClient s !!! i
  /\ test_bit (tcpServerClientDataSent s3) i
     = if TCP_SERVER_CLIENT_DATA_TIMEOUT <=? elapsed (millisAtRestart e) s
       then false else test_bit (tcpServerClientDataSent s) i.
Proof.
  unfold tcpServerUpdate_restartTimer, elapsed.
  destruct (_ <=? _); repeat split.
Qed.

(** What the RUNNING case does to a slot that it finds occupied. *)
Lemma running_pass_slot e s i :
  occupied s i = true ->
  (client_connected e i s && client_dataSent (millisAtCheck e i) i s = true ->
   kept i s (running_pass e s)
   /\ test_bit (tcpServerClientDataSent (running_pass e s)) i
      = if TCP_SERVER_CLIENT_DATA_TIMEOUT <=? elapsed (millisAtRestart e) s
        then false else test_bit (tcpServerClientDataSent s) i)
  /\ (client_connected e i s && client_dataSent (millisAtCheck e i) i s = false ->
      dropped i s (running_pass e s)).
Proof.
  intros Hocc. unfold running_pass.
  assert (Hel2 : elapsed (millisAtRestart e)
                   (tcpServerUpdate_acceptClients e all_slots (available e)
                      (fold_left
                         (fun s index => checkClient e index s)
                         all_slots s))
                 = elapsed (millisAtRestart e) s)
    by (unfold elapsed; now rewrite running_steps_timer).
  set (s1 := fold_left _ all_slots s) in *.
  set (s2 := tcpServerUpdate_acceptClients e all_slots (available e) s1)
    in *.
  pose proof (check_clients_slot e s i) as H1. fold s1 in H1.
  rewrite Hocc in H1. cbn [andb] in H1.
  destruct (restart_fields e s2 i) as (Ho3 & He3 & Hc3 & Hd3).
  rewrite Hel2 in Hd3.
  split; intros Hcond; rewrite Hcond in H1; cbn [negb] in H1.
  - assert (Hocc1 : occupied s1 i = true)
      by now rewrite (slot_obs_occupied _ _ _ H1).
    pose proof (tcpServerUpdate_acceptClients_occupied e all_slots
                  (available e) s1 i Hocc1) as H2. fold s2 in H2.
    rewrite H1 in H2.
    apply pair_equal_spec in H2 as [Hv2 He2].
    destruct (slot_view_fields _ _ _ Hv2) as (Ho2 & Hd2 & _ & Hc2 & _).
    cbn [slot_view sv_connected sv_dataSent sv_client] in Ho2, Hd2, Hc2.
    unfold kept. rewrite Ho3, He3, Hc3, Hd3, Hd2.
    repeat split; try assumption. now rewrite Ho2.
  - assert (Hocc1 : occupied s1 i = false).
    { apply pair_equal_spec in H1 as [Hv1 _].
      now destruct (slot_view_fields _ _ _ Hv1) as (-> & _). }
    assert (Hev1 : slot_events i s1 = EvClientStop i :: slot_events i s)
      by now apply pair_equal_spec in H1 as [_ Hev1].
    unfold dropped. rewrite Ho3, He3.
    destruct (tcpServerUpdate_acceptClients_free e all_slots (available e)
                s1 i Hocc1) as [Hsame|(ip & Hev & Hacc)];
      fold s2 in Hsame || fold s2 in Hev, Hacc.
    + left. rewrite (slot_obs_occupied _ _ _ Hsame).
      apply pair_equal_spec in Hsame as [_ ->]. auto.
    + right. exists ip. rewrite Hev, Hev1. auto.
Qed.

Lemma same_but_display_fields s s' i :
  same_but_display s s' ->
  occupied s' i = occupied s i
  /\ slot_events i s' = slot_events i s
  /\ tcpServerClient s' !!! i = tcpServerClient s !!! i
  /\ test_bit (tcpServerClientDataSent s') i
     = test_bit (tcpServerClientDataSent s) i
  /\ tcpServerTimer s' = tcpServerTimer s.
Proof.
  intros (_ & Htab & Hsrv & Hev).
  apply slot_table_fields in Htab as (Hview & _ & Hconn & Hsent & _).
  apply service_fields in Hsrv as (_ & _ & Ht & _).
  unfold occupied. rewrite Hconn, Hsent, Hev, Ht.
  repeat split. exact (f_equal sv_client (Hview i)).
Qed.

Lemma same_but_display_kept i s0 s1 s2 s3 :
  same_but_display s0 s1 -> same_but_display s2 s3 ->
  kept i s1 s2 -> kept i s0 s3.
Proof.
  intros H01 H23 (Ho & He & Hc).
  destruct (same_but_display_fields s0 s1 i H01) as (_ & He1 & Hc1 & _).
  destruct (same_but_display_fields s2 s3 i H23) as (Ho3 & He3 & Hc3 & _).
  unfold kept. rewrite Ho3, He3, Hc3. repeat split; congruence.
Qed.

Lemma same_but_display_dropped i s0 s1 s2 s3 :
  same_but_display s0 s1 -> same_but_display s2 s3 ->
  dropped i s1 s2 -> dropped i s0 s3.
Proof.
  intros H01 H23 Hd.
  destruct (same_but_display_fields s0 s1 i H01) as (_ & He1 & _).
  destruct (same_but_display_fields s2 s3 i H23) as (Ho3 & He3 & _).
  unfold dropped in *. rewrite Ho3, He3, <- He1. exact Hd.
Qed.

(** C9 as the code has it.  While the server stays in RUNNING,
    [tcpServerUpdate] checks every occupied slot against a reading of the
    clock of its own: the slot is kept when its socket is connected and
    either less than 15 s have passed since the timer was restarted or its
    data-sent bit is set, and it is dropped otherwise.  After the checks
    and the accepts the clock is read again: when 15 s or more have passed
    since the timer was restarted, all data-sent bits are cleared and the
    timer is set to a further reading of the clock; otherwise the timer is
    left alone, and so is the data-sent bit of every slot that is kept.
    So a slot is dropped for staleness only by a check that is made 15 s
    or more after the timer was restarted and finds the slot's bit
    clear. *)
Theorem liveness_sweep (e : Env) (s : State) :
  tcpServerState s = TCP_SERVER_STATE_RUNNING ->
  rtkModeMatches e = true -> settings_enableTcpServer e = true ->
  networkIsShuttingDown e = false ->
  occupied_set s ->
  exists s' : State,
    tcpServerUpdate e s = Ret s'
    /\ (forall i : slot,
          occupied s i = true ->
          if client_connected e i s
             && ((elapsed (millisAtCheck e i) s
                  <? TCP_SERVER_CLIENT_DATA_TIMEOUT)
                 || test_bit (tcpServerClientDataSent s) i)
          then kept i s s' else dropped i s s')
    /\ (TCP_SERVER_CLIENT_DATA_TIMEOUT <= elapsed (millisAtRestart e) s ->
        tcpServerTimer s' = millisAtTimer e
        /\ forall i : slot, test_bit (tcpServerClientDataSent s') i = false)
    /\ (elapsed (millisAtRestart e) s < TCP_SERVER_CLIENT_DATA_TIMEOUT ->
        tcpServerTimer s' = tcpServerTimer s
        /\ forall i : slot,
             occupied s i = true ->
             client_connected e i s
             && ((elapsed (millisAtCheck e i) s
                  <? TCP_SERVER_CLIENT_DATA_TIMEOUT)
                 || test_bit (tcpServerClientDataSent s) i) = true ->
             test_bit (tcpServerClientDataSent s') i
             = test_bit (tcpServerClientDataSent s) i).
Proof.
  intros Hrun Hmode Hen Hshut Hset.
  destruct (tcpServerUpdate_RUNNING_stays e s Hrun Hmode Hen Hshut Hset)
    as (s1 & s' & Hs' & H01 & H23).
  exists s'. split; [exact Hs'|].
  set (s2 := running_pass e s1) in *.
  assert (Ht1 : tcpServerTimer s1 = tcpServerTimer s)
    by now destruct (same_but_display_fields s s1 0%fin H01)
         as (_ & _ & _ & _ & ->).
  assert (Hel : forall now, elapsed now s1 = elapsed now s)
    by (intros now; unfold elapsed; now rewrite Ht1).
  destruct (running_pass_timer e s1) as (Htimer & Hclear).
  fold s2 in Htimer, Hclear. rewrite Hel in Htimer, Hclear.
  assert (Hslot : forall i,
    occupied s i = true ->
    occupied s1 i = true
    /\ client_connected e i s1 && client_dataSent (millisAtCheck e i) i s1
       = client_connected e i s
         && ((elapsed (millisAtCheck e i) s
              <? TCP_SERVER_CLIENT_DATA_TIMEOUT)
             || test_bit (tcpServerClientDataSent s) i)
    /\ test_bit (tcpServerClientDataSent s1) i
       = test_bit (tcpServerClientDataSent s) i).
  { intros i Hocc.
    destruct (same_but_display_fields s s1 i H01)
      as (Ho & _ & Hc & Hd & Ht).
    unfold client_connected, client_dataSent, elapsed.
    rewrite Hc, Hd, Ht, Ho. auto. }
  assert (Htimer' : tcpServerTimer s' = tcpServerTimer s2)
    by now destruct (same_but_display_fields s2 s' 0%fin H23)
         as (_ & _ & _ & _ & ->).
  assert (Hsent' : forall i, test_bit (tcpServerClientDataSent s') i
                             = test_bit (tcpServerClientDataSent s2) i)
    by (intros i; now destruct (same_but_display_fields s2 s' i H23)
                        as (_ & _ & _ & -> & _)).
  split; [|split].
  - intros i Hocc. destruct (Hslot i Hocc) as (Hocc1 & Hcond & _).
    destruct (running_pass_slot e s1 i Hocc1) as (Hkeep & Hdrop).
    fold s2 in Hkeep, Hdrop. rewrite Hcond in Hkeep, Hdrop.
    destruct (client_connected e i s && _).
    + apply (same_but_display_kept i s s1 s2 s' H01 H23).
      now apply Hkeep.
    + apply (same_but_display_dropped i s s1 s2 s' H01 H23).
      now apply Hdrop.
  - intros Hlate. rewrite Htimer', Htimer.
    destruct (Z.leb_spec TCP_SERVER_CLIENT_DATA_TIMEOUT
                (elapsed (millisAtRestart e) s)); [|lia].
    split; [reflexivity|].
    intros i. rewrite Hsent'. now apply Hclear.
  - intros Hearly. rewrite Htimer', Htimer.
    destruct (Z.leb_spec TCP_SERVER_CLIENT_DATA_TIMEOUT
                (elapsed (millisAtRestart e) s)); [lia|].
    split; [exact Ht1|].
    intros i Hocc Hpass. destruct (Hslot i Hocc) as (Hocc1 & Hcond & Hb1).
    destruct (running_pass_slot e s1 i Hocc1) as (Hkeep & _).
    fold s2 in Hkeep. rewrite Hcond in Hkeep.
    destruct (Hkeep Hpass) as (_ & Hbit). rewrite Hel in Hbit.
    destruct (Z.leb_spec TCP_SERVER_CLIENT_DATA_TIMEOUT
                (elapsed (millisAtRestart e) s)); [lia|].
    now rewrite Hsent', Hbit.
Qed.

Lemma liveness_sweep_witness :
  exists s' : State,
    tcpServerUpdate (quiet_env 1000 16000 [] all_alive write_all) one_silent
    = Ret s'
    /\ tcpServerTimer s' = 16000
    /\ dropped 1%fin one_silent s'
    /\ kept 0%fin one_silent s'.
Proof.
  destruct (liveness_sweep (quiet_env 1000 16000 [] all_alive write_all)
              one_silent eq_refl eq_refl eq_refl eq_refl)
    as (s' & Hs' & Hcheck & Hlate & _).
  - intros i. each_slot i; vm_compute; congruence.
  - exists s'. split; [exact Hs'|].
    destruct Hlate as (Htimer & _); [vm_compute; discriminate|].
    split; [exact Htimer|]. split.
    + exact (Hcheck 1%fin eq_refl).
    + exact (Hcheck 0%fin eq_refl).
Defined.

(** The clock passing the end of the window during one [tcpServerUpdate]:
    clients 11 and 22 have their data-sent bits clear and the timer was
    restarted at 1000; the slots are checked at 15999, the restart is
    tested at 16000.  Both clients are kept, the window restarts and their
    bits stay clear. *)
Example window_ends_between_reads :
  exists s' : State,
    tcpServerUpdate
      (restart_read_at 16000
         (quiet_env 1000 15999 [] all_alive write_all))
      (set_tcpServerClientDataSent 0 two_clients)
    = Ret s'
    /\ occupied s' 0%fin = true /\ occupied s' 1%fin = true
    /\ calls s' = []
    /\ tcpServerTimer s' = 16000
    /\ tcpServerClientDataSent s' = 0.
Proof.
  eexists. split; [vm_compute; reflexivity|].
  repeat split; vm_compute; reflexivity.
Qed.

(** The last clause of the claim C9 fails: client 11 is accepted at time
    1000 and is never written to; at time 16001, 15001 ms later,
    [tcpServerUpdate] sweeps the slots and keeps it, because accepting it
    set its data-sent bit.  It is dropped by the sweep after that one. *)
Lemma silent_client_survives_window :
  exists s : State,
    run silent_client_history initial_state = Ret s
    /\ TCP_SERVER_CLIENT_DATA_TIMEOUT < 16001 - 1000
    /\ slot_events 0%fin s = [EvClientAccept 0%fin 11]
    /\ occupied s 0%fin = true
    /\ tcpServerTimer s = 16001
    /\ exists s2 : State,
         tcpServerUpdate (quiet_env 1000 31001 [] all_alive write_all) s
         = Ret s2
         /\ slot_events 0%fin s2
            = [EvClientStop 0%fin; EvClientAccept 0%fin 11]
         /\ occupied s2 0%fin = false.
Proof.
  eexists. split; [vm_compute; reflexivity|].
  split; [reflexivity|].
  do 3 (split; [vm_compute; reflexivity|]).
  eexists. split; [vm_compute; reflexivity|].
  split; vm_compute; reflexivity.
Qed.

(** ** tcpServerStopClient, twice *)

Lemma stopClient_table e i s :
  slot_table (stopClient e i s)
  = (clear_bit (tcpServerClientConnected s) i,
     tcpServerClientDataSent s,
     clear_bit (tcpServerClientWriteError s) i,
     vinsert i (mkNetworkClient (remoteIP (tcpServerClient s !!! i)) false)
       (tcpServerClient s),
     tcpServerClientIpAddress s,
     tcpServerClientTails s,
     tcpServerClientIsNull s).
Proof.
  unfold stopClient.
  destruct (display_active e _);
    [destruct (negb (client_dataSent _ i _)),
       (negb (client_connected e i _ && _))|]; reflexivity.
Qed.

Lemma stopClient_twice e1 e2 index s :
  slot_table (stopClient e2 index (stopClient e1 index s))
  = slot_table (stopClient e1 index s).
Proof.
  rewrite (stopClient_table e2).
  pose proof (stopClient_table e1 index s) as H1.
  unfold slot_table in H1 at 1.
  apply pair_equal_spec in H1 as [H1 Hnull].
  apply pair_equal_spec in H1 as [H1 Htails].
  apply pair_equal_spec in H1 as [H1 Hip].
  apply pair_equal_spec in H1 as [H1 Hcl].
  apply pair_equal_spec in H1 as [H1 Hwe].
  apply pair_equal_spec in H1 as [Hco Hsent].
  rewrite Hco, Hsent, Hwe, Hcl, Hip, Htails, Hnull.
  rewrite !clear_bit_clear_bit, vlookup_insert, vinsert_vinsert.
  rewrite (stopClient_table e1). reflexivity.
Qed.

(** C8 as the code has it, for a slot that has its client object (it has
    held a client): [tcpServerStopClient] called twice on the slot returns
    both times and leaves the slot table (the three masks, the client
    objects and pointers, the addresses and the tails) as one call does.
    One call changes only the visited slot: it clears its connected and
    write-error bits and closes its socket.  So dropping a slot that is
    already free changes nothing when its write-error bit is clear and its
    socket closed; a slot freed by a failed write still has its write-error
    bit set, and dropping it clears that bit. *)
Theorem tcpServerStopClient_twice (e1 e2 : Env) (index : slot) (s : State) :
  tcpServerClientIsNull s !!! index = false ->
  exists s1 s2 : State,
    tcpServerStopClient e1 index s = Ret s1
    /\ tcpServerStopClient e2 index s1 = Ret s2
    /\ slot_table s2 = slot_table s1
    /\ (forall j : slot,
          slot_view s1 j
          = if decide (index = j) then dropped_view (slot_view s j)
            else slot_view s j)
    /\ tcpServerClientIsNull s1 = tcpServerClientIsNull s
    /\ (occupied s index = false ->
        test_bit (tcpServerClientWriteError s) index = false ->
        isOpen (tcpServerClient s !!! index) = false ->
        forall j : slot, slot_view s1 j = slot_view s j).
Proof.
  intros Hset.
  exists (stopClient e1 index s), (stopClient e2 index (stopClient e1 index s)).
  split; [now apply tcpServerStopClient_set|].
  split; [apply tcpServerStopClient_set; now rewrite stopClient_isNull|].
  split; [apply stopClient_twice|].
  split; [intros j; apply stopClient_view|].
  split; [apply stopClient_isNull|].
  intros Hfree Hwe Hclosed j. rewrite stopClient_view.
  destruct (decide (index = j)) as [<-|]; [|reflexivity].
  now apply dropped_view_free.
Qed.

Lemma tcpServerStopClient_twice_witness :
  exists s1 : State,
    tcpServerStopClient (quiet_env 1000 2000 [] all_alive write_all) 1%fin
      one_client_left = Ret s1
    /\ slot_view s1 1%fin = slot_view one_client_left 1%fin.
Proof.
  destruct (tcpServerStopClient_twice
              (quiet_env 1000 2000 [] all_alive write_all)
              (quiet_env 1000 2000 [] all_alive write_all)
              1%fin one_client_left eq_refl)
    as (s1 & s2 & H1 & _ & _ & _ & _ & Hfree).
  exists s1. split; [exact H1|].
  apply Hfree; reflexivity.
Defined.

(** The last clause of the claim C8 fails for a slot freed by a failed
    write: after the write to client 22 has failed, slot 1 is free with its
    write-error bit set, and [tcpServerStopClient] on slot 1 clears the
    bit. *)
Lemma drop_changes_free_slot :
  exists s : State,
    run write_failure_history initial_state = Ret s
    /\ occupied s 1%fin = false
    /\ test_bit (tcpServerClientWriteError s) 1%fin = true
    /\ exists s1 : State,
         tcpServerStopClient (quiet_env 1000 2000 [] all_alive write_all)
           1%fin s = Ret s1
         /\ test_bit (tcpServerClientWriteError s1) 1%fin = false
         /\ slot_view s1 1%fin <> slot_view s 1%fin.
Proof.
  eexists. split; [vm_compute; reflexivity|].
  do 2 (split; [vm_compute; reflexivity|]).
  eexists. split; [vm_compute; reflexivity|].
  split; [vm_compute; reflexivity|].
  vm_compute. discriminate.
Qed.

(** * Properties beyond the specification *)

(** ** The send pass and the discard: what they keep *)

(** The tail a pass of [tcpServerSendData] leaves in an occupied slot: the
    old one advanced, modulo the buffer size, by the bytes the socket
    accepted, which are at most the run that was offered. *)
Lemma tcpServerSendData_slot_tail e dataHead s i :
  buffer_ok e -> write_bounded e -> in_buffer e dataHead ->
  occupied s i = true -> in_buffer e (tcpServerClientTails s !!! i) ->
  let C := settings_gnssHandlerBufferSize e in
  let tail := tcpServerClientTails s !!! i in
  exists w : Z,
    0 <= w <= Z.min (unread C dataHead tail) (C - tail)
    /\ tcpServerClientTails (snd (tcpServerSendData e dataHead s)) !!! i
       = (tail + w) mod C.
Proof.
  intros HC Hwb Hh Hocc Ht C tail.
  destruct (all_slots_loop_local (fun acc i => slot_obs (snd acc) i)
              (tcpServerSendData_index e dataHead)
              (fun i j a H => tcpServerSendData_index_other e dataHead i j a H)
              (0, s) i) as ([u1 s1] & H1 & Hs').
  fold (tcpServerSendData e dataHead s) in Hs'. cbn [snd] in H1.
  pose proof (slot_obs_tail _ _ _ H1) as Htail1.
  pose proof (slot_obs_occupied _ _ _ H1) as Hocc1.
  rewrite Hocc in Hocc1. fold tail in Htail1.
  assert (Ht1 : in_buffer e (tcpServerClientTails s1 !!! i))
    by now rewrite Htail1.
  rewrite (slot_obs_tail _ _ _ Hs').
  pose proof (unread_range C dataHead tail ltac:(apply HC)) as Hur.
  unfold in_buffer in Ht. fold C tail in Ht.
  destruct (Z.eq_dec (unread C dataHead tail) 0) as [Hz|Hnz].
  - exists 0. split; [lia|].
    rewrite tcpServerSendData_index_idle; try assumption;
      [|rewrite Htail1; exact Hz].
    cbn [snd]. rewrite Htail1, Z.add_0_r. symmetry. now apply Z.mod_small.
  - destruct (tcpServerSendData_index_send e dataHead i u1 s1 HC Hh Ht1 Hocc1)
      as (Hlen & Hfit & Hstep); [rewrite Htail1; exact Hnz|].
    rewrite Htail1 in Hlen, Hfit, Hstep. fold C in Hlen, Hfit, Hstep.
    pose proof (tcpServerClientSendData_sent_bounds e i tail
                  (Z.min (unread C dataHead tail) (C - tail)) s1 Hwb
                  ltac:(lia)) as Hsent.
    exists (fst (tcpServerClientSendData e i tail
                   (Z.min (unread C dataHead tail) (C - tail)) s1)).
    split; [exact Hsent|].
    rewrite Hstep by lia. cbn [snd tcpServerClientTails
      set_tcpServerClientTails]. now rewrite vlookup_insert.
Qed.

(** X1: a pass of [tcpServerSendData] keeps the tails inside the buffer:
    when the head and the tails of the occupied slots are offsets of the
    buffer and the sockets accept no more than they are offered, every
    tail, of an occupied slot or not, is an offset of the buffer after the
    pass. *)
Theorem tcpServerSendData_tails_in_buffer (e : Env) (dataHead : Z)
    (s : State) :
  buffer_ok e -> write_bounded e -> in_buffer e dataHead ->
  (forall i : slot,
     occupied s i = true -> in_buffer e (tcpServerClientTails s !!! i)) ->
  tails_in_buffer e (snd (tcpServerSendData e dataHead s)).
Proof.
  intros HC Hwb Hh Ht i. destruct (occupied s i) eqn:Hocc.
  - destruct (tcpServerSendData_slot_tail e dataHead s i HC Hwb Hh Hocc
                (Ht i Hocc)) as (w & _ & ->).
    unfold in_buffer. apply Z.mod_pos_bound. apply HC.
  - pose proof (tcpServerSendData_unoccupied e dataHead s i Hocc) as Hobs.
    apply pair_equal_spec in Hobs as [Hview _].
    destruct (slot_view_fields _ _ _ Hview) as (_ & _ & _ & _ & -> & _).
    exact Hh.
Qed.

Lemma tcpServerSendData_tails_in_buffer_witness :
  tails_in_buffer (quiet_env 1000 2000 [] all_alive write_4)
    (snd (tcpServerSendData (quiet_env 1000 2000 [] all_alive write_4) 10
            two_clients)).
Proof.
  apply tcpServerSendData_tails_in_buffer.
  - unfold buffer_ok. vm_compute. split; [reflexivity|discriminate].
  - intros i off len Hlen. cbn [clientWrite quiet_env]. unfold write_4. lia.
  - vm_compute. split; [discriminate|reflexivity].
  - intros i _. each_slot i; vm_compute; split; discriminate || reflexivity.
Defined.

Lemma foldr_max_bound (C : Z) (xs : list Z) :
  0 < C -> (forall x, In x xs -> 0 <= x < C) -> 0 <= foldr Z.max 0 xs < C.
Proof.
  intros HC. induction xs as [|x xs IH]; intros Hxs; cbn [foldr]; [lia|].
  pose proof (Hxs x ltac:(now left)).
  pose proof (IH (fun y Hy => Hxs y ltac:(now right))). lia.
Qed.

Lemma foldr_max_map_le {A : Type} (f g : A -> Z) (l : list A) :
  (forall a, In a l -> f a <= g a) ->
  foldr Z.max 0 (map f l) <= foldr Z.max 0 (map g l).
Proof.
  induction l as [|a l IH]; intros Hfg; cbn [foldr map]; [lia|].
  pose proof (Hfg a ltac:(now left)).
  pose proof (IH (fun b Hb => Hfg b ltac:(now right))). lia.
Qed.

(** X2: the value [tcpServerSendData] returns to the producer is a byte
    count of the buffer, at least 0 and less than its size, and it is never
    more than the largest backlog an occupied slot had when the pass
    started: sending does not make the demand grow. *)
Theorem tcpServerSendData_usedSpace_bounds (e : Env) (dataHead : Z)
    (s : State) :
  buffer_ok e -> write_bounded e -> in_buffer e dataHead ->
  (forall i : slot,
     occupied s i = true -> in_buffer e (tcpServerClientTails s !!! i)) ->
  0 <= fst (tcpServerSendData e dataHead s) < settings_gnssHandlerBufferSize e
  /\ fst (tcpServerSendData e dataHead s)
     <= max_unread (settings_gnssHandlerBufferSize e) dataHead (occupied s)
          (tcpServerClientTails s).
Proof.
  intros HC Hwb Hh Ht.
  set (C := settings_gnssHandlerBufferSize e).
  assert (HCpos : 0 < C) by apply HC.
  rewrite (tcpServerSendData_fold_used e dataHead all_slots 0 s HC Hwb Hh
             all_slots_nodup (fun i _ => Ht i) ltac:(lia)
             (tcpServerSendData e dataHead s) eq_refl).
  fold C. split.
  - apply foldr_max_bound; [exact HCpos|].
    intros x (i & <- & _)%in_map_iff. now apply unread_range.
  - unfold max_unread. apply foldr_max_map_le.
    intros i [_ Hocc]%filter_In.
    destruct (tcpServerSendData_slot_tail e dataHead s i HC Hwb Hh Hocc
                (Ht i Hocc)) as (w & Hw & ->).
    fold C in Hw |- *.
    pose proof (unread_range C dataHead (tcpServerClientTails s !!! i) HCpos).
    destruct (Z.eq_dec w 0) as [->|Hw0].
    + rewrite Z.add_0_r, Z.mod_small; [lia|apply (Ht i Hocc)].
    + rewrite unread_after_write by lia. lia.
Qed.

Lemma tcpServerSendData_usedSpace_bounds_witness :
  0 <= fst (tcpServerSendData (quiet_env 1000 2000 [] all_alive write_4) 10
              two_clients) < 1000.
Proof.
  apply (tcpServerSendData_usedSpace_bounds
           (quiet_env 1000 2000 [] all_alive write_4) 10 two_clients).
  - unfold buffer_ok. vm_compute. split; [reflexivity|discriminate].
  - intros i off len Hlen. cbn [clientWrite quiet_env]. unfold write_4. lia.
  - vm_compute. split; [discriminate|reflexivity].
  - intros i _. each_slot i; vm_compute; split; discriminate || reflexivity.
Defined.

Lemma tcpServerClientSendData_rest e j data length s :
  (tcpServerState (snd (tcpServerClientSendData e j data length s)),
   service (snd (tcpServerClientSendData e j data length s)))
  = (tcpServerState s, service s).
Proof.
  unfold tcpServerClientSendData.
  destruct (0 <? _); destruct (display_active e _); reflexivity.
Qed.

Lemma tcpServerSendData_index_rest e dataHead j acc :
  (tcpServerState (snd (tcpServerSendData_index e dataHead j acc)),
   service (snd (tcpServerSendData_index e dataHead j acc)))
  = (tcpServerState (snd acc), service (snd acc)).
Proof.
  destruct acc as [u s]. unfold tcpServerSendData_index.
  destruct (negb _); [reflexivity|].
  destruct (0 <? _); [|reflexivity].
  match goal with
  | |- context [tcpServerClientSendData e j ?d ?n s] =>
      pose proof (tcpServerClientSendData_rest e j d n s) as H;
      destruct (tcpServerClientSendData e j d n s) as [sent s1]
  end.
  exact H.
Qed.

(** X3: a pass of [tcpServerSendData] only drains.  It occupies no slot;
    it calls no socket of a free slot and leaves that slot's client object
    alone; and it leaves the state of the life cycle, the listener, the
    network handle and the timer as they are. *)
Theorem tcpServerSendData_only_drains (e : Env) (dataHead : Z)
    (s : State) :
  let s' := snd (tcpServerSendData e dataHead s) in
  (forall i : slot, occupied s' i = true -> occupied s i = true)
  /\ (forall i : slot,
        occupied s i = false ->
        slot_events i s' = slot_events i s
        /\ tcpServerClient s' !!! i = tcpServerClient s !!! i)
  /\ tcpServerState s' = tcpServerState s
  /\ service s' = service s.
Proof.
  intros s'.
  assert (Hfree : forall i, occupied s i = false ->
                            occupied s' i = false
                            /\ slot_events i s' = slot_events i s
                            /\ tcpServerClient s' !!! i
                               = tcpServerClient s !!! i).
  { intros i Hocc.
    pose proof (tcpServerSendData_unoccupied e dataHead s i Hocc) as Hobs.
    fold s' in Hobs. apply pair_equal_spec in Hobs as [Hview Hev].
    destruct (slot_view_fields _ _ _ Hview) as (Ho & _ & _ & Hc & _).
    auto. }
  split; [|split].
  - intros i Hocc'. destruct (occupied s i) eqn:Hocc; [reflexivity|].
    destruct (Hfree i Hocc) as (Hcontra & _). congruence.
  - intros i Hocc. now destruct (Hfree i Hocc) as (_ & ? & ?).
  - pose proof (fold_slots_preserves
                  (fun acc => (tcpServerState (snd acc), service (snd acc)))
                  (tcpServerSendData_index e dataHead) all_slots (0, s)
                  (tcpServerSendData_index_rest e dataHead)) as H.
    fold (tcpServerSendData e dataHead s) in H. fold s' in H.
    now apply pair_equal_spec in H.
Qed.

(** The discard writes tails and nothing else. *)
Lemma set_tails_same s :
  set_tcpServerClientTails (tcpServerClientTails s) s = s.
Proof. now destruct s. Qed.

Lemma discardTcpServerBytes_index_only_tails previousTail newTail j s :
  discardTcpServerBytes_index previousTail newTail j s
  = set_tcpServerClientTails
      (tcpServerClientTails
         (discardTcpServerBytes_index previousTail newTail j s)) s.
Proof.
  unfold discardTcpServerBytes_index.
  destruct (previousTail <? newTail).
  - destruct (_ && _); [reflexivity|]. symmetry. apply set_tails_same.
  - destruct (_ || _); [reflexivity|]. symmetry. apply set_tails_same.
Qed.

Lemma discard_fold_only_tails previousTail newTail (l : list slot) s :
  fold_left (fun s index =>
               discardTcpServerBytes_index previousTail newTail index s) l s
  = set_tcpServerClientTails
      (tcpServerClientTails
         (fold_left (fun s index =>
                       discardTcpServerBytes_index previousTail newTail
                         index s) l s)) s.
Proof.
  revert s. induction l as [|j l IH]; intros s; cbn [fold_left].
  - symmetry. apply set_tails_same.
  - rewrite IH at 1.
    rewrite (discardTcpServerBytes_index_only_tails previousTail newTail j s)
      at 2.
    apply set_tails_set_tails.
Qed.

(** X4: after a discard notification with distinct bounds (offsets of the
    buffer, as are the tails), no tail is left inside the discarded range
    [oldTail, newTail) and every tail is still an offset of the buffer; the
    discard changes the tails and nothing else of the state, and the same
    notification a second time changes nothing. *)
Theorem discardTcpServerBytes_clears_range (C oldTail newTail : Z)
    (s : State) :
  0 <= oldTail < C -> 0 <= newTail < C -> oldTail <> newTail ->
  (forall i : slot, 0 <= tcpServerClientTails s !!! i < C) ->
  let s' := discardTcpServerBytes oldTail newTail s in
  (forall i : slot,
     in_discarded_range C oldTail newTail (tcpServerClientTails s' !!! i)
     = false)
  /\ (forall i : slot, 0 <= tcpServerClientTails s' !!! i < C)
  /\ s' = set_tcpServerClientTails (tcpServerClientTails s') s
  /\ discardTcpServerBytes oldTail newTail s' = s'.
Proof.
  intros Ho Hn Hne Ht s'.
  assert (Htail : forall i,
            tcpServerClientTails s' !!! i
            = if in_discarded_range C oldTail newTail
                   (tcpServerClientTails s !!! i)
              then newTail else tcpServerClientTails s !!! i).
  { intros i. subst s'. rewrite discardTcpServerBytes_tails.
    now apply discard_tail_range. }
  assert (Hout : forall i,
            in_discarded_range C oldTail newTail
              (tcpServerClientTails s' !!! i) = false).
  { intros i. rewrite Htail.
    destruct (in_discarded_range C oldTail newTail
                (tcpServerClientTails s !!! i)) eqn:Hin; [|exact Hin].
    unfold in_discarded_range. apply Z.ltb_irrefl. }
  assert (Hbuf : forall i, 0 <= tcpServerClientTails s' !!! i < C).
  { intros i. rewrite Htail. destruct (in_discarded_range _ _ _ _);
      [exact Hn|apply Ht]. }
  split; [exact Hout|]. split; [exact Hbuf|]. split.
  - apply discard_fold_only_tails.
  - unfold discardTcpServerBytes at 1.
    rewrite discard_fold_only_tails.
    fold (discardTcpServerBytes oldTail newTail s').
    replace (tcpServerClientTails (discardTcpServerBytes oldTail newTail s'))
      with (tcpServerClientTails s'); [apply set_tails_same|].
    apply vec_eq. intros i. rewrite discardTcpServerBytes_tails.
    rewrite (discard_tail_range C) by auto. now rewrite Hout.
Qed.

Lemma discardTcpServerBytes_clears_range_witness :
  in_discarded_range 1000 100 150
    (tcpServerClientTails
       (discardTcpServerBytes 100 150 (with_tails 120 90 150 0)) !!! 0%fin)
  = false.
Proof.
  apply (discardTcpServerBytes_clears_range 1000 100 150
           (with_tails 120 90 150 0)); try lia.
  intros i. each_slot i; vm_compute; split; discriminate || reflexivity.
Defined.

(** ** Draining a client whose socket accepts everything *)

Lemma accepts_all_bounded e :
  (forall i : slot, accepts_all e i) -> write_bounded e.
Proof. intros H i off len Hlen. rewrite H. lia. Qed.

(** One pass for a slot whose socket accepts all it is offered: the run up
    to the head, or up to the end of the buffer, is sent whole. *)
Lemma tcpServerSendData_slot_full e dataHead s i :
  buffer_ok e -> in_buffer e dataHead -> occupied s i = true ->
  in_buffer e (tcpServerClientTails s !!! i) -> accepts_all e i ->
  let s' := snd (tcpServerSendData e dataHead s) in
  occupied s' i = true
  /\ tcpServerClientTails s' !!! i
     = if tcpServerClientTails s !!! i <=? dataHead then dataHead else 0.
Proof.
  intros HC Hh Hocc Ht Hall s'.
  set (C := settings_gnssHandlerBufferSize e).
  set (tail := tcpServerClientTails s !!! i).
  destruct (all_slots_loop_local (fun acc i => slot_obs (snd acc) i)
              (tcpServerSendData_index e dataHead)
              (fun i j a H => tcpServerSendData_index_other e dataHead i j a H)
              (0, s) i) as ([u1 s1] & H1 & Hs').
  fold (tcpServerSendData e dataHead s) in Hs'. fold s' in Hs'.
  cbn [snd] in H1.
  pose proof (slot_obs_tail _ _ _ H1) as Htail1.
  pose proof (slot_obs_occupied _ _ _ H1) as Hocc1.
  rewrite Hocc in Hocc1. fold tail in Htail1.
  assert (Ht1 : in_buffer e (tcpServerClientTails s1 !!! i))
    by now rewrite Htail1.
  rewrite (slot_obs_tail _ _ _ Hs'), (slot_obs_occupied _ _ _ Hs').
  pose proof (unread_range C dataHead tail ltac:(apply HC)) as Hur.
  assert (Hmod : unread C dataHead tail
                 = if tail <=? dataHead then dataHead - tail
                   else dataHead - tail + C).
  { unfold unread. rewrite mod_diff by assumption.
    destruct (Z.ltb_spec dataHead tail), (Z.leb_spec tail dataHead); lia. }
  unfold in_buffer in Ht, Hh. fold C tail in Ht, Hh.
  destruct (Z.eq_dec (unread C dataHead tail) 0) as [Hz|Hnz].
  - rewrite tcpServerSendData_index_idle; try assumption;
      [|rewrite Htail1; exact Hz].
    cbn [snd]. split; [exact Hocc1|]. rewrite Htail1.
    destruct (Z.leb_spec tail dataHead); lia.
  - destruct (tcpServerSendData_index_send e dataHead i u1 s1 HC Hh Ht1 Hocc1)
      as (Hlen & Hfit & Hstep); [rewrite Htail1; exact Hnz|].
    rewrite Htail1 in Hlen, Hfit, Hstep. fold C in Hlen, Hfit, Hstep.
    set (length := Z.min (unread C dataHead tail) (C - tail)) in *.
    assert (Hw : uint16 (clientWrite e i tail (uint16 length)) = length).
    { rewrite (uint16_small length) by lia. rewrite Hall.
      apply uint16_small. lia. }
    destruct (tcpServerClientSendData_written e i tail length s1)
      as (Hret & Hview & _); [rewrite Hw; lia|].
    rewrite Hw in Hret. rewrite Hret in Hstep. rewrite Hstep by lia.
    cbn [snd]. split.
    + destruct (slot_view_fields _ _ _ Hview) as (Ho & _).
      unfold occupied in *. cbn [tcpServerClientConnected
        set_tcpServerClientTails]. rewrite Ho. exact Hocc1.
    + cbn [tcpServerClientTails set_tcpServerClientTails].
      rewrite vlookup_insert. unfold length. rewrite Hmod.
      destruct (Z.leb_spec tail dataHead).
      * rewrite Z.min_l by lia.
        replace (tail + (dataHead - tail)) with dataHead by lia.
        apply Z.mod_small. lia.
      * rewrite Z.min_r by lia.
        replace (tail + (C - tail)) with C by lia. apply Z_mod_same_full.
Qed.

(** X5: when every socket accepts all it is offered, two passes of
    [tcpServerSendData] with the same head drain every occupied slot: a
    first pass brings a tail to the head, or to offset 0 when the unread
    bytes wrap around the end of the buffer; after the second pass every
    occupied slot is still occupied with its tail at the head, and the
    second pass returns 0. *)
Theorem tcpServerSendData_two_passes_drain (e : Env) (dataHead : Z)
    (s : State) :
  buffer_ok e -> in_buffer e dataHead ->
  (forall i : slot, accepts_all e i) ->
  (forall i : slot,
     occupied s i = true -> in_buffer e (tcpServerClientTails s !!! i)) ->
  let s1 := snd (tcpServerSendData e dataHead s) in
  let s2 := snd (tcpServerSendData e dataHead s1) in
  (forall i : slot,
     occupied s i = true ->
     tcpServerClientTails s1 !!! i
     = (if tcpServerClientTails s !!! i <=? dataHead then dataHead else 0)
     /\ occupied s2 i = true
     /\ tcpServerClientTails s2 !!! i = dataHead)
  /\ fst (tcpServerSendData e dataHead s1) = 0.
Proof.
  intros HC Hh Hall Ht s1 s2.
  assert (Hzero : in_buffer e 0).
  { unfold in_buffer, buffer_ok in *. lia. }
  assert (H1 : forall i, occupied s i = true ->
             occupied s1 i = true
             /\ tcpServerClientTails s1 !!! i
                = (if tcpServerClientTails s !!! i <=? dataHead
                   then dataHead else 0)
             /\ in_buffer e (tcpServerClientTails s1 !!! i)
             /\ tcpServerClientTails s1 !!! i <= dataHead).
  { intros i Hocc.
    destruct (tcpServerSendData_slot_full e dataHead s i HC Hh Hocc
                (Ht i Hocc) (Hall i)) as (Ho & Htail).
    fold s1 in Ho, Htail. rewrite Htail.
    repeat split; try assumption;
      destruct (_ <=? _); unfold in_buffer in *; try assumption; lia. }
  assert (Hocc1 : forall i, occupied s1 i = true -> occupied s i = true).
  { intros i Hi. destruct (occupied s i) eqn:Hocc; [reflexivity|].
    pose proof (tcpServerSendData_unoccupied e dataHead s i Hocc) as Hobs.
    fold s1 in Hobs. apply pair_equal_spec in Hobs as [Hview _].
    destruct (slot_view_fields _ _ _ Hview) as (Ho & _).
    cbn [sv_connected] in Ho. congruence. }
  assert (H2 : forall i, occupied s i = true ->
             occupied s2 i = true
             /\ tcpServerClientTails s2 !!! i = dataHead).
  { intros i Hocc. destruct (H1 i Hocc) as (Ho1 & _ & Hb1 & Hle1).
    destruct (tcpServerSendData_slot_full e dataHead s1 i HC Hh Ho1 Hb1
                (Hall i)) as (Ho2 & Htail2).
    fold s2 in Ho2, Htail2. split; [exact Ho2|]. rewrite Htail2.
    destruct (Z.leb_spec (tcpServerClientTails s1 !!! i) dataHead);
      [reflexivity|lia]. }
  split.
  - intros i Hocc. destruct (H1 i Hocc) as (_ & Htail1 & _).
    destruct (H2 i Hocc). auto.
  - rewrite (tcpServerSendData_fold_used e dataHead all_slots 0 s1 HC
               (accepts_all_bounded e Hall) Hh all_slots_nodup
               (fun i _ Hi => proj1 (proj2 (proj2 (H1 i (Hocc1 i Hi)))))
               ltac:(lia) (tcpServerSendData e dataHead s1) eq_refl).
    fold s2.
    assert (Hall0 : forall l : list slot,
              (forall i, In i l -> occupied s1 i = true) ->
              foldr Z.max 0
                (map (fun index =>
                        unread (settings_gnssHandlerBufferSize e) dataHead
                          (tcpServerClientTails s2 !!! index)) l) = 0).
    { induction l as [|i l IH]; intros Hl; cbn [map foldr]; [reflexivity|].
      rewrite IH by (intros j Hj; apply Hl; now right).
      destruct (H2 i (Hocc1 i (Hl i ltac:(now left)))) as (_ & ->).
      unfold unread. rewrite Z.sub_diag, Z.mod_0_l; [reflexivity|].
      unfold buffer_ok in HC. lia. }
    apply Hall0. intros i Hi. now apply filter_In in Hi.
Qed.

Lemma tcpServerSendData_two_passes_drain_witness :
  let e := quiet_env 1000 2000 [] all_alive write_all in
  fst (tcpServerSendData e 2 (snd (tcpServerSendData e 2 two_clients))) = 0.
Proof.
  intros e.
  apply (tcpServerSendData_two_passes_drain e 2 two_clients).
  - unfold buffer_ok. vm_compute. split; [reflexivity|discriminate].
  - vm_compute. split; [discriminate|reflexivity].
  - intros i off len. reflexivity.
  - intros i _. each_slot i; vm_compute; split; discriminate || reflexivity.
Defined.

(** ** The accept pass *)

Lemma tcpServerUpdate_acceptClients_cons e j indexes pending s :
  tcpServerUpdate_acceptClients e (j :: indexes) pending s
  = if negb (test_bit (tcpServerClientConnected s) j) then
      match pending with
      | [] => s
      | client :: pending =>
          tcpServerUpdate_acceptClients e indexes pending
            (tcpServerUpdate_acceptClient e j client s)
      end
    else tcpServerUpdate_acceptClients e indexes pending s.
Proof. reflexivity. Qed.

Lemma tcpServerUpdate_acceptClient_self e (j : slot) client s :
  slot_obs (tcpServerUpdate_acceptClient e j client s) j
  = (accepted_view client (slot_view s j),
     EvClientAccept j client :: slot_events j s).
Proof.
  unfold tcpServerUpdate_acceptClient, slot_obs, slot_view, slot_events,
    accepted_view.
  destruct (display_active e _); simpl;
    rewrite !test_bit_set_bit, !decide_True, !vlookup_insert,
      bool_decide_eq_true_2 by reflexivity; reflexivity.
Qed.

Lemma tcpServerUpdate_acceptClient_other e (i j : slot) client s :
  i <> j ->
  slot_obs (tcpServerUpdate_acceptClient e j client s) i = slot_obs s i.
Proof.
  intros Hne.
  unfold tcpServerUpdate_acceptClient, slot_obs, slot_view, slot_events.
  destruct (display_active e _); simpl;
    rewrite !test_bit_set_bit, !decide_False, !vlookup_insert_ne,
      bool_decide_eq_false_2 by congruence; reflexivity.
Qed.

Lemma assigned_zip_outside (i : slot) (l : list slot)
    (pending : list IPAddress) :
  ~ In i l -> assigned i (zip l pending) = None.
Proof.
  revert pending. induction l as [|j l IH]; intros pending Hi;
    [reflexivity|].
  destruct pending as [|ip pending]; [reflexivity|].
  cbn [zip zip_with assigned].
  rewrite decide_False by (intros ->; apply Hi; now left).
  apply IH. intros Hin. apply Hi. now right.
Qed.

Lemma free_slots_ext s1 s2 (l : list slot) :
  (forall i, In i l -> occupied s1 i = occupied s2 i) ->
  free_slots s1 l = free_slots s2 l.
Proof.
  intros H. unfold free_slots. apply filter_ext_in.
  intros i Hi. now rewrite H.
Qed.

Lemma free_slots_cons s j (l : list slot) :
  free_slots s (j :: l)
  = if negb (test_bit (tcpServerClientConnected s) j)
    then j :: free_slots s l else free_slots s l.
Proof. reflexivity. Qed.

(** The accept loop over a list of distinct slots: the waiting connections
    go, in order, to the free slots of the list, in order. *)
Lemma tcpServerUpdate_acceptClients_spec e (indexes : list slot) pending s
    (i : slot) :
  List.NoDup indexes ->
  slot_obs (tcpServerUpdate_acceptClients e indexes pending s) i
  = match assigned i (zip (free_slots s indexes) pending) with
    | Some ip => (accepted_view ip (slot_view s i),
                  EvClientAccept i ip :: slot_events i s)
    | None => slot_obs s i
    end.
Proof.
  intros Hnd. revert pending s.
  induction Hnd as [|j indexes Hj Hnd IH]; intros pending s;
    [reflexivity|].
  rewrite tcpServerUpdate_acceptClients_cons, free_slots_cons.
  destruct (negb (test_bit (tcpServerClientConnected s) j)); [|apply IH].
  destruct pending as [|client pending]; [reflexivity|].
  rewrite IH.
  assert (Hfree : free_slots (tcpServerUpdate_acceptClient e j client s)
                    indexes
                  = free_slots s indexes).
  { apply free_slots_ext. intros i' Hi'.
    apply slot_obs_occupied, tcpServerUpdate_acceptClient_other.
    intros ->. contradiction. }
  rewrite Hfree. clear Hfree.
  change (zip (j :: free_slots s indexes) (client :: pending))
    with ((j, client) :: zip (free_slots s indexes) pending).
  cbn [assigned].
  destruct (decide (j = i)) as [->|Hne].
  - rewrite assigned_zip_outside.
    + apply tcpServerUpdate_acceptClient_self.
    + intros Hin. apply Hj. unfold free_slots in Hin.
      now apply filter_In in Hin.
  - pose proof (tcpServerUpdate_acceptClient_other e i j client s
                  ltac:(congruence)) as Ho.
    unfold slot_obs in Ho |- *.
    apply pair_equal_spec in Ho as [Hv He]. rewrite Hv, He.
    reflexivity.
Qed.

(** * The state of the service is consistent *)

(** ** The masks and the sockets *)

Lemma low_bits_cases m :
  low_bits m ->
  In m [0; 1; 2; 3; 4; 5; 6; 7; 8; 9; 10; 11; 12; 13; 14; 15].
Proof. unfold low_bits. cbn [In]. lia. Qed.

Lemma low_bits_0 : low_bits 0.
Proof. unfold low_bits. lia. Qed.

Lemma low_bits_set_bit m (j : slot) : low_bits m -> low_bits (set_bit m j).
Proof.
  intros Hm. apply low_bits_cases in Hm. cbn [In] in Hm.
  assert (H : ((0 <=? set_bit m j) && (set_bit m j <? 2 ^ 4)) = true).
  { each_slot j;
      repeat (destruct Hm as [<-|Hm]; [vm_compute; reflexivity|]);
      contradiction. }
  apply andb_true_iff in H as [H0 H1]. unfold low_bits. lia.
Qed.

Lemma low_bits_clear_bit m (j : slot) :
  low_bits m -> low_bits (clear_bit m j).
Proof.
  intros Hm. apply low_bits_cases in Hm. cbn [In] in Hm.
  assert (H : ((0 <=? clear_bit m j) && (clear_bit m j <? 2 ^ 4)) = true).
  { each_slot j;
      repeat (destruct Hm as [<-|Hm]; [vm_compute; reflexivity|]);
      contradiction. }
  apply andb_true_iff in H as [H0 H1]. unfold low_bits. lia.
Qed.

Lemma low_bits_free m :
  low_bits m -> (forall i : slot, test_bit m i = false) -> m = 0.
Proof.
  intros Hm H. apply low_bits_cases in Hm. cbn [In] in Hm.
  pose proof (H 0%fin) as H0. pose proof (H 1%fin) as H1.
  pose proof (H 2%fin) as H2. pose proof (H 3%fin) as H3. clear H.
  repeat (destruct Hm as [<-|Hm];
          [first [reflexivity
                 |vm_compute in H0, H1, H2, H3; congruence]|]).
  contradiction.
Qed.

Lemma slots_ok_ext s s' :
  tcpServerClientConnected s' = tcpServerClientConnected s ->
  tcpServerClientDataSent s' = tcpServerClientDataSent s ->
  tcpServerClientWriteError s' = tcpServerClientWriteError s ->
  tcpServerClient s' = tcpServerClient s ->
  tcpServerClientIsNull s' = tcpServerClientIsNull s ->
  slots_ok s -> slots_ok s'.
Proof.
  intros Hc Hd Hw Hcl Hn. unfold slots_ok, occupied_set, occupied.
  now rewrite Hc, Hd, Hw, Hcl, Hn.
Qed.

Lemma slot_table_masks s1 s2 :
  slot_table s1 = slot_table s2 ->
  tcpServerClientConnected s1 = tcpServerClientConnected s2
  /\ tcpServerClientDataSent s1 = tcpServerClientDataSent s2
  /\ tcpServerClientWriteError s1 = tcpServerClientWriteError s2
  /\ tcpServerClient s1 = tcpServerClient s2
  /\ tcpServerClientIsNull s1 = tcpServerClientIsNull s2.
Proof. unfold slot_table. intros H. injection H. auto 10. Qed.

Lemma slots_ok_table s s' :
  slot_table s' = slot_table s -> slots_ok s -> slots_ok s'.
Proof.
  intros (Hc & Hd & Hw & Hcl & Hn)%slot_table_masks.
  now apply slots_ok_ext.
Qed.

Lemma fold_slots_invariant {A : Type} (P : A -> Prop)
    (body : slot -> A -> A) (l : list slot) (a : A) :
  (forall j a, P a -> P (body j a)) ->
  P a -> P (fold_left (fun a j => body j a) l a).
Proof.
  intros Hbody. revert a.
  induction l as [|j l IH]; intros a Ha; cbn [fold_left]; auto.
Qed.

(** A slot whose socket is stopped and whose bit of the connected mask is
    cleared stays in step; so does a slot whose socket is opened and whose
    bit is set. *)
Ltac slot_cases Hs Ho :=
  let i := fresh "i" in
  intros i; unfold occupied; simpl;
  rewrite ?test_bit_clear_bit, ?test_bit_set_bit;
  try match goal with
      | |- context [decide (?j = i)] =>
          destruct (decide (j = i)) as [->|?];
          [rewrite ?vlookup_insert
          |rewrite ?vlookup_insert_ne by assumption]
      end;
  solve [reflexivity | discriminate | apply Ho | apply Hs].

Ltac slots_ok_fields Hc Hd Hw Hs Ho :=
  split; [|split; [|split; [|split]]]; simpl;
  [auto using low_bits_set_bit, low_bits_clear_bit, low_bits_0 ..
  |slot_cases Hs Ho
  |slot_cases Hs Ho].





Lemma stopClient_slots_ok e j s :
  slots_ok s -> slots_ok (stopClient e j s).
Proof.
  intros (Hc & Hd & Hw & Hs & Ho). unfold stopClient.
  destruct (display_active e _);
    [destruct (negb (client_dataSent _ j _)),
       (negb (client_connected e j _ && _))|];
    slots_ok_fields Hc Hd Hw Hs Ho.
Qed.






(** ** The life-cycle variables *)

Lemma service_ok_ext s s' :
  tcpServerState s' = tcpServerState s ->
  online_tcpServer s' = online_tcpServer s ->
  tcpServer s' = tcpServer s ->
  networkUser s' = networkUser s ->
  (forall i : slot, occupied s i = false -> occupied s' i = false) ->
  service_ok s -> service_ok s'.
Proof.
  intros Hst Hon Hl Hn Hocc (H1 & H2 & H3 & H4 & H5).
  unfold service_ok. rewrite Hst, Hon, Hl, Hn. auto 10.
Qed.

Lemma consistent_same_but_display s s' :
  same_but_display s s' -> consistent s -> consistent s'.
Proof.
  intros (Hst & Htab & Hsrv & _) [Hservice Hslots]. split.
  - apply service_fields in Hsrv as (Hon & Hl & _ & Hn).
    apply slot_table_masks in Htab as (Hc & _).
    apply (service_ok_ext s); try assumption.
    intros i. unfold occupied. now rewrite Hc.
  - now apply (slots_ok_table s).
Qed.







Lemma tcpServerStop_slots_ok e s s' :
  slots_ok s -> tcpServerStop e s = Ret s' -> slots_ok s'.
Proof.
  intros Hok. unfold tcpServerStop.
  set (s1 := if online_tcpServer s then _ else s).
  assert (H1 : slots_ok s1).
  { subst s1. destruct (online_tcpServer s); [|exact Hok].
    now apply (slots_ok_ext s). }
  set (m := if negb (tcpServerClientConnected s1 =? 0) then _ else Ret s1).
  assert (Hm : forall s2, m = Ret s2 -> slots_ok s2).
  { subst m. intros s2. destruct (negb _); [|now intros <-%Ret_inj].
    destruct (for_slots_cases (tcpServerStopClient e) (stopClient e)
                all_slots s1 (tcpServerStopClient_cases e)) as [-> | ->];
      [discriminate|].
    intros <-%Ret_inj.
    apply (fold_slots_invariant slots_ok (stopClient e)); [|exact H1].
    intros j a. apply stopClient_slots_ok. }
  clearbody m. destruct m as [s2|msg|]; [|discriminate..].
  pose proof (Hm s2 eq_refl) as H2. clear Hm.
  change (Ret s2 ≫= ?k) with (k s2). cbv beta zeta.
  set (s3 := match tcpServer s2 with Some _ => _ | None => s2 end).
  assert (H3 : slots_ok s3).
  { subst s3. destruct (tcpServer s2); [|exact H2].
    destruct (settings_debugTcpServer e && negb (inMainMenu e));
      now apply (slots_ok_ext s2). }
  clearbody s3. clear s1 H1 H2.
  destruct (negb _); [|now intros <-%Ret_inj].
  destruct (tcpServerSetState_known e TCP_SERVER_STATE_OFF
              (set_networkUser false (emit EvNetworkUserClose s3)))
    as (s4 & -> & _ & Htab & _); [reflexivity|].
  change (Ret s4 ≫= ?k) with (k s4). cbv beta.
  intros <-%Ret_inj.
  apply (slots_ok_ext s4); try reflexivity.
  apply (slots_ok_table _ _ Htab).
  now apply (slots_ok_ext s3).
Qed.

Lemma tcpServerStop_consistent e s :
  slots_ok s ->
  tcpServerState s <> TCP_SERVER_STATE_OFF ->
  stop_safe s ->
  exists s', tcpServerStop e s = Ret s'
             /\ consistent s'
             /\ tcpServerState s' = TCP_SERVER_STATE_OFF
             /\ tcpServerTimer s' = millisAtStop e.
Proof.
  intros Hok Hon Hsafe.
  destruct (tcpServerStop_spec e s Hon Hsafe)
    as (s' & Hstop & Hst & Hsrv & Hfree & _).
  exists s'. split; [exact Hstop|].
  apply tuple4_fields in Hsrv as (Ho & Hl & Ht & Hn).
  split; [split|split; assumption].
  - unfold service_ok. rewrite Hst, Ho, Hl, Hn.
    split; [unfold TCP_SERVER_STATE_OFF, TCP_SERVER_STATE_MAX; lia|].
    split; [reflexivity|].
    split; [split; [intros [x Hx]|]; discriminate|].
    split; [reflexivity|]. intros _. exact Hfree.
  - exact (tcpServerStop_slots_ok e s s' Hok Hstop).
Qed.



(** [tcpServerStop] on a stopped service: nothing to do. *)
Lemma tcpServerStop_stopped e s :
  consistent s ->
  tcpServerState s = TCP_SERVER_STATE_OFF ->
  tcpServerStop e s = Ret s.
Proof.
  intros [(_ & Hon & Hl & _ & Hfree) (Hc & _)] Hoff.
  rewrite Hoff in Hon, Hl.
  assert (Hz : tcpServerClientConnected s = 0).
  { apply low_bits_free; [exact Hc|].
    apply Hfree. rewrite Hoff. discriminate. }
  assert (Hnone : tcpServer s = None).
  { destruct (tcpServer s) eqn:E; [|reflexivity].
    assert (Hs : is_Some (Some z)) by (now exists z).
    apply Hl in Hs. discriminate. }
  unfold tcpServerStop. rewrite Hon.
  change (TCP_SERVER_STATE_OFF =? TCP_SERVER_STATE_RUNNING) with false.
  cbv iota. rewrite Hz. change (negb (0 =? 0)) with false. cbv iota.
  change (Ret s ≫= ?k) with (k s). cbv beta zeta.
  rewrite Hnone. cbv iota. rewrite Hoff. reflexivity.
Qed.

(** ** The transitions of [tcpServerUpdate] *)

Lemma set_tcpServerState_current s : set_tcpServerState (tcpServerState s) s = s.
Proof. now destruct s. Qed.

(** The two places where [tcpServerUpdate] only displays the state. *)
Lemma display_step (b : bool) e s :
  tcpServerState s < TCP_SERVER_STATE_MAX ->
  exists s', (if b then tcpServerSetState e (tcpServerState s) s else Ret s)
             = Ret s'
             /\ same_but_display s s'
             /\ calls s' = calls s.
Proof.
  intros Hst. destruct b.
  - destruct (tcpServerSetState_known_calls e _ s Hst)
      as (s' & -> & _ & _ & _ & Hcalls & Hsame).
    rewrite set_tcpServerState_current in Hsame. eauto.
  - exists s. auto using same_but_display_refl.
Qed.

Lemma tcpServerStart_spec e s :
  fst (tcpServerStart e s) = serverAllocated e
  /\ tcpServerState (snd (tcpServerStart e s)) = tcpServerState s
  /\ slot_table (snd (tcpServerStart e s)) = slot_table s
  /\ tcpServerTimer (snd (tcpServerStart e s)) = tcpServerTimer s
  /\ networkUser (snd (tcpServerStart e s)) = networkUser s
  /\ if serverAllocated e
     then tcpServer (snd (tcpServerStart e s))
          = Some (settings_tcpServerPort e)
          /\ online_tcpServer (snd (tcpServerStart e s)) = true
          /\ calls (snd (tcpServerStart e s))
             = EvServerBegin (settings_tcpServerPort e) :: calls s
     else tcpServer (snd (tcpServerStart e s)) = None
          /\ online_tcpServer (snd (tcpServerStart e s)) = online_tcpServer s
          /\ calls (snd (tcpServerStart e s)) = calls s.
Proof.
  unfold tcpServerStart.
  destruct (settings_debugTcpServer e && negb (inMainMenu e));
    destruct (serverAllocated e); cbn [negb fst snd]; repeat split.
Qed.

Lemma tcpServerUpdate_switch_OFF e s :
  tcpServerState s = TCP_SERVER_STATE_OFF ->
  exists s',
    tcpServerUpdate_switch e s = Ret s'
    /\ tcpServerState s'
       = (if wanted e && networkUserOpen e
          then TCP_SERVER_STATE_NETWORK_STARTED else TCP_SERVER_STATE_OFF)
    /\ slot_table s' = slot_table s
    /\ (online_tcpServer s', tcpServer s', tcpServerTimer s')
       = (online_tcpServer s, tcpServer s, tcpServerTimer s)
    /\ networkUser s' = (wanted e && networkUserOpen e) || networkUser s
    /\ calls s' = (if wanted e then [EvNetworkUserOpen] else []) ++ calls s.
Proof.
  intros Hoff. unfold tcpServerUpdate_switch, wanted. rewrite Hoff.
  change (TCP_SERVER_STATE_OFF =? TCP_SERVER_STATE_OFF) with true.
  cbv iota.
  destruct (rtkModeMatches e && settings_enableTcpServer e
            && negb (wifiIsConnected e)); cbn [andb orb];
    [|exists s; repeat split; assumption].
  destruct (networkUserOpen e); cbn [orb];
    [|eexists; repeat split; assumption].
  set (s1 := if settings_debugTcpServer e && negb (inMainMenu e)
             then _ else _).
  assert (H1 : slot_table s1 = slot_table s
               /\ service s1
                  = (online_tcpServer s, tcpServer s, tcpServerTimer s, true)
               /\ calls s1 = EvNetworkUserOpen :: calls s).
  { subst s1. destruct (settings_debugTcpServer e && negb (inMainMenu e));
      repeat split. }
  destruct H1 as (Htab1 & Hsrv1 & Hcalls1). clearbody s1.
  destruct (tcpServerSetState_known_calls e
              TCP_SERVER_STATE_NETWORK_STARTED s1)
    as (s' & -> & Hst & Htab & Hsrv & Hcalls & _); [reflexivity|].
  exists s'. rewrite Hsrv1 in Hsrv. unfold service in Hsrv.
  apply tuple4_fields in Hsrv as (Ho & Hl & Ht & Hn).
  rewrite Ho, Hl, Ht. repeat split; try congruence.
  rewrite Hcalls, Hcalls1. reflexivity.
Qed.

Ltac state_lia :=
  unfold TCP_SERVER_STATE_OFF, TCP_SERVER_STATE_NETWORK_STARTED,
    TCP_SERVER_STATE_RUNNING, TCP_SERVER_STATE_MAX in *; lia.


Lemma tcpServerUpdate_switch_NETWORK_STARTED e s :
  tcpServerState s = TCP_SERVER_STATE_NETWORK_STARTED ->
  (networkIsShuttingDown e = true -> stop_safe s) ->
  exists s',
    tcpServerUpdate_switch e s = Ret s'
    /\ tcpServerState s'
       = (if networkIsShuttingDown e then TCP_SERVER_STATE_OFF
          else if networkUserConnected e
                  && (1000 <=? elapsed (millisAtDelay e) s)
                  && serverAllocated e
               then TCP_SERVER_STATE_RUNNING
               else TCP_SERVER_STATE_NETWORK_STARTED)
    /\ tcpServerTimer s'
       = (if networkIsShuttingDown e then millisAtStop e
          else if networkUserConnected e
                  && (1000 <=? elapsed (millisAtDelay e) s)
               then millisAtStart e else tcpServerTimer s)
    /\ (tcpServerState s' = TCP_SERVER_STATE_RUNNING ->
        tcpServer s' = Some (settings_tcpServerPort e)
        /\ calls s' = EvServerBegin (settings_tcpServerPort e) :: calls s)
    /\ (tcpServerState s' = TCP_SERVER_STATE_NETWORK_STARTED ->
        calls s' = calls s)
    /\ tcpServerClientTails s' = tcpServerClientTails s
    /\ (consistent s -> consistent s').
Proof.
  intros Hnet Hsafe. unfold tcpServerUpdate_switch, elapsed. rewrite Hnet.
  change (TCP_SERVER_STATE_NETWORK_STARTED =? TCP_SERVER_STATE_OFF)
    with false.
  change (TCP_SERVER_STATE_NETWORK_STARTED
          =? TCP_SERVER_STATE_NETWORK_STARTED) with true.
  change (1 * 1000) with 1000.
  cbv iota.
  destruct (networkIsShuttingDown e); cbn [orb].
  { specialize (Hsafe eq_refl).
    destruct (tcpServerStop_spec e s)
      as (s' & Hstop & Hst & Hsrv & _ & _ & _ & Htails & _);
      [rewrite Hnet; discriminate|exact Hsafe|].
    exists s'. apply tuple4_fields in Hsrv as (_ & _ & Ht & _).
    split; [exact Hstop|]. split; [exact Hst|]. split; [exact Ht|].
    split; [rewrite Hst; discriminate|].
    split; [rewrite Hst; discriminate|].
    split; [exact Htails|].
    intros [_ Hslots].
    destruct (tcpServerStop_consistent e s Hslots)
      as (s2 & Hstop2 & Hok & _); [rewrite Hnet; discriminate|exact Hsafe|].
    rewrite Hstop in Hstop2. apply Ret_inj in Hstop2. now subst s2. }
  assert (Hkeep : forall s0 : State, s0 = s ->
            exists s', Ret s0 = Ret s'
              /\ tcpServerState s' = TCP_SERVER_STATE_NETWORK_STARTED
              /\ tcpServerTimer s' = tcpServerTimer s
              /\ (tcpServerState s' = TCP_SERVER_STATE_RUNNING ->
                  tcpServer s' = Some (settings_tcpServerPort e)
                  /\ calls s'
                     = EvServerBegin (settings_tcpServerPort e) :: calls s)
              /\ (tcpServerState s' = TCP_SERVER_STATE_NETWORK_STARTED ->
                  calls s' = calls s)
              /\ tcpServerClientTails s' = tcpServerClientTails s
              /\ (consistent s -> consistent s')).
  { intros s0 ->. exists s.
    split; [reflexivity|]. split; [exact Hnet|]. split; [reflexivity|].
    split; [rewrite Hnet; discriminate|]. auto. }
  destruct (networkUserConnected e); cbn [andb]; [|now apply Hkeep].
  destruct (1000 <=? uint32 (millisAtDelay e - tcpServerTimer s));
    cbn [andb];
    [|now apply Hkeep].
  clear Hkeep.
  pose proof (tcpServerStart_spec e (set_tcpServerTimer (millisAtStart e) s))
    as (Hres & Hst & Htab & Ht & Hn & Hstart).
  destruct (tcpServerStart e (set_tcpServerTimer (millisAtStart e) s))
    as [started s1].
  cbn [fst snd] in Hres, Hst, Htab, Ht, Hn, Hstart. subst started.
  change (calls (set_tcpServerTimer (millisAtStart e) s)) with (calls s) in Hstart.
  change (slot_table (set_tcpServerTimer (millisAtStart e) s)) with (slot_table s)
    in Htab.
  cbn [tcpServerState tcpServerTimer networkUser online_tcpServer
       set_tcpServerTimer] in Hst, Ht, Hn, Hstart.
  pose proof (slot_table_fields _ _ Htab) as (_ & Htails1 & _).
  destruct (serverAllocated e).
  - destruct Hstart as (Hl & Ho & Hcalls).
    destruct (tcpServerSetState_known_calls e TCP_SERVER_STATE_RUNNING s1)
      as (s' & -> & Hst' & Htab' & Hsrv' & Hcalls' & _); [reflexivity|].
    exists s'. apply service_fields in Hsrv' as (Ho' & Hl' & Ht' & Hn').
    pose proof (slot_table_fields _ _ Htab') as (_ & Htails' & _).
    split; [reflexivity|]. split; [exact Hst'|].
    split; [congruence|].
    split; [intros _; split; congruence|].
    split; [rewrite Hst'; discriminate|].
    split; [rewrite Htails', Htails1; reflexivity|].
    intros [(_ & _ & _ & Hnu & _) Hslots]. rewrite Hnet in Hnu.
    split.
    + unfold service_ok. rewrite Hst', Ho', Ho, Hl', Hl, Hn', Hn.
      split; [state_lia|]. split; [reflexivity|].
      split; [split; [reflexivity|eauto]|].
      split; [exact Hnu|]. intros H. contradiction.
    + apply (slots_ok_table s1 s' Htab'), (slots_ok_table s s1 Htab).
      exact Hslots.
  - destruct Hstart as (Hl & Ho & Hcalls).
    exists s1. split; [reflexivity|]. split; [congruence|].
    split; [exact Ht|].
    split; [rewrite Hst, Hnet; discriminate|].
    split; [intros _; exact Hcalls|].
    split; [exact Htails1|].
    intros [(Hk & Hon & Hls & Hnu & Hfree) Hslots].
    split.
    + pose proof (slot_table_masks _ _ Htab) as (Hc & _).
      unfold service_ok, occupied. rewrite Hst, Ho, Hl, Hn, Hc.
      split; [exact Hk|]. split; [exact Hon|].
      split; [split; [intros [x Hx]; discriminate
                     |intros H; rewrite Hnet in H; discriminate]|].
      split; [exact Hnu|]. exact Hfree.
    + apply (slots_ok_table s s1 Htab). exact Hslots.
Qed.








(** X7: on a consistent state in which no slot is occupied, or every slot
    has held a client, [tcpServerStop] returns, leaves the service
    consistent and OFF, and makes exactly the calls of [stop_calls]:
    [delay(5)] if the server was on line, [stop] on each of the four
    clients if a slot was occupied, [stop] on the listener if there was
    one, [networkUserClose] if the state was not OFF.  A further
    [tcpServerStop] (whatever the environment then is) changes nothing: no
    socket call, no output, no change of the timer. *)
Theorem tcpServerStop_settles (e : Env) (s : State) :
  consistent s ->
  stop_safe s ->
  exists s' : State,
    tcpServerStop e s = Ret s'
    /\ consistent s'
    /\ tcpServerState s' = TCP_SERVER_STATE_OFF
    /\ calls s' = stop_calls s ++ calls s
    /\ forall e' : Env, tcpServerStop e' s' = Ret s'.
Proof.
  intros Hok Hsafe.
  destruct (Z.eq_dec (tcpServerState s) TCP_SERVER_STATE_OFF) as [Hoff|Hon].
  - exists s. pose proof (tcpServerStop_stopped e s Hok Hoff) as Hstop.
    split; [exact Hstop|]. split; [exact Hok|]. split; [exact Hoff|].
    split; [|intros e'; now apply tcpServerStop_stopped].
    destruct Hok as [(_ & Hon & Hl & _ & Hfree) (Hc & _)].
    rewrite Hoff in Hon, Hl.
    assert (Hz : tcpServerClientConnected s = 0).
    { apply low_bits_free; [exact Hc|].
      apply Hfree. rewrite Hoff. discriminate. }
    assert (Hnone : tcpServer s = None).
    { destruct (tcpServer s) eqn:E; [|reflexivity].
      assert (Hs : is_Some (Some z)) by (now exists z).
      apply Hl in Hs. discriminate. }
    unfold stop_calls. rewrite Hoff, Hnone, Hz, Hon. reflexivity.
  - destruct (tcpServerStop_consistent e s) as (s' & Hstop & Hok' & Hoff & _);
      [apply Hok|exact Hon|exact Hsafe|].
    destruct (tcpServerStop_spec e s Hon Hsafe)
      as (s2 & Hstop2 & _ & _ & _ & _ & _ & _ & _ & Hcalls).
    rewrite Hstop in Hstop2. apply Ret_inj in Hstop2. subst s2.
    exists s'. split; [exact Hstop|]. split; [exact Hok'|].
    split; [exact Hoff|]. split; [exact Hcalls|].
    intros e'. now apply tcpServerStop_stopped.
Qed.

Lemma tcpServerStop_settles_witness :
  exists s' : State,
    tcpServerStop (quiet_env 1000 2000 [] all_alive write_all) four_clients
    = Ret s'
    /\ tcpServerState s' = TCP_SERVER_STATE_OFF
    /\ calls s'
       = [EvNetworkUserClose; EvServerStop;
          EvClientStop 3%fin; EvClientStop 2%fin;
          EvClientStop 1%fin; EvClientStop 0%fin; EvDelay 5]
         ++ calls four_clients.
Proof.
  destruct (tcpServerStop_settles
              (quiet_env 1000 2000 [] all_alive write_all) four_clients)
    as (s' & Hstop & _ & Hoff & Hcalls & _).
  - split.
    + split; [cbn; state_lia|]. split; [reflexivity|].
      split; [split; [reflexivity|intros _; eexists; reflexivity]|].
      split; [reflexivity|]. intros H. exfalso. apply H. reflexivity.
    + split; [|split; [|split; [|split]]];
        [unfold low_bits; cbn; lia ..
        |intros i; each_slot i; reflexivity
        |intros i; each_slot i; reflexivity].
  - right. intros i. each_slot i; reflexivity.
  - exists s'. split; [exact Hstop|]. split; [exact Hoff|]. exact Hcalls.
Defined.


(** X8: [tcpServerUpdate] in the OFF state.  It asks the network layer for
    the network exactly when the mode matches, the server is enabled and
    WiFi is not connected, and moves to NETWORK_STARTED exactly when the
    network layer grants it; it then holds the network handle.  It makes
    no other call, and leaves the slot table, the listener and the timer
    alone: the timer is not restarted on the way to NETWORK_STARTED. *)
Theorem tcpServerUpdate_OFF (e : Env) (s : State) :
  tcpServerState s = TCP_SERVER_STATE_OFF ->
  exists s' : State,
    tcpServerUpdate e s = Ret s'
    /\ tcpServerState s'
       = (if wanted e && networkUserOpen e
          then TCP_SERVER_STATE_NETWORK_STARTED else TCP_SERVER_STATE_OFF)
    /\ slot_table s' = slot_table s
    /\ (online_tcpServer s', tcpServer s', tcpServerTimer s')
       = (online_tcpServer s, tcpServer s, tcpServerTimer s)
    /\ networkUser s' = (wanted e && networkUserOpen e) || networkUser s
    /\ calls s' = (if wanted e then [EvNetworkUserOpen] else []) ++ calls s.
Proof.
  intros Hoff. unfold tcpServerUpdate.
  destruct (display_step (deadManWalking e) e s)
    as (s1 & -> & (Hst1 & Htab1 & Hsrv1 & _) & Hcalls1);
    [rewrite Hoff; reflexivity|].
  change (Ret s1 ≫= ?k) with (k s1). cbv beta.
  rewrite Hst1, Hoff.
  change (TCP_SERVER_STATE_OFF <? TCP_SERVER_STATE_OFF) with false.
  cbv iota.
  replace (if negb (rtkModeMatches e) || negb (settings_enableTcpServer e)
           then Ret s1 else Ret s1) with (Ret s1)
    by (now destruct (negb _ || negb _)).
  change (Ret s1 ≫= ?k) with (k s1). cbv beta.
  destruct (tcpServerUpdate_switch_OFF e s1)
    as (s2 & -> & Hst2 & Htab2 & Hsrv2 & Hn2 & Hcalls2);
    [rewrite Hst1; exact Hoff|].
  change (Ret s2 ≫= ?k) with (k s2). cbv beta.
  destruct (display_step (PD_TCP_SERVER_STATE (periodicDisplay s2)
                          && negb (inMainMenu e)) e s2)
    as (s3 & -> & (Hst3 & Htab3 & Hsrv3 & _) & Hcalls3).
  { rewrite Hst2. now destruct (wanted e && networkUserOpen e). }
  exists s3.
  apply service_fields in Hsrv1 as (Ho1 & Hl1 & Ht1 & Hn1).
  apply service_fields in Hsrv3 as (Ho3 & Hl3 & Ht3 & Hn3).
  apply tuple3_fields in Hsrv2 as (Ho2 & Hl2 & Ht2).
  rewrite Ho3, Hl3, Ht3, Ho2, Hl2, Ht2, Ho1, Hl1, Ht1.
  split; [reflexivity|]. split; [congruence|]. split; [congruence|].
  split; [reflexivity|]. split; congruence.
Qed.

Lemma tcpServerUpdate_OFF_witness :
  exists s' : State,
    tcpServerUpdate (quiet_env 1000 0 [] all_alive write_all) initial_state
    = Ret s'
    /\ tcpServerState s' = TCP_SERVER_STATE_NETWORK_STARTED
    /\ calls s' = [EvNetworkUserOpen].
Proof.
  destruct (tcpServerUpdate_OFF (quiet_env 1000 0 [] all_alive write_all)
              initial_state eq_refl)
    as (s' & Hrun & Hst & _ & _ & _ & Hcalls).
  exists s'. auto.
Defined.

(** X9: [tcpServerUpdate] in the NETWORK_STARTED state.  The service goes
    back to OFF when the mode no longer matches, the server is disabled or
    the network is shutting down, provided that no slot is occupied or
    every slot has held a client (so that [tcpServerStop] meets no null
    pointer; no slot is occupied in any state that the service reaches
    outside RUNNING), and the timer is then what [millis()] gives in
    [tcpServerStop]; otherwise,
    once the network is connected and the [millis()] of the test is one
    second past the timer, it sets the timer to a further [millis()] and
    tries to start the listener, and moves to RUNNING (listener on
    [settings.tcpServerPort], [begin] called) exactly when the listener
    could be allocated.  When the allocation fails the state is kept and
    the next attempt is one second later.  No tail is touched. *)
Theorem tcpServerUpdate_NETWORK_STARTED (e : Env) (s : State) :
  tcpServerState s = TCP_SERVER_STATE_NETWORK_STARTED ->
  (unwanted e || networkIsShuttingDown e = true -> stop_safe s) ->
  exists s' : State,
    tcpServerUpdate e s = Ret s'
    /\ tcpServerState s'
       = (if unwanted e || networkIsShuttingDown e
          then TCP_SERVER_STATE_OFF
          else if networkUserConnected e
                  && (1000 <=? elapsed (millisAtDelay e) s)
                  && serverAllocated e
               then TCP_SERVER_STATE_RUNNING
               else TCP_SERVER_STATE_NETWORK_STARTED)
    /\ tcpServerTimer s'
       = (if unwanted e || networkIsShuttingDown e then millisAtStop e
          else if networkUserConnected e
                  && (1000 <=? elapsed (millisAtDelay e) s)
               then millisAtStart e else tcpServerTimer s)
    /\ (tcpServerState s' = TCP_SERVER_STATE_RUNNING ->
        tcpServer s' = Some (settings_tcpServerPort e)
        /\ calls s' = EvServerBegin (settings_tcpServerPort e) :: calls s)
    /\ (tcpServerState s' = TCP_SERVER_STATE_NETWORK_STARTED ->
        calls s' = calls s)
    /\ tcpServerClientTails s' = tcpServerClientTails s.
Proof.
  intros Hnet Hsafe. unfold tcpServerUpdate, unwanted in *.
  destruct (display_step (deadManWalking e) e s)
    as (s1 & -> & (Hst1 & Htab1 & Hsrv1 & _) & Hcalls1);
    [rewrite Hnet; reflexivity|].
  change (Ret s1 ≫= ?k) with (k s1). cbv beta.
  apply service_fields in Hsrv1 as (_ & _ & Ht1 & _).
  assert (Hsafe1 : negb (rtkModeMatches e)
                   || negb (settings_enableTcpServer e)
                   || networkIsShuttingDown e = true -> stop_safe s1).
  { intros Hstop. specialize (Hsafe Hstop).
    apply slot_table_masks in Htab1 as (Hc1 & _ & _ & _ & Hn1).
    unfold stop_safe. now rewrite Hc1, Hn1. }
  apply slot_table_fields in Htab1 as (_ & Htails1 & _).
  rewrite Hnet in Hst1.
  assert (Hel : elapsed (millisAtDelay e) s1 = elapsed (millisAtDelay e) s)
    by (unfold elapsed; now rewrite Ht1).
  rewrite Hst1.
  change (TCP_SERVER_STATE_OFF <? TCP_SERVER_STATE_NETWORK_STARTED)
    with true.
  cbv iota.
  destruct (negb (rtkModeMatches e) || negb (settings_enableTcpServer e))
    eqn:Htop; cbn [orb].
  - destruct (tcpServerStop_spec e s1)
      as (s2 & -> & Hst2 & Hsrv2 & _ & _ & _ & Htails2 & _);
      [rewrite Hst1; discriminate|apply Hsafe1; reflexivity|].
    change (Ret s2 ≫= ?k) with (k s2). cbv beta.
    rewrite (tcpServerUpdate_switch_OFF_idle e s2 Hst2).
    2:{ destruct (rtkModeMatches e), (settings_enableTcpServer e);
          simpl in *; try discriminate; reflexivity. }
    change (Ret s2 ≫= ?k) with (k s2). cbv beta.
    destruct (display_step (PD_TCP_SERVER_STATE (periodicDisplay s2)
                            && negb (inMainMenu e)) e s2)
      as (s3 & -> & (Hst3 & Htab3 & Hsrv3 & _) & Hcalls3);
      [rewrite Hst2; reflexivity|].
    exists s3.
    apply service_fields in Hsrv3 as (_ & _ & Ht3 & _).
    apply slot_table_fields in Htab3 as (_ & Htails3 & _).
    apply tuple4_fields in Hsrv2 as (_ & _ & Ht2 & _).
    split; [reflexivity|]. split; [congruence|]. split; [congruence|].
    split; [rewrite Hst3, Hst2; discriminate|].
    split; [rewrite Hst3, Hst2; discriminate|]. congruence.
  - change (Ret s1 ≫= ?k) with (k s1). cbv beta.
    destruct (tcpServerUpdate_switch_NETWORK_STARTED e s1 Hst1)
      as (s2 & -> & Hst2 & Ht2 & Hrun2 & Hkeep2 & Htails2 & _).
    { intros Hshut. apply Hsafe1. exact Hshut. }
    change (Ret s2 ≫= ?k) with (k s2). cbv beta.
    destruct (display_step (PD_TCP_SERVER_STATE (periodicDisplay s2)
                            && negb (inMainMenu e)) e s2)
      as (s3 & -> & (Hst3 & Htab3 & Hsrv3 & _) & Hcalls3).
    { rewrite Hst2. destruct (networkIsShuttingDown e); [reflexivity|].
      now destruct (networkUserConnected e && _ && _). }
    exists s3.
    apply service_fields in Hsrv3 as (_ & Hl3 & Ht3 & _).
    apply slot_table_fields in Htab3 as (_ & Htails3 & _).
    rewrite Hel in Hst2, Ht2. rewrite Ht1 in Ht2.
    split; [reflexivity|]. split; [congruence|]. split; [congruence|].
    rewrite Hst3, Hl3, Hcalls3, Htails3, Htails2, Htails1, <- Hcalls1.
    auto.
Qed.

Lemma tcpServerUpdate_NETWORK_STARTED_witness :
  exists s' : State,
    tcpServerUpdate (quiet_env 1000 1000 [] all_alive write_all)
      (set_tcpServerState TCP_SERVER_STATE_NETWORK_STARTED
         (set_networkUser true initial_state))
    = Ret s'
    /\ tcpServerState s' = TCP_SERVER_STATE_RUNNING
    /\ tcpServer s' = Some 2948.
Proof.
  destruct (tcpServerUpdate_NETWORK_STARTED
              (quiet_env 1000 1000 [] all_alive write_all)
              (set_tcpServerState TCP_SERVER_STATE_NETWORK_STARTED
                 (set_networkUser true initial_state))
              eq_refl (fun _ => or_introl eq_refl))
    as (s' & Hrun & Hst & _ & Hl & _).
  assert (Hrunning : tcpServerState s' = TCP_SERVER_STATE_RUNNING)
    by (rewrite Hst; vm_compute; reflexivity).
  exists s'. split; [exact Hrun|]. split; [exact Hrunning|].
  now apply Hl.
Defined.


(** [tcpServerStop] on a state that differs from a consistent RUNNING state
    by display output only. *)
Lemma tcpServerStop_from_RUNNING e s0 s :
  consistent s0 ->
  tcpServerState s0 = TCP_SERVER_STATE_RUNNING ->
  stop_safe s0 ->
  same_but_display s0 s ->
  calls s = calls s0 ->
  exists s',
    tcpServerStop e s = Ret s'
    /\ consistent s'
    /\ tcpServerState s' = TCP_SERVER_STATE_OFF
    /\ service s' = (false, None, millisAtStop e, false)
    /\ tcpServerClientTails s' = tcpServerClientTails s0
    /\ calls s'
       = EvNetworkUserClose :: EvServerStop
         :: (if tcpServerClientConnected s0 =? 0 then []
             else [EvClientStop 3%fin; EvClientStop 2%fin;
                   EvClientStop 1%fin; EvClientStop 0%fin])
         ++ EvDelay 5 :: calls s0.
Proof.
  intros Hok Hrun Hsafe Hsame Hcalls.
  pose proof (consistent_same_but_display s0 s Hsame Hok) as Hok'.
  destruct Hsame as (Hst & Htab & Hsrv & _).
  apply service_fields in Hsrv as (Hon & Hl & _ & _).
  pose proof (slot_table_masks _ _ Htab) as (Hc & _ & _ & _ & Hn).
  pose proof (slot_table_fields _ _ Htab) as (_ & Htails & _).
  assert (Hsafe' : stop_safe s)
    by (unfold stop_safe; now rewrite Hc, Hn).
  assert (Hne : tcpServerState s <> TCP_SERVER_STATE_OFF)
    by (rewrite Hst, Hrun; discriminate).
  destruct (tcpServerStop_consistent e s) as (s' & Hstop & Hcons & Hoff & _);
    [apply Hok'|exact Hne|exact Hsafe'|].
  destruct (tcpServerStop_spec e s Hne Hsafe')
    as (s2 & Hstop2 & _ & Hsrv2 & _ & _ & _ & Htails2 & _ & Hcalls2).
  rewrite Hstop in Hstop2. apply Ret_inj in Hstop2. subst s2.
  exists s'. split; [exact Hstop|]. split; [exact Hcons|].
  split; [exact Hoff|]. split; [exact Hsrv2|].
  split; [congruence|].
  rewrite Hcalls2, Hcalls. unfold stop_calls. rewrite Hst, Hl, Hc, Hon, Hrun.
  destruct Hok as [(_ & Honline & Hlistener & _) _].
  rewrite Hrun in Honline, Hlistener. rewrite Honline.
  destruct (tcpServer s0) as [port|] eqn:E.
  - change (negb (TCP_SERVER_STATE_RUNNING =? TCP_SERVER_STATE_OFF))
      with true.
    change (TCP_SERVER_STATE_RUNNING =? TCP_SERVER_STATE_RUNNING) with true.
    destruct (tcpServerClientConnected s0 =? 0); reflexivity.
  - destruct Hlistener as [_ Hsome]. destruct (Hsome eq_refl) as [x Hx].
    discriminate.
Qed.

(** X19: a transition out of RUNNING that meets no null pointer.  On a
    consistent RUNNING state in which no slot is occupied or every slot has
    held a client, a [tcpServerUpdate] that finds the mode not matching,
    the server disabled or the network shutting down returns with the
    service consistent and OFF: no slot is occupied and every socket is
    closed, there is no listener, [online.tcpServer] is clear, the network
    handle is released and the timer is what [millis()] gives in
    [tcpServerStop].  The calls it makes are, in this order: [delay(5)],
    [stop] on each of the four clients if a slot was occupied, [stop] on
    the listener, [networkUserClose].  No tail is touched. *)
Theorem tcpServerUpdate_shutdown_completes (e : Env) (s : State) :
  consistent s ->
  tcpServerState s = TCP_SERVER_STATE_RUNNING ->
  stop_safe s ->
  unwanted e || networkIsShuttingDown e = true ->
  exists s' : State,
    tcpServerUpdate e s = Ret s'
    /\ consistent s'
    /\ tcpServerState s' = TCP_SERVER_STATE_OFF
    /\ (forall i : slot,
          occupied s' i = false
          /\ isOpen (tcpServerClient s' !!! i) = false)
    /\ service s' = (false, None, millisAtStop e, false)
    /\ tcpServerClientTails s' = tcpServerClientTails s
    /\ calls s'
       = EvNetworkUserClose :: EvServerStop
         :: (if tcpServerClientConnected s =? 0 then []
             else [EvClientStop 3%fin; EvClientStop 2%fin;
                   EvClientStop 1%fin; EvClientStop 0%fin])
         ++ EvDelay 5 :: calls s.
Proof.
  intros Hok Hrun Hsafe Hwhy. unfold tcpServerUpdate.
  destruct (display_step (deadManWalking e) e s)
    as (s1 & -> & Hs1 & Hcalls1); [apply Hok|].
  change (Ret s1 ≫= ?k) with (k s1). cbv beta.
  assert (Hst1 : tcpServerState s1 = TCP_SERVER_STATE_RUNNING)
    by (destruct Hs1 as (-> & _); exact Hrun).
  assert (Hend : forall s2,
            consistent s2 ->
            tcpServerState s2 = TCP_SERVER_STATE_OFF ->
            service s2 = (false, None, millisAtStop e, false) ->
            tcpServerClientTails s2 = tcpServerClientTails s ->
            calls s2
            = EvNetworkUserClose :: EvServerStop
              :: (if tcpServerClientConnected s =? 0 then []
                  else [EvClientStop 3%fin; EvClientStop 2%fin;
                        EvClientStop 1%fin; EvClientStop 0%fin])
              ++ EvDelay 5 :: calls s ->
            exists s',
              (if PD_TCP_SERVER_STATE (periodicDisplay s2)
                  && negb (inMainMenu e)
               then tcpServerSetState e (tcpServerState s2) s2
               else Ret s2) = Ret s'
              /\ consistent s'
              /\ tcpServerState s' = TCP_SERVER_STATE_OFF
              /\ (forall i : slot,
                    occupied s' i = false
                    /\ isOpen (tcpServerClient s' !!! i) = false)
              /\ service s' = (false, None, millisAtStop e, false)
              /\ tcpServerClientTails s' = tcpServerClientTails s
              /\ calls s'
                 = EvNetworkUserClose :: EvServerStop
                   :: (if tcpServerClientConnected s =? 0 then []
                       else [EvClientStop 3%fin; EvClientStop 2%fin;
                             EvClientStop 1%fin; EvClientStop 0%fin])
                   ++ EvDelay 5 :: calls s).
  { intros s2 Hok2 Hoff2 Hsrv2 Htails2 Hcalls2.
    destruct (display_step (PD_TCP_SERVER_STATE (periodicDisplay s2)
                            && negb (inMainMenu e)) e s2)
      as (s3 & -> & Hs3 & Hcalls3); [apply Hok2|].
    pose proof (consistent_same_but_display s2 s3 Hs3 Hok2) as Hok3.
    destruct Hs3 as (Hst3 & Htab3 & Hsrv3 & _).
    apply slot_table_fields in Htab3 as (_ & Htails3 & _).
    exists s3. split; [reflexivity|]. split; [exact Hok3|].
    split; [congruence|].
    split; [|split; [congruence|split; congruence]].
    destruct Hok3 as [(_ & _ & _ & _ & Hfree) (_ & _ & _ & _ & Hopen)].
    assert (Hall : forall i : slot, occupied s3 i = false).
    { apply Hfree. rewrite Hst3, Hoff2. discriminate. }
    intros i. split; [apply Hall|]. rewrite Hopen. apply Hall. }
  destruct (negb (rtkModeMatches e) || negb (settings_enableTcpServer e))
    eqn:Hu.
  - rewrite Hst1.
    change (TCP_SERVER_STATE_OFF <? TCP_SERVER_STATE_RUNNING) with true.
    cbv iota.
    destruct (tcpServerStop_from_RUNNING e s s1 Hok Hrun Hsafe Hs1 Hcalls1)
      as (s2 & -> & Hok2 & Hoff2 & Hsrv2 & Htails2 & Hcalls2).
    change (Ret s2 ≫= ?k) with (k s2). cbv beta.
    rewrite (tcpServerUpdate_switch_OFF_idle e s2 Hoff2).
    2:{ destruct (rtkModeMatches e), (settings_enableTcpServer e);
          try discriminate; reflexivity. }
    change (Ret s2 ≫= ?k) with (k s2). cbv beta.
    now apply Hend.
  - change (Ret s1 ≫= ?k) with (k s1). cbv beta.
    assert (Hshut : networkIsShuttingDown e = true).
    { unfold unwanted in Hwhy. rewrite Hu in Hwhy. exact Hwhy. }
    pose proof (consistent_same_but_display s s1 Hs1 Hok) as Hok1.
    rewrite (tcpServerUpdate_switch_RUNNING e s1 Hst1) by apply Hok1.
    rewrite Hshut, orb_true_r.
    set (s1' := if display_active e _ then _ else s1).
    assert (H1 : same_but_display s s1' /\ calls s1' = calls s).
    { subst s1'. destruct (display_active e _); [|auto].
      destruct Hs1 as (H1 & H2 & H3 & H4).
      split; [|exact Hcalls1].
      split; [exact H1|]. split; [exact H2|]. split; [exact H3|exact H4]. }
    destruct H1 as [Hs1' Hcalls1']. clearbody s1'.
    destruct (tcpServerStop_from_RUNNING e s s1' Hok Hrun Hsafe Hs1' Hcalls1')
      as (s2 & -> & Hok2 & Hoff2 & Hsrv2 & Htails2 & Hcalls2).
    change (Ret s2 ≫= ?k) with (k s2). cbv beta.
    now apply Hend.
Qed.

Lemma tcpServerUpdate_shutdown_completes_witness :
  exists s' : State,
    tcpServerUpdate
      (shutting_down (quiet_env 1000 2000 [] all_alive write_all))
      four_clients
    = Ret s'
    /\ tcpServerState s' = TCP_SERVER_STATE_OFF
    /\ tcpServerTimer s' = 2000
    /\ calls s'
       = [EvNetworkUserClose; EvServerStop;
          EvClientStop 3%fin; EvClientStop 2%fin;
          EvClientStop 1%fin; EvClientStop 0%fin; EvDelay 5]
         ++ calls four_clients.
Proof.
  destruct (tcpServerUpdate_shutdown_completes
              (shutting_down (quiet_env 1000 2000 [] all_alive write_all))
              four_clients)
    as (s' & Hstop & _ & Hoff & _ & Hsrv & _ & Hcalls).
  - split.
    + split; [cbn; state_lia|]. split; [reflexivity|].
      split; [split; [reflexivity|intros _; eexists; reflexivity]|].
      split; [reflexivity|]. intros H. exfalso. apply H. reflexivity.
    + split; [|split; [|split; [|split]]];
        [unfold low_bits; cbn; lia ..
        |intros i; each_slot i; reflexivity
        |intros i; each_slot i; reflexivity].
  - reflexivity.
  - right. intros i. each_slot i; reflexivity.
  - reflexivity.
  - exists s'. split; [exact Hstop|]. split; [exact Hoff|].
    apply tuple4_fields in Hsrv as (_ & _ & Ht & _).
    split; [exact Ht|exact Hcalls].
Defined.
(** ** The accept loop and the tails at start-up *)

Lemma tcpServerUpdate_acceptClients_none e (indexes : list slot) s :
  tcpServerUpdate_acceptClients e indexes [] s = s.
Proof.
  induction indexes as [|j indexes IH]; [reflexivity|].
  rewrite tcpServerUpdate_acceptClients_cons.
  now destruct (negb _).
Qed.

Lemma tcpServerUpdate_acceptClients_full e (indexes : list slot) pending s :
  (forall i : slot, In i indexes -> occupied s i = true) ->
  tcpServerUpdate_acceptClients e indexes pending s = s.
Proof.
  induction indexes as [|j indexes IH]; intros Hfull; [reflexivity|].
  rewrite tcpServerUpdate_acceptClients_cons.
  pose proof (Hfull j (or_introl eq_refl)) as Hj. unfold occupied in Hj.
  rewrite Hj. cbn [negb]. apply IH.
  intros i Hi. apply Hfull. now right.
Qed.

(** X10: the accept loop of the RUNNING case, slot by slot.  The waiting
    connections are handed, oldest first, to the free slots in index order,
    as far as either lasts.  A slot that receives a connection becomes
    occupied with its data-sent bit set, and holds the new socket and its
    address; its tail and its write-error bit stay as they were.  Every
    other slot is untouched and sees no socket call.  The loop changes no
    tail, nor the state, the listener, the timer or the network handle. *)
Theorem tcpServerUpdate_acceptClients_assignment (e : Env) (s : State) :
  let s' := tcpServerUpdate_acceptClients e all_slots (available e) s in
  (forall i : slot,
     slot_obs s' i
     = match assigned i (zip (free_slots s all_slots) (available e)) with
       | Some ip => (accepted_view ip (slot_view s i),
                     EvClientAccept i ip :: slot_events i s)
       | None => slot_obs s i
       end)
  /\ tcpServerClientTails s' = tcpServerClientTails s
  /\ tcpServerState s' = tcpServerState s
  /\ service s' = service s.
Proof.
  intros s'. split.
  - intros i. apply tcpServerUpdate_acceptClients_spec, all_slots_NoDup.
  - apply tuple3_fields.
    apply (tcpServerUpdate_acceptClients_rest e all_slots (available e) s).
Qed.

(** X11: when no connection is waiting, or when every slot is occupied, the
    accept loop leaves the whole state as it is: no socket is touched and
    nothing is printed, also with the debug output on. *)
Theorem tcpServerUpdate_acceptClients_idle (e : Env) (s : State) :
  available e = [] \/ (forall i : slot, occupied s i = true) ->
  tcpServerUpdate_acceptClients e all_slots (available e) s = s.
Proof.
  intros [Hnone|Hfull].
  - rewrite Hnone. apply tcpServerUpdate_acceptClients_none.
  - apply tcpServerUpdate_acceptClients_full. auto.
Qed.

Lemma tcpServerUpdate_acceptClients_idle_witness :
  tcpServerUpdate_acceptClients
    (debug_on (quiet_env 1000 2000 [] all_alive write_all)) all_slots
    (available (debug_on (quiet_env 1000 2000 [] all_alive write_all)))
    two_clients
  = two_clients.
Proof.
  apply tcpServerUpdate_acceptClients_idle. left. reflexivity.
Defined.

(** X12: [tcpServerZeroTail] sets the four tails to offset 0 and changes
    nothing else; afterwards every tail lies in the ring buffer, whatever
    its size. *)
Theorem tcpServerZeroTail_zeroes (e : Env) (s : State) :
  buffer_ok e ->
  tcpServerZeroTail s = set_tcpServerClientTails (vreplicate _ 0) s
  /\ forall i : slot,
       in_buffer e (tcpServerClientTails (tcpServerZeroTail s) !!! i).
Proof.
  intros HC.
  assert (H : tcpServerZeroTail s
              = set_tcpServerClientTails (vreplicate _ 0) s).
  { unfold tcpServerZeroTail, all_slots. cbn [fold_left].
    unfold set_tcpServerClientTails at 1 2 3 4 5.
    cbn [periodicDisplay online_tcpServer tcpServer tcpServerState
         tcpServerTimer tcpServerClientConnected tcpServerClientDataSent
         tcpServerClientWriteError tcpServerClient tcpServerClientIpAddress
         tcpServerClientTails networkUser trace].
    f_equal. generalize (tcpServerClientTails s). intros v.
    inv_vec v. intros. reflexivity. }
  split; [exact H|].
  intros i. rewrite H. cbn [tcpServerClientTails set_tcpServerClientTails].
  unfold in_buffer, buffer_ok in *.
  each_slot i; cbn; lia.
Qed.

Lemma tcpServerZeroTail_zeroes_witness :
  tcpServerZeroTail two_clients
  = set_tcpServerClientTails (vreplicate _ 0) two_clients.
Proof.
  apply (tcpServerZeroTail_zeroes
           (quiet_env 1000 0 [] all_alive write_all) two_clients).
  unfold buffer_ok. vm_compute. split; [reflexivity|discriminate].
Defined.

(** ** Consecutive discards *)

Lemma discard_tail_consecutive (a b c tail : Z) :
  a < b < c \/ b < c < a \/ c < a < b ->
  discard_tail b c (discard_tail a b tail) = discard_tail a c tail.
Proof.
  intros Horder. unfold discard_tail.
  repeat match goal with
         | |- context [?x <? ?y] =>
             is_var x; is_var y; destruct (Z.ltb_spec x y)
         | |- context [?x <=? ?y] =>
             is_var x; is_var y; destruct (Z.leb_spec x y)
         | _ => progress cbn [andb orb]
         end; lia.
Qed.

Lemma discardTcpServerBytes_only_tails previousTail newTail s :
  discardTcpServerBytes previousTail newTail s
  = set_tcpServerClientTails
      (tcpServerClientTails (discardTcpServerBytes previousTail newTail s))
      s.
Proof. apply discard_fold_only_tails. Qed.

Lemma set_tails_discard tails previousTail newTail s :
  set_tcpServerClientTails tails
    (discardTcpServerBytes previousTail newTail s)
  = set_tcpServerClientTails tails s.
Proof.
  rewrite (discardTcpServerBytes_only_tails previousTail newTail s).
  apply set_tails_set_tails.
Qed.

(** X18: two discard notifications for adjoining ranges, [a, b) and then
    [b, c) with the three offsets in this cyclic order, leave the state
    that the single notification for [a, c) leaves: every tail that was in
    either range ends at [c]. *)
Theorem discardTcpServerBytes_consecutive (a b c : Z) (s : State) :
  a < b < c \/ b < c < a \/ c < a < b ->
  discardTcpServerBytes b c (discardTcpServerBytes a b s)
  = discardTcpServerBytes a c s.
Proof.
  intros Horder.
  rewrite (discardTcpServerBytes_only_tails b c),
    (discardTcpServerBytes_only_tails a c), set_tails_discard.
  f_equal. apply vec_eq. intros i.
  rewrite !discardTcpServerBytes_tails.
  now apply discard_tail_consecutive.
Qed.

Lemma discardTcpServerBytes_consecutive_witness :
  discardTcpServerBytes 900 100
    (discardTcpServerBytes 500 900 (with_tails 600 950 50 200))
  = discardTcpServerBytes 500 100 (with_tails 600 950 50 200).
Proof. apply discardTcpServerBytes_consecutive. lia. Defined.

(** * The routines of the other firmware files *)

(** X13: [setMuxport] with both select pins assigned.  For a channel from 0
    to 3 the two select lines are driven with the binary digits of the
    channel number, line A the low digit and line B the high one; for any
    other channel number, negative ones included, the pins are made outputs
    and no level is written, so the multiplexer keeps its selection. *)
Theorem setMuxport_select (pin_muxA pin_muxB channelNumber : Z)
    (gpio : list gpio_event) :
  0 <= pin_muxA -> 0 <= pin_muxB ->
  setMuxport pin_muxA pin_muxB channelNumber gpio
  = (if (0 <=? channelNumber) && (channelNumber <=? 3)
     then [EvDigitalWrite pin_muxB (Z.testbit channelNumber 1);
           EvDigitalWrite pin_muxA (Z.testbit channelNumber 0)]
     else [])
    ++ EvPinMode pin_muxB :: EvPinMode pin_muxA :: gpio.
Proof.
  intros HA HB. unfold setMuxport.
  destruct (Z.leb_spec 0 pin_muxA); [|lia].
  destruct (Z.leb_spec 0 pin_muxB); [|lia]. cbn [andb].
  destruct (Z.ltb_spec 3 channelNumber).
  - destruct (Z.leb_spec channelNumber 3); [lia|].
    now rewrite andb_false_r.
  - destruct (Z.leb_spec 0 channelNumber).
    + assert (Hc : channelNumber = 0 \/ channelNumber = 1
                   \/ channelNumber = 2 \/ channelNumber = 3) by lia.
      destruct Hc as [-> | [-> | [-> | ->]]]; reflexivity.
    + destruct (Z.eqb_spec channelNumber 0); [lia|].
      destruct (Z.eqb_spec channelNumber 1); [lia|].
      destruct (Z.eqb_spec channelNumber 2); [lia|].
      destruct (Z.eqb_spec channelNumber 3); [lia|]. reflexivity.
Qed.

Lemma setMuxport_select_witness :
  setMuxport 2 4 2 []
  = [EvDigitalWrite 4 true; EvDigitalWrite 2 false; EvPinMode 4; EvPinMode 2].
Proof. apply (setMuxport_select 2 4 2 []); lia. Defined.

(** X14: [setMuxport] without an assigned pin (either pin negative) calls
    neither [pinMode] nor [digitalWrite]. *)
Theorem setMuxport_unassigned (pin_muxA pin_muxB channelNumber : Z)
    (gpio : list gpio_event) :
  pin_muxA < 0 \/ pin_muxB < 0 ->
  setMuxport pin_muxA pin_muxB channelNumber gpio = gpio.
Proof.
  intros H. unfold setMuxport.
  destruct (Z.leb_spec 0 pin_muxA), (Z.leb_spec 0 pin_muxB);
    cbn [andb]; try reflexivity. lia.
Qed.

Lemma setMuxport_unassigned_witness : setMuxport (-1) 4 2 [] = [].
Proof. apply setMuxport_unassigned. left. lia. Defined.

Lemma uint32_small x : 0 <= x < 2 ^ 32 -> uint32 x = x.
Proof. intros H. unfold uint32. now apply Z.mod_small. Qed.

(** X15: [convertGnssTimeToEpoch] for a nanosecond field within one second
    of zero, as the receiver reports it, and a date after the epoch.  The
    microseconds returned lie in [0, 1000000), and seconds and microseconds
    together denote the instant [t] seconds plus the nanoseconds divided by
    1000 with truncation toward zero: a negative nanosecond field borrows
    one second, except from -999 to -1, where the result is [t] itself. *)
Theorem convertGnssTimeToEpoch_normalised (days0 : Z) (years : Z -> Z)
    (months : Z -> Z -> Z) (g : GnssTime) :
  - 10 ^ 9 < gnssGetNanosecond g < 10 ^ 9 ->
  0 < gnssSeconds days0 years months g ->
  let '(epochSecs, epochMicros) :=
    convertGnssTimeToEpoch days0 years months g in
  0 <= epochMicros < 1000000
  /\ 0 <= epochSecs < 2 ^ 32
  /\ epochSecs * 1000000 + epochMicros
     = gnssSeconds days0 years months g * 1000000
       + Z.quot (gnssGetNanosecond g) 1000.
Proof.
  intros Hns Ht. unfold convertGnssTimeToEpoch.
  set (t := gnssSeconds days0 years months g) in *.
  assert (Htr : 0 <= t < 2 ^ 32).
  { subst t. unfold gnssSeconds, uint32. apply Z.mod_pos_bound. lia. }
  set (us := Z.quot (gnssGetNanosecond g) 1000).
  assert (Hus : - 1000000 < us < 1000000).
  { subst us. Z.to_euclidean_division_equations. lia. }
  destruct (Z.ltb_spec us 0).
  - rewrite !uint32_small by lia. lia.
  - rewrite !uint32_small by lia. lia.
Qed.

Lemma convertGnssTimeToEpoch_normalised_witness :
  let '(epochSecs, epochMicros) :=
    convertGnssTimeToEpoch 18262 (fun _ => 0) (fun _ _ => 0)
      (mkGnssTime 2020 1 1 0 0 1 (-5000)) in
  0 <= epochMicros < 1000000
  /\ 0 <= epochSecs < 2 ^ 32
  /\ epochSecs * 1000000 + epochMicros
     = gnssSeconds 18262 (fun _ => 0) (fun _ _ => 0)
         (mkGnssTime 2020 1 1 0 0 1 (-5000)) * 1000000
       + Z.quot (-5000) 1000.
Proof.
  apply (convertGnssTimeToEpoch_normalised 18262 (fun _ => 0)
           (fun _ _ => 0) (mkGnssTime 2020 1 1 0 0 1 (-5000))).
  - cbn [gnssGetNanosecond]. lia.
  - vm_compute. reflexivity.
Defined.

Lemma snprintf_fits size (text : c_string) :
  Z.of_nat (length text) < size -> snprintf size text = text.
Proof. intros H. unfold snprintf. apply take_ge. lia. Qed.

Lemma nmeaTxt_body textID textMessage :
  nmeaTxt textID textMessage
  = snprintf 200
      ("$"%char :: sentence_body textID textMessage ++ ["*"%char]).
Proof.
  unfold nmeaTxt, sentence_body. f_equal.
  change (format_02d 1) with (list_ascii_of_string "01").
  cbn [list_ascii_of_string app]. rewrite <- app_assoc. reflexivity.
Qed.

Lemma xor_chars_range (chars : c_string) : 0 <= xor_chars chars < 256.
Proof.
  unfold xor_chars.
  assert (H : forall crc, 0 <= crc < 256 ->
              0 <= fold_left (fun CRC c => uint8 (Z.lxor CRC (char_code c)))
                     chars crc < 256).
  { induction chars as [|c chars IH]; intros crc Hcrc; cbn [fold_left];
      [exact Hcrc|].
    apply IH. unfold uint8. apply Z.mod_pos_bound. lia. }
  apply H. lia.
Qed.

(** X16: [createNMEASentence] for a text that fits (the body of the
    sentence no longer than 197 characters, the caller's buffer large
    enough).  The result is [$], the body, [*] and two hexadecimal digits;
    the digits render the XOR of exactly the characters of the body, the
    [$] and the [*] left out, and that value is a byte. *)
Theorem createNMEASentence_checksum (textID sizeOfNmeaMessage : Z)
    (textMessage : c_string) :
  let body := sentence_body textID textMessage in
  Z.of_nat (length body) <= 197 ->
  Z.of_nat (length body) + 4 < sizeOfNmeaMessage ->
  createNMEASentence textID sizeOfNmeaMessage textMessage
  = Some ("$"%char :: body ++ "*"%char :: format_02X (xor_chars body))
  /\ 0 <= xor_chars body < 256.
Proof.
  intros body Hlen Hsize. split; [|apply xor_chars_range].
  unfold createNMEASentence. rewrite nmeaTxt_body. fold body.
  clearbody body.
  rewrite (snprintf_fits 200)
    by (cbn [length]; rewrite length_app; cbn [length]; lia).
  destruct (Z.eqb_spec sizeOfNmeaMessage 0); [lia|].
  unfold CRC_of. cbn [tail]. rewrite removelast_last.
  rewrite snprintf_fits
    by (rewrite length_app; cbn [length format_02X];
        rewrite length_app; cbn [length]; lia).
  cbn [app]. rewrite <- app_assoc. reflexivity.
Qed.

Lemma createNMEASentence_checksum_witness :
  createNMEASentence 1 82 (list_ascii_of_string "Hi")
  = Some (list_ascii_of_string "$GNTXT,01,01,01,Hi*71").
Proof.
  destruct (createNMEASentence_checksum 1 82 (list_ascii_of_string "Hi"))
    as [H _].
  - vm_compute. discriminate.
  - vm_compute. reflexivity.
  - rewrite H. vm_compute. reflexivity.
Defined.

(** X17: [createNMEASentence] for a text that does not fit in [nmeaTxt]
    (a body of 198 characters or more).  The sentence is cut after 198
    characters of the body, so it has lost its [*]; the two digits that
    follow render the XOR of the first 197 characters only, the last
    character kept being taken for the [*]. *)
Theorem createNMEASentence_truncated (textID sizeOfNmeaMessage : Z)
    (textMessage : c_string) :
  let body := sentence_body textID textMessage in
  198 <= Z.of_nat (length body) ->
  202 <= sizeOfNmeaMessage ->
  createNMEASentence textID sizeOfNmeaMessage textMessage
  = Some ("$"%char :: take 198 body
            ++ format_02X (xor_chars (take 197 body))).
Proof.
  intros body Hlen Hsize.
  unfold createNMEASentence. rewrite nmeaTxt_body. fold body.
  clearbody body.
  assert (Htxt : snprintf 200 ("$"%char :: body ++ ["*"%char])
                 = "$"%char :: take 198 body).
  { unfold snprintf. change (Z.to_nat (200 - 1)) with (S 198).
    cbn [take]. f_equal. apply take_app_le. lia. }
  rewrite Htxt.
  destruct (Z.eqb_spec sizeOfNmeaMessage 0); [lia|].
  unfold CRC_of. cbn [tail].
  rewrite removelast_firstn by lia.
  rewrite snprintf_fits; [reflexivity|].
  rewrite length_app. cbn [length format_02X]. rewrite length_take. lia.
Qed.

Lemma createNMEASentence_truncated_witness :
  createNMEASentence 1 300 (repeat "A"%char 200)
  = Some ("$"%char :: take 198 (sentence_body 1 (repeat "A"%char 200))
            ++ format_02X
                 (xor_chars (take 197 (sentence_body 1 (repeat "A"%char 200))))).
Proof.
  apply (createNMEASentence_truncated 1 300 (repeat "A"%char 200));
    vm_compute; discriminate.
Defined.
